(** * cluster-deployment-automation: configuration resolver and
      virtual-network reconciler

    A shallow embedding of [clustersConfig.py] (class [ClustersConfig]) and
    [virtualBridge.py] (class [VirBridge]), with the properties of the
    specification stated and proved over the embedded code.

    - [Py]: the Python values that [yaml.safe_load] produces and the
      dynamically typed operations the resolver applies to them
      ([k in v], [v[k]], [v[k] = x], iteration, [+], [append], f-strings),
      each with the exceptions Python raises.
    - [ClustersConfig]: [_load_full_config], [_apply_jinja]'s template
      functions, and the default cascade of [__init__].
    - [VirBridge]: the reconciler as a state-and-exit monad over the trace of
      commands issued to the host. *)

From Stdlib Require Import Ascii.
From stdpp Require Import gmap strings list fin_maps pretty.

Set Warnings "-register-all".

Local Open Scope string_scope.
Local Open Scope Z_scope.
Local Open Scope list_scope.

(* ===================================================================== *)
(** * Python values and operations *)
(* ===================================================================== *)

Module Py.

(** The exceptions the modelled code can raise. [SystemExit] is [sys.exit]. *)
Inductive exn : Type :=
  | KeyError
  | TypeError
  | IndexError
  | AttributeError
  | SystemExit.

Inductive result (A : Type) : Type :=
  | Ok (a : A)
  | Raise (e : exn).
Arguments Ok {A} a.
Arguments Raise {A} e.

#[export] Instance result_ret : MRet result := fun A a => Ok a.
#[export] Instance result_bind : MBind result := fun A B f m =>
  match m with
  | Ok a => f a
  | Raise e => Raise e
  end.

(** The values of a loaded YAML document: [None], booleans, integers,
    strings, lists, and mappings with string keys.  Values are trees: a
    document with YAML anchors that make one mapping reachable along two
    paths is outside this universe. *)
Inductive yaml : Type :=
  | YNone : yaml
  | YBool : bool -> yaml
  | YInt : Z -> yaml
  | YStr : string -> yaml
  | YList : list yaml -> yaml
  | YDict : gmap string yaml -> yaml.

(** [needle in hay] on two [str]. *)
Fixpoint str_in (needle hay : string) : bool :=
  String.prefix needle hay
  || match hay with
     | EmptyString => false
     | String _ rest => str_in needle rest
     end.

Definition is_str (k : string) (v : yaml) : bool :=
  match v with
  | YStr s => String.eqb s k
  | _ => false
  end.

(** [k in v] for a string [k]: key test on a mapping, substring test on a
    string, element test on a list, [TypeError] on anything else. *)
Definition contains (k : string) (v : yaml) : result bool :=
  match v with
  | YDict d => Ok (bool_decide (is_Some (d !! k)))
  | YStr s => Ok (str_in k s)
  | YList l => Ok (existsb (is_str k) l)
  | _ => Raise TypeError
  end.

(** [v[k]] for a string [k]. *)
Definition getitem (v : yaml) (k : string) : result yaml :=
  match v with
  | YDict d =>
      match d !! k with
      | Some x => Ok x
      | None => Raise KeyError
      end
  | _ => Raise TypeError
  end.

(** [v[k] = x] for a string [k]; the updated object is returned. *)
Definition setitem (v : yaml) (k : string) (x : yaml) : result yaml :=
  match v with
  | YDict d => Ok (YDict (<[k := x]> d))
  | _ => Raise TypeError
  end.

(** [v[0]]. *)
Definition getitem0 (v : yaml) : result yaml :=
  match v with
  | YList (x :: _) => Ok x
  | YList [] => Raise IndexError
  | YStr (String c _) => Ok (YStr (String c EmptyString))
  | YStr EmptyString => Raise IndexError
  | YDict _ => Raise KeyError
  | _ => Raise TypeError
  end.

Fixpoint chars (s : string) : list yaml :=
  match s with
  | EmptyString => []
  | String c rest => YStr (String c EmptyString) :: chars rest
  end.

(** The elements [for x in v] visits.  A mapping yields its keys. *)
Definition iter (v : yaml) : result (list yaml) :=
  match v with
  | YList l => Ok l
  | YStr s => Ok (chars s)
  | YDict d => Ok (YStr <$> (map_to_list d).*1)
  | _ => Raise TypeError
  end.

Definition num_of (v : yaml) : option Z :=
  match v with
  | YBool b => Some (if b then 1 else 0)
  | YInt z => Some z
  | _ => None
  end.

(** [a + b]. *)
Definition add (a b : yaml) : result yaml :=
  match a, b with
  | YList l1, YList l2 => Ok (YList (l1 ++ l2))
  | YStr s1, YStr s2 => Ok (YStr (s1 +:+ s2))
  | _, _ =>
      match num_of a, num_of b with
      | Some x, Some y => Ok (YInt (x + y))
      | _, _ => Raise TypeError
      end
  end.

(** [v.append(x)]: only a list has the method. *)
Definition append (v x : yaml) : result yaml :=
  match v with
  | YList l => Ok (YList (l ++ [x]))
  | _ => Raise AttributeError
  end.

(** Hashing, as done when a value enters a [set] or is looked up in one. *)
Definition hashable (v : yaml) : result yaml :=
  match v with
  | YList _ | YDict _ => Raise TypeError
  | _ => Ok v
  end.

(** [a == b] on hashable values ([True == 1] and [False == 0] hold). *)
Definition key_eqb (a b : yaml) : bool :=
  match a, b with
  | YNone, YNone => true
  | YStr s, YStr t => String.eqb s t
  | _, _ =>
      match num_of a, num_of b with
      | Some x, Some y => x =? y
      | _, _ => false
      end
  end.

(** [v in s] for a set [s], kept as the list of its elements. *)
Definition set_mem (v : yaml) (s : list yaml) : bool := existsb (key_eqb v) s.

(** [for x in l: x = f(x)] with exceptions propagated. *)
Fixpoint for_each {A B : Type} (f : A -> result B) (l : list A) : result (list B) :=
  match l with
  | [] => Ok []
  | x :: rest =>
      y ← f x;
      ys ← for_each f rest;
      Ok (y :: ys)
  end.

(** [os.path.join(a, b)] of [posixpath]. *)
Definition ends_with_sep (s : string) : bool :=
  match String.rev s with
  | String c _ => Ascii.eqb c "/"%char
  | EmptyString => false
  end.

Definition path_join (a b : string) : string :=
  if String.prefix "/" b then b
  else if String.eqb a "" || ends_with_sep a then a +:+ b
  else a +:+ "/" +:+ b.

Section Format.
(** [repr] of a list or a mapping, left to the interpreter. *)
Variable repr_container : yaml -> string.

(** The text an f-string interpolates for [v]. *)
Definition format (v : yaml) : string :=
  match v with
  | YNone => "None"
  | YBool true => "True"
  | YBool false => "False"
  | YInt z => pretty z
  | YStr s => s
  | _ => repr_container v
  end.
End Format.

End Py.

(* ===================================================================== *)
(** * clustersConfig.py *)
(* ===================================================================== *)

Module ClustersConfig.
Import Py.

(** Modelled from the spec: the structure the Topology Provider returns for a
    host identity ([clusterInfo.ClusterInfo], declared outside the resolver):
    the ordered worker names and the network-API port. *)
Record ClusterInfo : Type := {
  workers : list string;
  network_api_port : string;
}.

(** ** [current_host] *)

(** The ASCII characters [str.strip] removes from both ends. *)
Definition is_space (c : ascii) : bool :=
  let n := N_of_ascii c in
  ((9 <=? n) && (n <=? 13) || (28 <=? n) && (n <=? 32))%N.

Fixpoint lstrip (s : string) : string :=
  match s with
  | String c rest => if is_space c then lstrip rest else s
  | EmptyString => EmptyString
  end.

Definition strip (s : string) : string :=
  String.rev (lstrip (String.rev (lstrip s))).

(** [s.split(".")[0]]: the text before the first dot. *)
Fixpoint before_dot (s : string) : string :=
  match s with
  | String c rest => if Ascii.eqb c "."%char then EmptyString else String c (before_dot rest)
  | EmptyString => EmptyString
  end.

(** [current_host()], from what the [hostname] command printed. *)
Definition current_host (hostname_out : string) : string :=
  before_dot (strip hostname_out).

(** ** Template functions of [_apply_jinja] *)

(** [re.sub(cls, "", s)] for a pattern [cls] that is one character class:
    every character the class matches is dropped. *)
Fixpoint re_sub_class (cls : ascii -> bool) (s : string) : string :=
  match s with
  | String c rest =>
      if cls c then re_sub_class cls rest else String c (re_sub_class cls rest)
  | EmptyString => EmptyString
  end.

Definition is_digit (c : ascii) : bool :=
  let n := N_of_ascii c in ((48 <=? n) && (n <=? 57))%N.

(** The class [[^0-9]]. *)
Definition non_digit (c : ascii) : bool := negb (is_digit c).

(** [l[a]] on a list, with Python's negative indices. *)
Definition index {A : Type} (l : list A) (a : Z) : result A :=
  let i := if a <? 0 then a + Z.of_nat (length l) else a in
  if i <? 0 then Raise IndexError
  else match l !! Z.to_nat i with
       | Some x => Ok x
       | None => Raise IndexError
       end.

Section Jinja.
(** What [load_all_cluster_info()] returns, and the output of [hostname]. *)
Variable all_cluster_info : gmap string ClusterInfo.
Variable hostname_out : string.

(** [self._clusters] is threaded through: each function returns its new
    value next to its result. *)
Definition _ensure_clusters_loaded (_clusters : option ClusterInfo)
  : result ClusterInfo :=
  match _clusters with
  | Some ci => Ok ci
  | None =>
      let ch := current_host hostname_out in
      match all_cluster_info !! ch with
      | Some ci => Ok ci
      | None => Raise SystemExit
      end
  end.

Definition worker_number (_clusters : option ClusterInfo) (a : Z)
  : result (string * option ClusterInfo) :=
  ci ← _ensure_clusters_loaded _clusters;
  name ← index (workers ci) a;
  Ok (re_sub_class non_digit name, Some ci).

Definition worker_name (_clusters : option ClusterInfo) (a : Z)
  : result (string * option ClusterInfo) :=
  ci ← _ensure_clusters_loaded _clusters;
  name ← index (workers ci) a;
  Ok (name, Some ci).

Definition api_network (_clusters : option ClusterInfo)
  : result (string * option ClusterInfo) :=
  ci ← _ensure_clusters_loaded _clusters;
  Ok (network_api_port ci, Some ci).
End Jinja.

(** ** The default cascade of [__init__] *)

Section Resolver.
Variable repr_container : yaml -> string.
(** [getcwd()] *)
Variable cwd : string.

Local Abbreviation fmt := (format repr_container).

(** [if k not in v: v[k] = dflt]; [dflt] is evaluated only when the key is
    missing, and before the assignment. *)
Definition default_key (k : string) (dflt : result yaml) (v : yaml) : result yaml :=
  b ← contains k v;
  if b : bool then Ok v else x ← dflt; setitem v k x.

(** [path.join(getcwd(), f'kubeconfig.{cc["name"]}')] *)
Definition kubeconfig_default (cc : yaml) : result yaml :=
  name ← getitem cc "name";
  Ok (YStr (path_join cwd ("kubeconfig." +:+ fmt name))).

(** Lines 33-53: the keys of the cluster itself. *)
Definition cluster_defaults (cc : yaml) : result yaml :=
  cc ← default_key "masters" (Ok (YList [])) cc;
  cc ← default_key "workers" (Ok (YList [])) cc;
  cc ← default_key "kubeconfig" (kubeconfig_default cc) cc;
  cc ← default_key "preconfig" (Ok (YStr "")) cc;
  cc ← default_key "postconfig" (Ok (YStr "")) cc;
  cc ← default_key "version" (Ok (YStr "4.13.0-ec.3")) cc;
  cc ← default_key "external_port" (Ok (YStr "auto")) cc;
  cc ← default_key "network_api_port" (Ok (YStr "auto")) cc;
  cc ← default_key "proxy" (Ok YNone) cc;
  default_key "hosts" (Ok (YList [])) cc.

(** Lines 58-63: the body of the first loop over [all_nodes]. *)
Definition node_defaults (n : yaml) : result yaml :=
  n ← default_key "disk_size" (Ok (YInt 48)) n;
  n ← default_key "preallocated" (Ok (YBool true)) n;
  default_key "os_variant" (Ok (YStr "rhel8.6")) n.

(** Lines 66-69: one host entry for each node name not seen yet.
    [hosts] is [cc["hosts"]], [node_names] the set of names seen. *)
Fixpoint add_hosts (all_nodes : list yaml) (hosts : yaml) (node_names : list yaml)
  : result yaml :=
  match all_nodes with
  | [] => Ok hosts
  | h :: rest =>
      v ← getitem h "node";
      v ← hashable v;
      if set_mem v node_names then add_hosts rest hosts node_names
      else
        hosts ← append hosts (YDict {["name" := v]});
        add_hosts rest hosts (v :: node_names)
  end.

(** Lines 80-82 *)
Definition image_path_default (cc node : yaml) : result yaml :=
  cname ← getitem cc "name";
  let base_path := "/home/" +:+ fmt cname +:+ "_guests_images" in
  nname ← getitem node "name";
  let qemu_img_name := fmt nname +:+ ".qcow2" in
  Ok (YStr (path_join base_path qemu_img_name)).

(** Lines 73-82: the body of the third loop over [all_nodes]. *)
Definition node_optional_defaults (cc node : yaml) : result yaml :=
  node ← default_key "bmc_ip" (Ok YNone) node;
  node ← default_key "bmc_user" (Ok (YStr "root")) node;
  node ← default_key "bmc_password" (Ok (YStr "calvin")) node;
  default_key "image_path" (image_path_default cc node) node.

(** Lines 84-91: the body of the loop over [cc["hosts"]]. *)
Definition host_defaults (cc host_config : yaml) : result yaml :=
  host_config ← default_key "network_api_port" (getitem cc "network_api_port") host_config;
  host_config ← default_key "username" (Ok (YStr "core")) host_config;
  host_config ← default_key "password" (Ok YNone) host_config;
  default_key "pre_installed" (Ok (YStr "True")) host_config.

(** [all_nodes] is a new list, but its elements are the node objects of
    [cc["masters"]] and [cc["workers"]] themselves: what the loops assign
    into a node is assigned into the cluster.  With values instead of
    objects, the updated nodes are put back where they came from. *)
Definition store_nodes (cc masters : yaml) (all_nodes : list yaml) : result yaml :=
  match masters with
  | YList ms =>
      cc ← setitem cc "masters" (YList (take (length ms) all_nodes));
      setitem cc "workers" (YList (drop (length ms) all_nodes))
  | _ => Ok cc
  end.

(** The same for the entries of [cc["hosts"]]. *)
Definition store_hosts (cc hosts : yaml) (entries : list yaml) : result yaml :=
  match hosts with
  | YList _ => setitem cc "hosts" (YList entries)
  | _ => Ok cc
  end.

(** Lines 33-91: the body of [for cc in self.fullConfig["clusters"]]. *)
Definition resolve_cluster (cc : yaml) : result yaml :=
  cc ← cluster_defaults cc;
  masters ← getitem cc "masters";
  workers ← getitem cc "workers";
  all ← add masters workers;
  all_nodes ← iter all;
  all_nodes ← for_each node_defaults all_nodes;
  hosts ← getitem cc "hosts";
  entries ← iter hosts;
  node_names ← for_each (fun x => n ← getitem x "name"; hashable n) entries;
  hosts ← add_hosts all_nodes hosts node_names;
  all_nodes ← for_each (node_optional_defaults cc) all_nodes;
  entries ← iter hosts;
  entries ← for_each (host_defaults cc) entries;
  cc ← store_nodes cc masters all_nodes;
  store_hosts cc hosts entries.

(** ** [_load_full_config] and [__init__] *)

Section Load.
(** The file system ([None]: no such path), [yaml.safe_load], and jinja2:
    [jinja2.Template(text)] and [template.render(cluster_name=...)] with
    the three template functions bound. *)
Variable read_file : string -> option string.
Variable safe_load : string -> result yaml.
Variable Template : Type.
Variable jinja_template : string -> result Template.
Variable jinja_render : Template -> yaml -> result string.

Definition _apply_jinja (fullConfig : yaml) (contents : string) : result string :=
  template ← jinja_template contents;
  cluster_name ← getitem fullConfig "name";
  jinja_render template cluster_name.

Definition _load_full_config (yaml_path : string) : result yaml :=
  match read_file yaml_path with
  | None => Raise SystemExit
  | Some contents =>
      doc ← safe_load contents;
      clusters ← getitem doc "clusters";
      fullConfig ← getitem0 clusters;
      contents ← _apply_jinja fullConfig contents;
      doc ← safe_load contents;
      clusters ← getitem doc "clusters";
      getitem0 clusters
  end.

(** [ClustersConfig(yaml_path)]: the value of [self.fullConfig] once the
    constructor returns. *)
Definition init (yaml_path : string) : result yaml :=
  fullConfig ← _load_full_config yaml_path;
  clusters ← getitem fullConfig "clusters";
  ccs ← iter clusters;
  ccs ← for_each resolve_cluster ccs;
  match clusters with
  | YList _ => setitem fullConfig "clusters" (YList ccs)
  | _ => Ok fullConfig
  end.
End Load.
End Resolver.

(** ** Accessors *)

(** [all_nodes]: [self["masters"] + self["workers"]], as the list of its
    elements. *)
Definition all_nodes (fullConfig : yaml) : result (list yaml) :=
  masters ← getitem fullConfig "masters";
  workers ← getitem fullConfig "workers";
  all ← add masters workers;
  iter all.

(** [all_hosts]: [self["hosts"]], as the list of its elements. *)
Definition all_hosts (fullConfig : yaml) : result (list yaml) :=
  hosts ← getitem fullConfig "hosts";
  iter hosts.

End ClustersConfig.

(* ===================================================================== *)
(** * virtualBridge.py *)
(* ===================================================================== *)

Module VirBridge.
Import Py.

(** Modelled from the spec: the result of the execution contract,
    [run(command) -> {exitCode, stdout, stderr}] ([host.Result], declared
    outside the reconciler). *)
Record Result : Type := {
  out : string;
  err : string;
  returncode : Z;
}.

(** Modelled from the spec: the fields of a [NodeConfig] that the reconciler
    reads; [ip] and [mac] may be [None]. *)
Record NodeConfig : Type := {
  name : string;
  ip : option string;
  mac : option string;
}.

(** What the reconciler does to the host, in the order it does it. *)
Inductive event : Type :=
  | Run (cmd : string) (ret : Result)
  | ReadFile (path contents : string)
  | WriteFile (path contents : string)
  | Sleep (seconds : Z).

(** A call returns, or the process exits ([sys.exit]). *)
Inductive outcome (A : Type) : Type :=
  | Done (a : A)
  | Exit.
Arguments Done {A} a.
Arguments Exit {A}.

(** Computations over the trace of events so far. *)
Definition M (A : Type) : Type := list event -> outcome A * list event.

#[export] Instance M_ret : MRet M := fun A a t => (Done a, t).
#[export] Instance M_bind : MBind M := fun A B f m t =>
  match m t with
  | (Done a, t') => f a t'
  | (Exit, t') => (Exit, t')
  end.

Definition dquote : string := String "034"%char EmptyString.
Definition newline : string := String "010"%char EmptyString.

(** The text an f-string interpolates for an optional string. *)
Definition format_opt (o : option string) : string :=
  match o with
  | Some s => s
  | None => "None"
  end.

(** ** The command lines, as the f-strings build them *)

Definition dumpxml_cmd : string := "virsh net-dumpxml default".
Definition leases_cmd : string := "virsh net-dhcp-leases default".
Definition destroy_cmd : string := "virsh net-destroy default".
Definition undefine_cmd : string := "virsh net-undefine default".
Definition delete_bridge_cmd : string := "ip link delete virbr0".
Definition start_cmd : string := "virsh net-start default".
Definition enable_cmd : string := "systemctl enable libvirtd --now".
Definition restart_cmd : string := "systemctl restart libvirtd".

(** [virsh net-update default ACTION SECTION XML --live --config], with the
    XML between double quotes. *)
Definition net_update_cmd (action section xml : string) : string :=
  "virsh net-update default " +:+ action +:+ " " +:+ section +:+ " "
  +:+ dquote +:+ xml +:+ dquote +:+ " --live --config".

(** [f"<host name='{name}'/>"] and [f"<host mac='{mac}' name='{name}' ip='{ip}'/>"] *)
Definition delete_host_cmd (name : string) : string :=
  net_update_cmd "delete" "ip-dhcp-host" ("<host name='" +:+ name +:+ "'/>").

Definition host_xml (mac name ip : string) : string :=
  "<host mac='" +:+ mac +:+ "' name='" +:+ name +:+ "' ip='" +:+ ip +:+ "'/>".

Definition add_host_cmd (mac name ip : string) : string :=
  net_update_cmd "add" "ip-dhcp-host" (host_xml mac name ip).

(** [f"<range start='{start}' end='192.168.122.254'/>"] *)
Definition range_cmd (action start : string) : string :=
  net_update_cmd action "ip-dhcp-range"
    ("<range start='" +:+ start +:+ "' end='192.168.122.254'/>").

Definition define_cmd (bridge_xml : string) : string := "virsh net-define " +:+ bridge_xml.
Definition link_cmd (api_network state : string) : string :=
  "ip link set " +:+ api_network +:+ " " +:+ state.

Definition sed_qemu_conf : string :=
  "sed -e 's/#\(user\|group\) = " +:+ dquote +:+ ".*" +:+ dquote +:+ "$/\1 = "
  +:+ dquote +:+ "root" +:+ dquote +:+ "/' -i /etc/libvirt/qemu.conf".

(** The pattern of [re.search] has no metacharacter: a substring test. *)
Definition user_is_root (qemu_conf : string) : bool :=
  str_in (newline +:+ "user = " +:+ dquote +:+ "root" +:+ dquote) qemu_conf.

(** The test of [configure] on the current definition of the network. *)
Definition needs_recreation (xml : string) : bool :=
  negb (str_in "stp='off'" xml) || str_in "range start='192.168.122.2'" xml.

Definition _network_xml (ip : string) (dhcp_range : option (string * string)) : string :=
  let dhcp_part :=
    match dhcp_range with
    | None => ""
    | Some (range_start, range_end) =>
        "<dhcp>
                <range start='" +:+ range_start +:+ "' end='" +:+ range_end +:+ "'/>
                </dhcp>"
    end in
  "
                <network>
                <name>default</name>
                <forward mode='nat'/>
                <bridge name='virbr0' stp='off' delay='0'/>
                <ip address='" +:+ ip +:+ "' netmask='255.255.0.0'>
                    " +:+ dhcp_part +:+ "
                </ip>
                </network>".

Section Host.
(** The host behind [self.hostconn]: its answer to a command and the
    contents of its files may depend on everything done before. *)
Variable respond : list event -> string -> Result.
Variable file_contents : list event -> string -> string.
Variable hostname : string.

Definition sys_exit {A : Type} : M A := fun t => (Exit, t).

(** [self.hostconn.run(cmd)] *)
Definition run (cmd : string) : M Result := fun t =>
  let ret := respond t cmd in (Done ret, t ++ [Run cmd ret]).

(** Modelled from the spec: [runOrDie(command)] is [run], but fatal on a
    non-zero exit ([host.Host.run_or_die]). *)
Definition run_or_die (cmd : string) : M Result :=
  ret ← run cmd;
  if returncode ret =? 0 then mret ret else sys_exit.

(** [self.hostconn.read_file(path)] and [self.hostconn.write(path, contents)] *)
Definition read_file (path : string) : M string := fun t =>
  let contents := file_contents t path in (Done contents, t ++ [ReadFile path contents]).

Definition write (path contents : string) : M unit := fun t =>
  (Done (), t ++ [WriteFile path contents]).

(** [time.sleep(seconds)] *)
Definition sleep (seconds : Z) : M unit := fun t =>
  (Done (), t ++ [Sleep seconds]).

(** Modelled from the spec: [logger.error_and_exit] logs and terminates the
    process. *)
Definition error_and_exit {A : Type} : M A := sys_exit.

Definition setup_dhcp_entry (cfg : NodeConfig) : M unit :=
  match ip cfg with
  | None => error_and_exit
  | Some ip =>
      let mac := mac cfg in
      let name := name cfg in
      ret ← run_or_die dumpxml_cmd;
      _ ← (if str_in ("'" +:+ name +:+ "'") (out ret)
           then _ ← run_or_die (delete_host_cmd name); mret ()
           else mret ());
      ret ← run leases_cmd;
      if str_in (name +:+ " ") (out ret) then sys_exit
      else _ ← run_or_die (add_host_cmd (format_opt mac) name ip); mret ()
  end.

Definition _ensure_started (api_network bridge_xml : string) : M unit :=
  _ ← run destroy_cmd;
  ret ← run undefine_cmd;
  _ ← (if negb (returncode ret =? 0) && negb (str_in "Network not found" (err ret))
       then error_and_exit else mret ());
  _ ← run delete_bridge_cmd;
  _ ← run_or_die (define_cmd bridge_xml);
  _ ← run (link_cmd api_network "down");
  _ ← run_or_die start_cmd;
  _ ← run (link_cmd api_network "up");
  mret ().

Definition limit_dhcp_range (old_range new_range : string) : M unit :=
  ret ← run dumpxml_cmd;
  if str_in ("range start='" +:+ old_range +:+ "'") (out ret) then
    _ ← run (range_cmd "delete" old_range);
    _ ← run (range_cmd "add" new_range);
    mret ()
  else mret ().

Definition _restart : M unit :=
  _ ← run_or_die restart_cmd; mret ().

Definition _ensure_run_as_root : M unit :=
  qemu_conf ← read_file "/etc/libvirt/qemu.conf";
  if user_is_root qemu_conf && user_is_root qemu_conf then mret ()
  else
    _ ← run sed_qemu_conf;
    _restart.

Definition configure (api_network : string) : M unit :=
  _ ← run_or_die enable_cmd;
  _ ← _ensure_run_as_root;
  ret ← run dumpxml_cmd;
  if needs_recreation (out ret)
  then
    let contents :=
      if String.eqb hostname "localhost"
      then _network_xml "192.168.122.1" (Some ("192.168.122.129", "192.168.122.254"))
      else _network_xml "192.168.123.250" None in
    let bridge_xml := path_join "/tmp" "vir_bridge.xml" in
    _ ← write bridge_xml contents;
    _ ← sleep 5;
    _ ← _ensure_started api_network bridge_xml;
    _ ← limit_dhcp_range "192.168.122.2" "192.168.122.129";
    _ ← _restart;
    sleep 5
  else mret ().
End Host.

End VirBridge.

(* ===================================================================== *)
(** * Vocabulary of the properties *)
(* ===================================================================== *)

Module Props.
Import Py ClustersConfig.

(** [extends v v']: [v'] is [v] with things added and nothing replaced.  A
    mapping keeps each of its fields (the field's value may itself have been
    extended) and may gain fields; a list keeps its elements in place and may
    gain elements at its end; any other value is unchanged. *)
Inductive extends : yaml -> yaml -> Prop :=
  | extends_refl v : extends v v
  | extends_dict (d d' : gmap string yaml) :
      (forall k x, d !! k = Some x -> exists x', d' !! k = Some x' /\ extends x x') ->
      extends (YDict d) (YDict d')
  | extends_list l l' extra :
      Forall2 extends l l' ->
      extends (YList l) (YList (l' ++ extra)).

(** The distinct values of a list in order of first appearance, values
    compared as Python compares the elements of a set. *)
Fixpoint uniq_first (l : list yaml) : list yaml :=
  match l with
  | [] => []
  | v :: rest => v :: List.filter (fun w => negb (key_eqb v w)) (uniq_first rest)
  end.

(** The [node] value of every master and worker, in order. *)
Definition node_values (cc : yaml) : result (list yaml) :=
  nodes ← all_nodes cc;
  for_each (fun n => getitem n "node") nodes.

(** The [name] of every host entry, in order. *)
Definition host_names (cc : yaml) : result (list yaml) :=
  entries ← all_hosts cc;
  for_each (fun h => getitem h "name") entries.

(** The host names of a cluster as given, which may lack [hosts]. *)
Definition given_host_names (cc : yaml) : result (list yaml) :=
  b ← contains "hosts" cc;
  if b : bool then host_names cc else Ok [].

(** The values the host-synthesis loop appends for the node values [vals],
    starting from the set [seen]. *)
Fixpoint new_names (seen vals : list yaml) : list yaml :=
  match vals with
  | [] => []
  | v :: rest =>
      if set_mem v seen then new_names seen rest
      else v :: new_names (v :: seen) rest
  end.

(** [has k v]: the test [k in v] succeeds. *)
Definition has (k : string) (v : yaml) : Prop := contains k v = Ok true.

(** [adds v v']: [v'] is [v], or [v] with more keys when [v] is a mapping. *)
Definition adds (v v' : yaml) : Prop :=
  match v, v' with
  | YDict d, YDict d' => d ⊆ d'
  | _, _ => v' = v
  end.

(** The key a node contributes to the set of names, the key of a host entry,
    and the entry synthesized for a key. *)
Definition node_key (n : yaml) : result yaml := v ← getitem n "node"; hashable v.
Definition name_key (x : yaml) : result yaml := n ← getitem x "name"; hashable n.
Definition entry (v : yaml) : yaml := YDict {["name" := v]}.

(** A node, and a host entry, that the cascade has nothing left to add to. *)
Definition node_done (n : yaml) : Prop :=
  Forall (fun k => has k n)
    ["disk_size"; "preallocated"; "os_variant";
     "bmc_ip"; "bmc_user"; "bmc_password"; "image_path"].

Definition host_done (h : yaml) : Prop :=
  Forall (fun k => has k h) ["network_api_port"; "username"; "password"; "pre_installed"].

(** The keys the cascade gives a cluster. *)
Definition cluster_keys : list string :=
  ["masters"; "workers"; "kubeconfig"; "preconfig"; "postconfig"; "version";
   "external_port"; "network_api_port"; "proxy"; "hosts"].

(** The host entries of a cluster as given, which may lack [hosts]. *)
Definition given_hosts (cc : yaml) : result (list yaml) :=
  b ← contains "hosts" cc;
  if b : bool then all_hosts cc else Ok [].

(** Two clusters for examples.  In the first, both masters run on hosts that
    the input lists itself, one of them twice. *)
Definition mapping (l : list (string * yaml)) : yaml := YDict (list_to_map l).

Definition cluster_with_hosts : yaml :=
  mapping [("name", YStr "c");
           ("masters", YList [mapping [("name", YStr "m1"); ("node", YStr "A")];
                              mapping [("name", YStr "m2"); ("node", YStr "B")]]);
           ("hosts", YList [mapping [("name", YStr "B")];
                            mapping [("name", YStr "B")]])].

Definition cluster_without_hosts : yaml :=
  mapping [("name", YStr "c");
           ("masters", YList [mapping [("name", YStr "m1"); ("node", YStr "A")]]);
           ("workers", YList [mapping [("name", YStr "w1"); ("node", YStr "A")]])].

(** Entry [i] of the input, if the input has one, has no key [k]. *)
Definition lacks_at (given : list yaml) (i : nat) (k : string) : Prop :=
  match given !! i with
  | Some h => contains k h = Ok false
  | None => True
  end.

(** A [repr] for examples that never print a list or a mapping. *)
Definition no_repr : yaml -> string := fun _ => "".

(** A document with one cluster that has a name and nothing else; the
    template has nothing to expand. *)
Definition plain_document : yaml :=
  mapping [("clusters", YList [mapping [("name", YStr "c")]])].

(** Topology data with one host, which sees two workers. *)
Definition example_info : gmap string ClusterInfo :=
  {[ "host1" := {| workers := ["worker-12"; "bf-worker-3b"]; network_api_port := "eno1" |} ]}.

(** The digits of a string, in order. *)
Definition digits_of (s : string) : string :=
  String.string_of_list_ascii (List.filter is_digit (String.list_ascii_of_string s)).

End Props.

(* ===================================================================== *)
(** * Vocabulary of the reconciler's properties *)
(* ===================================================================== *)

Module BridgeProps.
Import Py VirBridge.

(** The command lines issued, in order. *)
Fixpoint commands (t : list event) : list string :=
  match t with
  | [] => []
  | Run cmd _ :: rest => cmd :: commands rest
  | _ :: rest => commands rest
  end.

(** The host's answer to the first [cmd] issued. *)
Fixpoint reply_to (cmd : string) (t : list event) : option Result :=
  match t with
  | [] => None
  | Run c ret :: rest => if String.eqb c cmd then Some ret else reply_to cmd rest
  | _ :: rest => reply_to cmd rest
  end.

(** The answer to the first [net-dumpxml], with what was done after it. *)
Fixpoint inspection (t : list event) : option (Result * list event) :=
  match t with
  | [] => None
  | Run c ret :: rest => if String.eqb c dumpxml_cmd then Some (ret, rest) else inspection rest
  | _ :: rest => inspection rest
  end.

(** The six commands of the recreation, in the order required. *)
Definition recreation_order (api_network : string) : list string :=
  [destroy_cmd; undefine_cmd; define_cmd "/tmp/vir_bridge.xml";
   link_cmd api_network "down"; start_cmd; link_cmd api_network "up"].

Definition is_recreation_cmd (api_network cmd : string) : bool :=
  existsb (String.eqb cmd) (recreation_order api_network).

(** Updates of the static DHCP host entries. *)
Definition is_delete_host (cmd : string) : bool :=
  String.prefix "virsh net-update default delete ip-dhcp-host " cmd.
Definition is_add_host (cmd : string) : bool :=
  String.prefix "virsh net-update default add ip-dhcp-host " cmd.
Definition is_host_update (cmd : string) : bool := is_delete_host cmd || is_add_host cmd.

(** The network definition [xml] has a static lease for [name], with some
    MAC and some ip. *)
Definition has_static_entry (name xml : string) : Prop :=
  exists mac ip before after, xml = before +:+ host_xml mac name ip +:+ after.

(** The active leases, once queried, show the name followed by a space. *)
Definition lease_collision (name : string) (t : list event) : bool :=
  match reply_to leases_cmd t with
  | Some ret => str_in (name +:+ " ") (out ret)
  | None => false
  end.

(** [setup_dhcp_entry] runs every command but the lease query through
    [run_or_die]: one of those exited non-zero. *)
Definition required_failed (t : list event) : bool :=
  existsb (fun e => match e with
                    | Run cmd ret => negb (String.eqb cmd leases_cmd) && negb (returncode ret =? 0)
                    | _ => false
                    end) t.

(** The commands [configure] runs through [run_or_die]. *)
Definition must_succeed (cmd : string) : bool :=
  existsb (String.eqb cmd)
    [enable_cmd; restart_cmd; define_cmd "/tmp/vir_bridge.xml"; start_cmd].

(** A failure that [configure] does not survive: a non-zero exit of a
    command that must succeed, or of [net-undefine] for another reason than
    the network not being there. *)
Definition fatal_failure (e : event) : bool :=
  match e with
  | Run cmd ret =>
      if String.eqb cmd undefine_cmd
      then negb (returncode ret =? 0) && negb (str_in "Network not found" (err ret))
      else must_succeed cmd && negb (returncode ret =? 0)
  | _ => false
  end.

(** Hosts for examples. *)
Definition reply (o : string) (rc : Z) : Result :=
  {| out := o; err := ""; returncode := rc |}.

(** A host on which every command succeeds and prints nothing. *)
Definition quiet_host : list event -> string -> Result := fun _ _ => reply "" 0.

(** A host whose network has a static entry for worker-2 and an active lease
    for worker-20. *)
Definition leased_host : list event -> string -> Result := fun _ cmd =>
  if String.eqb cmd dumpxml_cmd
  then reply "<host mac='52:54:00:00:00:02' name='worker-2' ip='192.168.122.2'/>" 0
  else if String.eqb cmd leases_cmd
  then reply " 2023-05-01 12:00:00  52:54:00:00:00:14  ipv4  192.168.122.20/24  worker-20  -" 0
  else reply "" 0.

(** The same host with an active lease for worker-2 itself. *)
Definition colliding_host : list event -> string -> Result := fun _ cmd =>
  if String.eqb cmd leases_cmd
  then reply " 2023-05-01 12:00:00  52:54:00:00:00:02  ipv4  192.168.122.2/24  worker-2  -" 0
  else reply "" 0.

(** A host on which [net-dumpxml] fails. *)
Definition broken_host : list event -> string -> Result := fun _ cmd =>
  if String.eqb cmd dumpxml_cmd then reply "" 1 else reply "" 0.

(** A host whose network still has the default range and refuses every
    [net-update]. *)
Definition readonly_host : list event -> string -> Result := fun _ cmd =>
  if String.eqb cmd dumpxml_cmd
  then reply "<range start='192.168.122.2' end='192.168.122.254'/>" 0
  else if String.prefix "virsh net-update " cmd then reply "" 1
  else reply "" 0.

Definition no_files : list event -> string -> string := fun _ _ => "".

Definition worker_2 : NodeConfig :=
  {| name := "worker-2"; ip := Some "192.168.122.2"; mac := Some "52:54:00:00:00:02" |}.

Definition worker_2_without_mac : NodeConfig :=
  {| name := "worker-2"; ip := Some "192.168.122.2"; mac := None |}.

End BridgeProps.


(* ===================================================================== *)
(** * clustersConfig.py: the methods over the loaded configuration *)
(* ===================================================================== *)

Module Accessors.
Import Py ClustersConfig.

(** [len(v)] *)
Definition len (v : yaml) : result nat :=
  match v with
  | YList l => Ok (length l)
  | YStr s => Ok (String.length s)
  | YDict d => Ok (size d)
  | _ => Raise TypeError
  end.

(** [is_sno]; the right operand of [and] is evaluated only when the left one
    is true. *)
Definition is_sno (fullConfig : yaml) : result bool :=
  masters ← getitem fullConfig "masters";
  n ← len masters;
  if bool_decide (n = 1%nat)
  then
    workers ← getitem fullConfig "workers";
    m ← len workers;
    Ok (bool_decide (m = 0%nat))
  else Ok false.

(** [[x for x in l if p(x)]] *)
Fixpoint select (p : yaml -> result bool) (l : list yaml) : result (list yaml) :=
  match l with
  | [] => Ok []
  | x :: rest =>
      b ← p x;
      xs ← select p rest;
      Ok (if b : bool then x :: xs else xs)
  end.

(** [x[key] == text] *)
Definition field_is (key text : string) (x : yaml) : result bool :=
  v ← getitem x key;
  Ok (is_str text v).

Definition all_vms (fullConfig : yaml) : result (list yaml) :=
  nodes ← all_nodes fullConfig;
  select (field_is "type" "vm") nodes.

Definition worker_vms (fullConfig : yaml) : result (list yaml) :=
  workers ← getitem fullConfig "workers";
  nodes ← iter workers;
  select (field_is "type" "vm") nodes.

Definition master_vms (fullConfig : yaml) : result (list yaml) :=
  masters ← getitem fullConfig "masters";
  nodes ← iter masters;
  select (field_is "type" "vm") nodes.

Definition local_vms (fullConfig : yaml) : result (list yaml) :=
  vms ← all_vms fullConfig;
  select (field_is "node" "localhost") vms.

Section ExternalPort.
(** [common.route_to_port(host.LocalHost(), "default")]: the interface of the
    default route, found outside the resolver. *)
Variable route_to_port : result yaml.

Definition autodetect_external_port (fullConfig : yaml) : result yaml :=
  detected ← route_to_port;
  setitem fullConfig "external_port" detected.

Definition prepare_external_port (fullConfig : yaml) : result yaml :=
  port ← getitem fullConfig "external_port";
  if is_str "auto" port then autodetect_external_port fullConfig else Ok fullConfig.
End ExternalPort.

End Accessors.

(* ===================================================================== *)
(** * Vocabulary of the further properties of the resolver *)
(* ===================================================================== *)

Module MoreProps.
Import Py ClustersConfig Props Accessors.

(** A sequence of [if k not in v: v[k] = ...] statements; the default of a
    step may read the object as the earlier steps left it. *)
Fixpoint run_defaults (steps : list (string * (yaml -> result yaml))) (v : yaml)
  : result yaml :=
  match steps with
  | [] => Ok v
  | (k, dflt) :: rest =>
      v ← default_key k (dflt v) v;
      run_defaults rest v
  end.

Definition always (x : yaml) : yaml -> result yaml := fun _ => Ok x.

(** The nodes of a cluster as given: [masters] and [workers] may be
    missing. *)
Definition given_list (key : string) (cc : yaml) : result yaml :=
  b ← contains key cc;
  if b : bool then getitem cc key else Ok (YList []).

Definition given_nodes (cc : yaml) : result (list yaml) :=
  masters ← given_list "masters" cc;
  workers ← given_list "workers" cc;
  all ← add masters workers;
  iter all.

(** The defaults of a node that do not depend on anything. *)
Definition node_default_values : list (string * yaml) :=
  [("disk_size", YInt 48); ("preallocated", YBool true); ("os_variant", YStr "rhel8.6");
   ("bmc_ip", YNone); ("bmc_user", YStr "root"); ("bmc_password", YStr "calvin")].

(** The defaults of a cluster that do not depend on anything and that the
    rest of the cascade leaves alone. *)
Definition cluster_default_values : list (string * yaml) :=
  [("preconfig", YStr ""); ("postconfig", YStr ""); ("version", YStr "4.13.0-ec.3");
   ("external_port", YStr "auto"); ("network_api_port", YStr "auto"); ("proxy", YNone)].

(** The keys every node, and every host entry, of a resolved cluster has. *)
Definition node_keys : list string :=
  ["node"; "disk_size"; "preallocated"; "os_variant";
   "bmc_ip"; "bmc_user"; "bmc_password"; "image_path"].

Definition host_keys : list string :=
  ["name"; "network_api_port"; "username"; "password"; "pre_installed"].

(** [v[k]] can be read. *)
Definition present (k : string) (v : yaml) : Prop := exists x, getitem v k = Ok x.

(** A cluster the cascade can work on: a mapping with a [name]; [masters]
    and [workers], where given, are lists of mappings that have a [node]
    that can enter a set and a [name] or an [image_path]; [hosts], where
    given, is a list of mappings whose [name] can enter a set. *)
Definition is_key (v : yaml) : bool :=
  match v with
  | YList _ | YDict _ => false
  | _ => true
  end.

Definition has_key (k : string) (d : gmap string yaml) : bool :=
  bool_decide (is_Some (d !! k)).

Definition node_ok (n : yaml) : bool :=
  match n with
  | YDict d =>
      match d !! "node" with
      | Some v => is_key v && (has_key "name" d || has_key "image_path" d)
      | None => false
      end
  | _ => false
  end.

Definition host_ok (h : yaml) : bool :=
  match h with
  | YDict d =>
      match d !! "name" with
      | Some v => is_key v
      | None => false
      end
  | _ => false
  end.

Definition list_ok (ok : yaml -> bool) (key : string) (d : gmap string yaml) : bool :=
  match d !! key with
  | None => true
  | Some (YList l) => forallb ok l
  | Some _ => false
  end.

Definition well_formed (cc : yaml) : bool :=
  match cc with
  | YDict d =>
      has_key "name" d && list_ok node_ok "masters" d && list_ok node_ok "workers" d
      && list_ok host_ok "hosts" d
  | _ => false
  end.

(** A cluster with a virtual master on the local host and a physical
    worker. *)
Definition cluster_with_vms : yaml :=
  mapping [("name", YStr "c");
           ("masters", YList [mapping [("name", YStr "m1"); ("node", YStr "localhost");
                                       ("type", YStr "vm")]]);
           ("workers", YList [mapping [("name", YStr "w1"); ("node", YStr "A");
                                       ("type", YStr "physical")]])].

End MoreProps.

(* ===================================================================== *)
(** * Vocabulary of the further properties of the reconciler *)
(* ===================================================================== *)

Module MoreBridgeProps.
Import Py VirBridge BridgeProps.

(** The files written, in order, each with its contents. *)
Fixpoint writes (t : list event) : list (string * string) :=
  match t with
  | [] => []
  | WriteFile path contents :: rest => (path, contents) :: writes rest
  | _ :: rest => writes rest
  end.

(** A host whose network is as the reconciler wants it. *)
Definition settled_host : list event -> string -> Result := fun _ cmd =>
  if String.eqb cmd dumpxml_cmd
  then reply "<bridge name='virbr0' stp='off' delay='0'/>" 0
  else reply "" 0.

(** [qemu.conf] with the user set, and a file system that has it. *)
Definition root_conf : string :=
  "# qemu.conf" +:+ newline +:+ "user = " +:+ dquote +:+ "root" +:+ dquote +:+ newline.

Definition root_files : list event -> string -> string := fun _ _ => root_conf.

Definition node_without_ip : NodeConfig :=
  {| name := "worker-2"; ip := None; mac := Some "52:54:00:00:00:02" |}.

End MoreBridgeProps.

(* ===================================================================== *)
(** * coreosBuilder.py *)
(* ===================================================================== *)

Module CoreosBuilder.
Import Py VirBridge.

(** ** The [str] methods the builder uses *)

(** [s.find(sub)]: the least index at which [sub] occurs in [s]. *)
Fixpoint find (sub s : string) : option nat :=
  if String.prefix sub s then Some 0%nat
  else match s with
       | EmptyString => None
       | String _ rest => S <$> find sub rest
       end.

(** [s[:n]] and [s[n:]] for [n >= 0]. *)
Fixpoint str_take (n : nat) (s : string) : string :=
  match n, s with
  | S k, String c rest => String c (str_take k rest)
  | _, _ => EmptyString
  end.

Fixpoint str_drop (n : nat) (s : string) : string :=
  match n, s with
  | S k, String _ rest => str_drop k rest
  | _, _ => s
  end.

(** [s.index(sub, start)] for a [start] within [s]; [None] is
    [ValueError]. *)
Definition index_from (sub s : string) (start : nat) : option nat :=
  (fun i => (start + i)%nat) <$> find sub (str_drop start s).

(** [s.split(sep)] for a separator of one character. *)
Fixpoint split_on (sep : ascii) (s : string) : list string :=
  match s with
  | EmptyString => [EmptyString]
  | String c rest =>
      if Ascii.eqb c sep then EmptyString :: split_on sep rest
      else match split_on sep rest with
           | w :: ws => String c w :: ws
           | [] => [String c EmptyString]
           end
  end.

(** [sep.join(l)] *)
Fixpoint join (sep : string) (l : list string) : string :=
  match l with
  | [] => EmptyString
  | [x] => x
  | x :: rest => x +:+ sep +:+ join sep rest
  end.

(** [s.endswith(suffix)] *)
Definition ends_with (suffix s : string) : bool :=
  String.prefix (String.rev suffix) (String.rev s).

(** [s.replace(old, new)] for a non-empty [old]: the occurrences are
    found from left to right and do not overlap.  [skip] counts the
    characters of an occurrence that are still to be passed over. *)
Fixpoint replace_go (old new : string) (skip : nat) (s : string) : string :=
  match s with
  | EmptyString => EmptyString
  | String c rest =>
      match skip with
      | S k => replace_go old new k rest
      | O =>
          if String.prefix old s
          then new +:+ replace_go old new (String.length old - 1) rest
          else String c (replace_go old new 0 rest)
      end
  end.

Definition replace (old new s : string) : string := replace_go old new 0 s.

(** ** [build]: the include of custom.yaml (lines 97-104) *)

Definition to_include : string := newline +:+ "  - custom.yaml".

(** The new contents of fedora-coreos-base.yaml; [None] when [index]
    raises [ValueError]. *)
Definition add_include (contents : string) : option string :=
  include_start ← find "include:" contents;
  include_end ← index_from newline contents include_start;
  let before := str_take include_end contents in
  let after := str_drop include_end contents in
  Some (if negb (String.prefix to_include after)
        then before +:+ to_include +:+ after
        else contents).

(** ** [build]: the packages commented out for the build (lines 108-119)
    and put back afterwards (lines 174-187) *)

Definition comment_out (core_content : string) : string :=
  let core_content :=
    replace ("- python3" +:+ newline) ("# python3" +:+ newline) core_content in
  let core_content :=
    replace ("- python3-libs" +:+ newline) ("# python3-libs" +:+ newline) core_content in
  let core_content :=
    replace ("- perl" +:+ newline) ("# perl" +:+ newline) core_content in
  replace ("- perl-interpreter" +:+ newline) ("# perl-interpreter" +:+ newline) core_content.

Definition restore (core_content : string) : string :=
  let core_content :=
    replace ("# python3" +:+ newline) ("- python3" +:+ newline) core_content in
  let core_content :=
    replace ("# python3-libs" +:+ newline) ("- python3-libs" +:+ newline) core_content in
  let core_content :=
    replace ("# perl" +:+ newline) ("- perl" +:+ newline) core_content in
  replace ("# perl-interpreter" +:+ newline) ("- perl-interpreter" +:+ newline) core_content.

(** ** [build]: the steps of the assembler (lines 140-163) *)

Definition cosa_cmd (fcos_dir config_dir : string) : string :=
  newline
  +:+ "        podman run --rm -ti --userns=host -u root --privileged                "
  +:+ "               -v " +:+ fcos_dir +:+ ":/srv/ --device /dev/kvm --device /dev/fuse       "
  +:+ "               --tmpfs /tmp -v /var/tmp:/var/tmp --name cosa                  "
  +:+ "               -v " +:+ config_dir +:+ ":/git:ro                                        "
  +:+ "               quay.io/coreos-assembler/coreos-assembler:latest ".

Section Steps.
(** The local host, as for the reconciler. *)
Variable respond : list event -> string -> Result.

Definition build_step (cmd step : string) : M unit :=
  let cmd := cmd +:+ " " +:+ step in
  r ← run respond cmd;
  if negb (returncode r =? 0) then sys_exit else mret ().

Definition build_steps (cmd : string) : M unit :=
  _ ← build_step cmd "init /git";
  _ ← build_step cmd "fetch";
  _ ← build_step cmd "build";
  _ ← build_step cmd "buildextend-metal";
  _ ← build_step cmd "buildextend-metal4k";
  build_step cmd "buildextend-live".
End Steps.

(** ** [_clone_if_not_exists] *)


Section Clone.
(** [os.path.exists] *)
Variable path_exists : string -> bool.

End Clone.

(** ** [create_ignition]: the key read from a .pub file (line 231) *)

Definition public_key (text : string) : string :=
  join " " (removelast (split_on " " text)).

End CoreosBuilder.

(* ===================================================================== *)
(** * Vocabulary of the properties of the builder *)
(* ===================================================================== *)

Module BuilderProps.
Import Py Props VirBridge BridgeProps CoreosBuilder.

(** The steps of the assembler, in the order of the build. *)
Definition steps : list string :=
  ["init /git"; "fetch"; "build"; "buildextend-metal"; "buildextend-metal4k";
   "buildextend-live"].

(** A command was issued and exited non-zero. *)
Definition failed (e : event) : bool :=
  match e with
  | Run _ ret => negb (returncode ret =? 0)
  | _ => false
  end.

(** A line with its end [x] replaced by [x']; the line itself when it
    does not end with [x]. *)
Fixpoint subst_end (x x' l : string) : string :=
  if String.eqb l x then x'
  else match l with
       | EmptyString => EmptyString
       | String c rest => String c (subst_end x x' rest)
       end.

Fixpoint last_char (s : string) : option ascii :=
  match s with
  | EmptyString => None
  | String c EmptyString => Some c
  | String _ rest => last_char rest
  end.

(** What [comment_out] and [restore] do to a line that a newline ends. *)
Definition comment_out_line (l : string) : string :=
  subst_end "- perl-interpreter" "# perl-interpreter"
    (subst_end "- perl" "# perl"
       (subst_end "- python3-libs" "# python3-libs"
          (subst_end "- python3" "# python3" l))).

Definition restore_line (l : string) : string :=
  subst_end "# perl-interpreter" "- perl-interpreter"
    (subst_end "# perl" "- perl"
       (subst_end "# python3-libs" "- python3-libs"
          (subst_end "# python3" "- python3" l))).

(** A manifest with two of the packages. *)
Definition core_yaml : string :=
  "packages:" +:+ newline +:+ "  - python3" +:+ newline +:+ "  - perl-interpreter"
  +:+ newline +:+ "  - vim".

(** A host on which [fetch] fails. *)
Definition offline_host : list event -> string -> Result := fun _ cmd =>
  if ends_with " fetch" cmd then reply "" 1 else reply "" 0.

(** The base manifest, before and after the include. *)
Definition base_yaml : string :=
  "include:" +:+ newline +:+ "  - shared-el9.yaml" +:+ newline.


End BuilderProps.

(* ===================================================================== *)
(** * extraConfigDpuTenant.py: finding the BlueField and its port *)
(* ===================================================================== *)

Module DpuTenant.
Import Py ClustersConfig VirBridge CoreosBuilder.

(** The ways this part of [ExtraConfigDpuTenant.run] ends without a value. *)
Inductive error : Type :=
  | ValueError
  | KeyError
  | TypeError
  | SystemExit.

Inductive outcome (A : Type) : Type :=
  | Got (a : A)
  | Failed (e : error).
Arguments Got {A} a.
Arguments Failed {A} e.

(** [e.split(sep, 1)]: at most one split. *)
Fixpoint split_once (sep : ascii) (e : string) : list string :=
  match e with
  | EmptyString => [EmptyString]
  | String c rest =>
      if Ascii.eqb c sep then [EmptyString; rest]
      else match split_once sep rest with
           | w :: ws => String c w :: ws
           | [] => [String c EmptyString]
           end
  end.


(** Lines 80-83: the mapping read from the lines that ethtool printed;
    [key, value = e.split(":", 1)] needs two parts. *)
Fixpoint driver_info (lines : list string) (d : gmap string string)
  : outcome (gmap string string) :=
  match lines with
  | [] => Got d
  | e :: rest =>
      match split_once ":" e with
      | [key; value] => driver_info rest (<[key := value]> d)
      | _ => Failed ValueError
      end
  end.

(** Lines 74-85: [ports] holds, for each port of [rh.all_ports()] in order,
    its [ifname] and what [ethtool -i] returned for it. *)
Fixpoint bf_port_of (ports : list (string * Result)) (bf : string)
  (bf_port : option string) : outcome (option string) :=
  match ports with
  | [] => Got bf_port
  | (ifname, ret) :: rest =>
      if negb (returncode ret =? 0) then bf_port_of rest bf bf_port
      else
        match driver_info (split_on "010" (strip (out ret))) ∅ with
        | Failed e => Failed e
        | Got d =>
            match d !! "bus-info" with
            | None => Failed KeyError
            | Some v => bf_port_of rest bf (if ends_with bf v then Some ifname else bf_port)
            end
        end
  end.

(** Lines 92 and 96: [workloadBfPort] and [mgmtBfPort]; [None + str] is a
    [TypeError]. *)
Definition vf_ranges (bf_port : option string) : outcome (string * string) :=
  match bf_port with
  | None => Failed TypeError
  | Some p => Got (p +:+ "#1-15", p +:+ "#0-0")
  end.

(** Lines 74-96 *)
Definition bf_ports (ports : list (string * Result)) (bf : string)
  : outcome (string * string) :=
  match bf_port_of ports bf None with
  | Failed e => Failed e
  | Got bf_port => vf_ranges bf_port
  end.

End DpuTenant.

(* ===================================================================== *)
(** * Vocabulary of the properties of the BlueField lookup *)
(* ===================================================================== *)

Module DpuProps.
Import Py ClustersConfig VirBridge BridgeProps CoreosBuilder DpuTenant.

(** The port answered ethtool and its bus-info ends with the address. *)
Definition on_bus (bf : string) (port : string * Result) : bool :=
  (returncode port.2 =? 0)
  && match driver_info (split_on "010" (strip (out port.2))) ∅ with
     | Got d =>
         match d !! "bus-info" with
         | Some v => ends_with bf v
         | None => false
         end
     | Failed _ => false
     end.

(** Two ports of one card and a port of another. *)
Definition example_ports : list (string * Result) :=
  [("ens1f0", reply ("driver: mlx5_core" +:+ newline +:+ "bus-info: 0000:3b:00.0") 0);
   ("ens1f1", reply ("driver: mlx5_core" +:+ newline +:+ "bus-info: 0000:3b:00.0") 0);
   ("eno1", reply ("driver: tg3" +:+ newline +:+ "bus-info: 0000:04:00.0") 0)].

End DpuProps.

(* ===================================================================== *)
(** * Facts about the default cascade *)
(* ===================================================================== *)

Module ResolverFacts.
Import Py ClustersConfig Props.

(** ** The exception monad *)

Lemma bind_Ok {A B : Type} (m : result A) (f : A -> result B) (b : B) :
  m ≫= f = Ok b -> exists a, m = Ok a /\ f a = Ok b.
Proof. destruct m as [a|e]; simpl; [eauto | discriminate]. Qed.

(** Split a hypothesis [x ← m; k = Ok r] into its steps. *)
Ltac ok_steps H :=
  repeat (let a := fresh "v" in let Ha := fresh "E" in
          apply bind_Ok in H as (a & Ha & H)).

Lemma for_each_Forall2 {A B : Type} (f : A -> result B) l l' :
  for_each f l = Ok l' -> Forall2 (fun x y => f x = Ok y) l l'.
Proof.
  revert l'. induction l as [|x l IH]; intros l' H; simpl in H.
  - injection H as <-. constructor.
  - ok_steps H. injection H as <-. constructor; auto.
Qed.

Lemma Forall2_for_each {A B : Type} (f : A -> result B) l l' :
  Forall2 (fun x y => f x = Ok y) l l' -> for_each f l = Ok l'.
Proof.
  induction 1 as [|x y l l' Hxy _ IH]; simpl; [reflexivity|].
  rewrite Hxy. simpl. rewrite IH. reflexivity.
Qed.

Lemma for_each_app {A B : Type} (f : A -> result B) l1 l2 r1 r2 :
  for_each f l1 = Ok r1 -> for_each f l2 = Ok r2 ->
  for_each f (l1 ++ l2) = Ok (r1 ++ r2).
Proof.
  intros H1 H2. apply Forall2_for_each, Forall2_app; by apply for_each_Forall2.
Qed.

(** ** [k in v], [v[k]] and additions *)

Lemma has_dict k d : has k (YDict d) <-> is_Some (d !! k).
Proof.
  unfold has; simpl. split.
  - intros [= H]. by apply bool_decide_eq_true in H.
  - intros H. f_equal. by apply bool_decide_eq_true.
Qed.

Lemma adds_refl v : adds v v.
Proof. destruct v; simpl; done. Qed.

Lemma adds_trans v1 v2 v3 : adds v1 v2 -> adds v2 v3 -> adds v1 v3.
Proof.
  destruct v1, v2; simpl; try (intros ->; simpl; done); try done.
  destruct v3; simpl; try done. intros H1 H2. by etrans.
Qed.

Lemma adds_has k v v' : adds v v' -> has k v -> has k v'.
Proof.
  destruct v, v'; simpl; try (by intros ->); try done.
  intros Hsub. rewrite !has_dict. intros [x Hx].
  exists x. by eapply lookup_weaken.
Qed.

Lemma adds_getitem k v v' x : adds v v' -> getitem v k = Ok x -> getitem v' k = Ok x.
Proof.
  destruct v, v'; simpl; try (by intros ->); try done.
  intros Hsub. destruct (_ !! k) as [y|] eqn:Hy; [|done].
  intros [= ->]. by rewrite (lookup_weaken _ _ _ _ Hy Hsub).
Qed.

Lemma adds_extends v v' : adds v v' -> extends v v'.
Proof.
  intros H. destruct v; try (simpl in H; subst v'; by apply extends_refl).
  destruct v'; simpl in H; try discriminate H.
  apply extends_dict. intros k x Hx.
  exists x. split; [by eapply lookup_weaken | constructor].
Qed.

(** ** [default_key] *)

Section Defaults.
Variable repr_container : yaml -> string.
Variable cwd : string.

Lemma default_key_adds k dflt v v' :
  default_key k dflt v = Ok v' -> adds v v' /\ has k v'.
Proof.
  unfold default_key. intros H. ok_steps H. destruct v0.
  - injection H as <-. split; [apply adds_refl | exact E].
  - ok_steps H. destruct v; simpl in *; try discriminate.
    injection H as <-. injection E as E. apply bool_decide_eq_false in E.
    split.
    + apply insert_subseteq. destruct (_ !! k) eqn:Hk; [|done].
      exfalso. apply E. eauto.
    + apply has_dict. rewrite lookup_insert_eq. eauto.
Qed.

Lemma default_key_noop k dflt v : has k v -> default_key k dflt v = Ok v.
Proof. unfold default_key, has. intros ->. reflexivity. Qed.

Lemma default_key_absent k dflt v v' :
  contains k v = Ok false -> default_key k dflt v = Ok v' ->
  exists x, dflt = Ok x /\ getitem v' k = Ok x.
Proof.
  unfold default_key. intros -> H. simpl in H. ok_steps H.
  exists v0. split; [done|]. destruct v; simpl in *; try discriminate.
  injection H as <-. simpl. by rewrite lookup_insert_eq.
Qed.

(** One step of a chain of defaults. *)
Ltac chain_step H :=
  let a := fresh "c" in let Ha := fresh "D" in
  apply bind_Ok in H as (a & Ha & H);
  apply default_key_adds in Ha as [? ?].

Ltac chain H :=
  repeat chain_step H; apply default_key_adds in H as [? ?].

Ltac by_adds :=
  repeat match goal with
         | H : adds ?a ?b |- adds ?a ?b => exact H
         | H : adds ?a ?b |- adds ?a _ => apply (adds_trans _ _ _ H)
         | H : has ?k ?a |- has ?k ?a => exact H
         | H : adds ?a ?b |- has _ ?b => apply (adds_has _ _ _ H)
         end.

Lemma node_defaults_adds n n' :
  node_defaults n = Ok n' ->
  adds n n' /\ has "disk_size" n' /\ has "preallocated" n' /\ has "os_variant" n'.
Proof.
  unfold node_defaults. intros H. chain H. repeat split; by_adds.
Qed.

Lemma node_defaults_noop n :
  has "disk_size" n -> has "preallocated" n -> has "os_variant" n ->
  node_defaults n = Ok n.
Proof.
  intros H1 H2 H3. unfold node_defaults.
  rewrite (default_key_noop _ _ _ H1). simpl.
  rewrite (default_key_noop _ _ _ H2). simpl.
  by apply default_key_noop.
Qed.

Lemma node_optional_defaults_adds cc n n' :
  node_optional_defaults repr_container cc n = Ok n' ->
  adds n n' /\ has "bmc_ip" n' /\ has "bmc_user" n' /\ has "bmc_password" n'
  /\ has "image_path" n'.
Proof.
  unfold node_optional_defaults. intros H. chain H. repeat split; by_adds.
Qed.

Lemma node_optional_defaults_noop cc n :
  has "bmc_ip" n -> has "bmc_user" n -> has "bmc_password" n -> has "image_path" n ->
  node_optional_defaults repr_container cc n = Ok n.
Proof.
  intros H1 H2 H3 H4. unfold node_optional_defaults.
  rewrite (default_key_noop _ _ _ H1). simpl.
  rewrite (default_key_noop _ _ _ H2). simpl.
  rewrite (default_key_noop _ _ _ H3). simpl.
  by apply default_key_noop.
Qed.

Lemma host_defaults_adds cc h h' :
  host_defaults cc h = Ok h' ->
  adds h h' /\ has "network_api_port" h' /\ has "username" h' /\ has "password" h'
  /\ has "pre_installed" h'.
Proof.
  unfold host_defaults. intros H. chain H. repeat split; by_adds.
Qed.

Lemma host_defaults_noop cc h :
  has "network_api_port" h -> has "username" h -> has "password" h ->
  has "pre_installed" h ->
  host_defaults cc h = Ok h.
Proof.
  intros H1 H2 H3 H4. unfold host_defaults.
  rewrite (default_key_noop _ _ _ H1). simpl.
  rewrite (default_key_noop _ _ _ H2). simpl.
  rewrite (default_key_noop _ _ _ H3). simpl.
  by apply default_key_noop.
Qed.

Lemma cluster_defaults_adds cc cc' :
  cluster_defaults repr_container cwd cc = Ok cc' ->
  adds cc cc' /\ Forall (fun k => has k cc') cluster_keys.
Proof.
  unfold cluster_defaults. intros H. chain H.
  split; [by_adds|]. repeat constructor; by_adds.
Qed.

Lemma cluster_defaults_noop cc :
  Forall (fun k => has k cc) cluster_keys ->
  cluster_defaults repr_container cwd cc = Ok cc.
Proof.
  intros H. unfold cluster_keys in H.
  repeat match type of H with
         | Forall _ (_ :: _) => let H1 := fresh in apply Forall_cons in H as [H1 H]
         end.
  unfold cluster_defaults.
  repeat (rewrite default_key_noop; [simpl | assumption]).
  reflexivity.
Qed.
End Defaults.

(** ** Set membership and first occurrences *)

Lemma key_eqb_sym a b : key_eqb a b = key_eqb b a.
Proof.
  destruct a, b; simpl; try reflexivity;
    try (apply String.eqb_sym); try (apply Z.eqb_sym).
Qed.

Lemma key_eqb_trans a b c :
  key_eqb a b = true -> key_eqb b c = true -> key_eqb a c = true.
Proof.
  destruct a, b; simpl; try discriminate; destruct c; simpl; try discriminate;
    try done;
    rewrite ?Z.eqb_eq, ?String.eqb_eq; congruence.
Qed.

Lemma key_eqb_refl v v' : hashable v = Ok v' -> v' = v /\ key_eqb v v = true.
Proof.
  destruct v; simpl; intros [= <-]; split; try reflexivity.
  - apply Z.eqb_refl.
  - apply Z.eqb_refl.
  - apply String.eqb_refl.
Qed.

Lemma key_eqb_congr a b w :
  key_eqb a b = true -> key_eqb a w = key_eqb b w.
Proof.
  intros Hab. destruct (key_eqb b w) eqn:Hbw.
  - by eapply key_eqb_trans.
  - destruct (key_eqb a w) eqn:Haw; [|done].
    rewrite <- Hbw. symmetry. eapply key_eqb_trans; [|exact Haw].
    by rewrite key_eqb_sym.
Qed.

Lemma set_mem_app v s1 s2 : set_mem v (s1 ++ s2) = set_mem v s1 || set_mem v s2.
Proof. apply existsb_app. Qed.

Lemma filter_comm {A : Type} (f g : A -> bool) l :
  List.filter f (List.filter g l) = List.filter g (List.filter f l).
Proof.
  induction l as [|x l IH]; simpl; [done|].
  destruct (g x) eqn:Hg, (f x) eqn:Hf; simpl; rewrite ?Hg, ?Hf, ?IH; done.
Qed.

Lemma filter_absorb {A : Type} (f g : A -> bool) l :
  (forall x, f x = true -> g x = true) ->
  List.filter f (List.filter g l) = List.filter f l.
Proof.
  intros Hfg. induction l as [|x l IH]; simpl; [done|].
  destruct (f x) eqn:Hf.
  - rewrite (Hfg _ Hf). simpl. by rewrite Hf, IH.
  - destruct (g x); simpl; rewrite ?Hf; exact IH.
Qed.

Lemma filter_and {A : Type} (f g : A -> bool) l :
  List.filter f (List.filter g l) = List.filter (fun x => g x && f x) l.
Proof.
  induction l as [|x l IH]; simpl; [done|].
  destruct (g x); simpl; [|exact IH]. destruct (f x); by rewrite IH.
Qed.

Lemma filter_ext_eq {A : Type} (f g : A -> bool) l :
  (forall x, f x = g x) -> List.filter f l = List.filter g l.
Proof. intros H. induction l as [|x l IH]; simpl; [done|]. by rewrite H, IH. Qed.

(** A test that does not tell equal keys apart commutes with taking first
    occurrences. *)
Lemma uniq_first_filter (p : yaml -> bool) l :
  (forall a b, key_eqb a b = true -> p a = p b) ->
  uniq_first (List.filter p l) = List.filter p (uniq_first l).
Proof.
  intros Hp. induction l as [|x l IH]; simpl; [done|].
  destruct (p x) eqn:Hx; simpl.
  - by rewrite IH, filter_comm.
  - rewrite IH. symmetry. apply filter_absorb.
    intros y Hy. destruct (key_eqb x y) eqn:Hxy; [|done].
    rewrite (Hp _ _ Hxy) in Hx. congruence.
Qed.

(** The loop with a set of seen names computes the first occurrences of the
    values that were not in the set at the start. *)
Lemma new_names_uniq_first seen vals :
  new_names seen vals
  = uniq_first (List.filter (fun v => negb (set_mem v seen)) vals).
Proof.
  revert seen. induction vals as [|v vals IH]; intros seen; simpl; [done|].
  destruct (set_mem v seen) eqn:Hv; simpl; [apply IH|].
  f_equal. rewrite IH, <- uniq_first_filter.
  - f_equal. rewrite filter_and. apply filter_ext_eq. intros w. simpl.
    rewrite (key_eqb_sym w v). by destruct (key_eqb v w), (set_mem w seen).
  - intros a b Hab. f_equal.
    rewrite !(key_eqb_sym v). by apply key_eqb_congr.
Qed.

Lemma new_names_nil seen vals :
  Forall (fun v => set_mem v seen = true) vals -> new_names seen vals = [].
Proof.
  induction 1 as [|v vals Hv _ IH]; simpl; [done|]. by rewrite Hv.
Qed.

Lemma new_names_covers seen vals :
  Forall (fun v => key_eqb v v = true) vals ->
  Forall (fun v => set_mem v (seen ++ new_names seen vals) = true) vals.
Proof.
  intros H. revert seen. induction H as [|v vals Hv _ IH]; intros seen; [constructor|].
  simpl. destruct (set_mem v seen) eqn:Hs.
  - constructor; [|apply IH]. by rewrite set_mem_app, Hs.
  - constructor.
    + rewrite set_mem_app. simpl. by rewrite Hv, orb_true_r.
    + specialize (IH (v :: seen)). eapply Forall_impl; [exact IH|].
      intros w. simpl. rewrite !set_mem_app. simpl.
      destruct (key_eqb w v), (set_mem w seen); simpl; try done.
Qed.

(** ** The host-synthesis loop *)

Lemma add_hosts_inv ns hv seen hv' :
  add_hosts ns hv seen = Ok hv' ->
  exists vals, for_each node_key ns = Ok vals
    /\ match hv with
       | YList es => hv' = YList (es ++ (entry <$> new_names seen vals))
       | _ => hv' = hv /\ new_names seen vals = []
       end.
Proof.
  revert hv seen. induction ns as [|n ns IH]; intros hv seen H; simpl in H.
  - injection H as <-. exists []. split; [done|].
    destruct hv; simpl; rewrite ?app_nil_r; done.
  - apply bind_Ok in H as (v0 & Hv0 & H). apply bind_Ok in H as (v & Hv & H).
    assert (Hkey : node_key n = Ok v) by (unfold node_key; by rewrite Hv0).
    destruct (set_mem v seen) eqn:Hmem.
    + apply IH in H as (vals & Hvals & Hres). exists (v :: vals). split.
      * simpl. by rewrite Hkey, Hvals.
      * simpl. by rewrite Hmem.
    + apply bind_Ok in H as (hv1 & Hhv1 & H).
      destruct hv; simpl in Hhv1; try discriminate. injection Hhv1 as <-.
      apply IH in H as (vals & Hvals & ->). exists (v :: vals). split.
      * simpl. by rewrite Hkey, Hvals.
      * simpl. rewrite Hmem. by rewrite <- app_assoc.
Qed.

Lemma add_hosts_noop ns hv seen vals :
  for_each node_key ns = Ok vals -> new_names seen vals = [] ->
  add_hosts ns hv seen = Ok hv.
Proof.
  revert vals. induction ns as [|n ns IH]; intros vals Hvals Hnew; [done|].
  simpl in Hvals. apply bind_Ok in Hvals as (v & Hv & Hvals).
  apply bind_Ok in Hvals as (vals' & Hvals' & [= <-]).
  simpl in Hnew. destruct (set_mem v seen) eqn:Hmem; [|discriminate].
  unfold node_key in Hv. apply bind_Ok in Hv as (v0 & Hv0 & Hv).
  simpl. rewrite Hv0. simpl. rewrite Hv. simpl. rewrite Hmem. by eapply IH.
Qed.

(** ** What the loops accept *)

Lemma prefix_length a b : String.prefix a b = true -> (String.length a <= String.length b)%nat.
Proof.
  revert b. induction a as [|c a IH]; intros b; simpl; [lia|].
  destruct b as [|c' b]; simpl; [intros [=]|].
  destruct (Ascii.ascii_dec c c'); [|intros [=]].
  intros H. apply IH in H. simpl. lia.
Qed.

Lemma str_in_length k s : str_in k s = true -> (String.length k <= String.length s)%nat.
Proof.
  induction s as [|c s IH]; cbn [str_in]; intros [H|H]%orb_true_iff.
  - by apply prefix_length.
  - discriminate.
  - by apply prefix_length.
  - apply IH in H. simpl. lia.
Qed.

Lemma node_defaults_char c : forall r, node_defaults (YStr (String c EmptyString)) <> Ok r.
Proof.
  intros r H. unfold node_defaults in H. apply bind_Ok in H as (n1 & H1 & _).
  unfold default_key in H1.
  change (contains "disk_size" (YStr (String c EmptyString)))
    with (Ok (str_in "disk_size" (String c EmptyString))) in H1.
  destruct (str_in "disk_size" (String c EmptyString)) eqn:Hin.
  - apply str_in_length in Hin. simpl in Hin. lia.
  - discriminate H1.
Qed.

(** The nodes the first loop accepts come from two lists; the only other
    operands of [+] it accepts give no node at all. *)
Lemma all_nodes_shape m w all ns0 ns1 :
  add m w = Ok all -> iter all = Ok ns0 -> for_each node_defaults ns0 = Ok ns1 ->
  match m with
  | YList ms => exists ws, w = YList ws /\ ns0 = ms ++ ws
  | _ => ns0 = []
  end.
Proof.
  intros Hadd Hiter Hfor.
  destruct m as [| |z|s1|ms|d]; destruct w as [| |z'|s2|ws|d'];
    simpl in Hadd; try discriminate;
    try (injection Hadd as <-; simpl in Hiter; discriminate).
  - injection Hadd as <-. simpl in Hiter. injection Hiter as <-.
    destruct (s1 +:+ s2) as [|c rest]; [done|].
    simpl in Hfor. apply bind_Ok in Hfor as (r & Hr & _).
    by apply node_defaults_char in Hr.
  - injection Hadd as <-. simpl in Hiter. injection Hiter as <-. eauto.
Qed.

(** The host entries the name set accepts come from a list; any other
    iterable it accepts is empty. *)
Lemma hosts_shape hv es names :
  iter hv = Ok es -> for_each name_key es = Ok names ->
  match hv with
  | YList l => es = l
  | _ => es = []
  end.
Proof.
  intros Hiter Hfor. destruct hv as [| |z|s|l|d]; simpl in Hiter; try discriminate.
  - injection Hiter as <-. destruct s; [done|]. simpl in Hfor. discriminate.
  - by injection Hiter as <-.
  - injection Hiter as <-. destruct ((map_to_list d).*1); [done|].
    simpl in Hfor. discriminate.
Qed.

(** ** Putting the updated elements back *)

Lemma setitem_id v k x : getitem v k = Ok x -> setitem v k x = Ok v.
Proof.
  destruct v; simpl; try discriminate.
  destruct (_ !! k) eqn:E; [|discriminate]. intros [= ->]. by rewrite insert_id.
Qed.

Lemma for_each_id {A : Type} (f : A -> result A) l :
  Forall (fun x => f x = Ok x) l -> for_each f l = Ok l.
Proof. induction 1 as [|x l Hx _ IH]; simpl; [done|]. by rewrite Hx; simpl; rewrite IH. Qed.

Lemma for_each_adds (f : yaml -> result yaml) l l' r :
  (forall a b x, adds a b -> f a = Ok x -> f b = Ok x) ->
  Forall2 adds l l' -> for_each f l = Ok r -> for_each f l' = Ok r.
Proof.
  intros Hf H. revert r. induction H as [|a b l l' Hab _ IH]; intros r Hr; [done|].
  simpl in Hr. apply bind_Ok in Hr as (x & Hx & Hr).
  apply bind_Ok in Hr as (xs & Hxs & [= <-]).
  simpl. rewrite (Hf _ _ _ Hab Hx). simpl. by rewrite (IH _ Hxs).
Qed.

Lemma node_key_adds a b x : adds a b -> node_key a = Ok x -> node_key b = Ok x.
Proof.
  unfold node_key. intros Hab H. apply bind_Ok in H as (v & Hv & H).
  by rewrite (adds_getitem _ _ _ _ Hab Hv).
Qed.

Lemma name_key_adds a b x : adds a b -> name_key a = Ok x -> name_key b = Ok x.
Proof.
  unfold name_key. intros Hab H. apply bind_Ok in H as (v & Hv & H).
  by rewrite (adds_getitem _ _ _ _ Hab Hv).
Qed.

Lemma node_key_hashable ns vals :
  for_each node_key ns = Ok vals -> Forall (fun v => hashable v = Ok v) vals.
Proof.
  intros H%for_each_Forall2. induction H as [|n v ns vals Hn _ IH]; constructor; [|done].
  unfold node_key in Hn. apply bind_Ok in Hn as (v0 & _ & Hv).
  destruct (key_eqb_refl _ _ Hv) as [-> _]. exact Hv.
Qed.

Lemma new_names_Forall (P : yaml -> Prop) seen vals :
  Forall P vals -> Forall P (new_names seen vals).
Proof.
  intros H. revert seen. induction H as [|v vals Hv _ IH]; intros seen; simpl; [done|].
  destruct (set_mem v seen); [apply IH | constructor; [done | apply IH]].
Qed.

Lemma name_key_entries vs :
  Forall (fun v => hashable v = Ok v) vs -> for_each name_key (entry <$> vs) = Ok vs.
Proof.
  induction 1 as [|v vs Hv _ IH]; simpl; [done|].
  assert (Hkey : name_key (entry v) = Ok v).
  { unfold name_key, entry. cbn [getitem]. by rewrite lookup_singleton_eq. }
  rewrite Hkey. simpl. fold (fmap (M:=list) entry vs). by rewrite IH.
Qed.

Lemma extends_list_same l l' : Forall2 adds l l' -> extends (YList l) (YList l').
Proof.
  intros H. rewrite <- (app_nil_r l'). apply extends_list.
  eapply Forall2_impl; [exact H | apply adds_extends].
Qed.

Lemma store_nodes_out d1 m w all ns0 ns3 c2 :
  d1 !! "masters" = Some m -> d1 !! "workers" = Some w ->
  add m w = Ok all -> iter all = Ok ns0 ->
  match m with
  | YList ms => exists ws, w = YList ws /\ ns0 = ms ++ ws
  | _ => ns0 = []
  end ->
  Forall2 adds ns0 ns3 ->
  store_nodes (YDict d1) m ns3 = Ok c2 ->
  exists d2 m' w',
    c2 = YDict d2
    /\ (forall k, k <> "masters" -> k <> "workers" -> d2 !! k = d1 !! k)
    /\ d2 !! "masters" = Some m' /\ d2 !! "workers" = Some w'
    /\ extends m m' /\ extends w w'
    /\ (forall c, getitem c "masters" = Ok m' -> getitem c "workers" = Ok w' ->
         all_nodes c = Ok ns3 /\ store_nodes c m' ns3 = Ok c).
Proof.
  intros Hm Hw Hadd Hiter Hshape Hall Hstore.
  destruct m as [|bm|z|s1|ms|dm];
    try (subst ns0; apply Forall2_nil_inv_l in Hall as ->; simpl in Hstore;
         injection Hstore as <-;
         eexists d1, _, w;
         split; [done|]; split; [done|]; split; [exact Hm|]; split; [exact Hw|];
         split; [apply extends_refl|]; split; [apply extends_refl|];
         intros c Hc1 Hc2; split; [|reflexivity];
         unfold all_nodes; rewrite Hc1; cbn [mbind result_bind]; rewrite Hc2;
         cbn [mbind result_bind]; rewrite Hadd; exact Hiter).
  destruct Hshape as (ws & -> & ->).
  apply Forall2_app_inv_l in Hall as (a & b & Ha & Hb & ->).
  assert (Hlen : length ms = length a) by (by eapply Forall2_length).
  simpl in Hstore. rewrite Hlen, take_app_length, drop_app_length in Hstore.
  injection Hstore as <-.
  eexists _, (YList a), (YList b). split; [reflexivity|].
  split; [intros k Hk1 Hk2; by rewrite !lookup_insert_ne|].
  split; [rewrite lookup_insert_ne by done; apply lookup_insert_eq|].
  split; [apply lookup_insert_eq|].
  split; [by apply extends_list_same|].
  split; [by apply extends_list_same|].
  intros c Hc1 Hc2. split.
  - unfold all_nodes. by rewrite Hc1, Hc2.
  - simpl. rewrite take_app_length, drop_app_length.
    rewrite (setitem_id _ _ _ Hc1). simpl. by apply setitem_id.
Qed.

Lemma store_hosts_out d2 hv hv2 es new es3 c3 :
  d2 !! "hosts" = Some hv -> iter hv = Ok es ->
  match hv with
  | YList l => es = l
  | _ => es = []
  end ->
  match hv with
  | YList l => hv2 = YList (l ++ new)
  | _ => hv2 = hv /\ new = []
  end ->
  Forall2 adds (es ++ new) es3 ->
  store_hosts (YDict d2) hv2 es3 = Ok c3 ->
  exists d3 hv',
    c3 = YDict d3
    /\ (forall k, k <> "hosts" -> d3 !! k = d2 !! k)
    /\ d3 !! "hosts" = Some hv'
    /\ extends hv hv'
    /\ (forall c, getitem c "hosts" = Ok hv' ->
         all_hosts c = Ok es3 /\ store_hosts c hv' es3 = Ok c).
Proof.
  intros Hh Hiter Hshape Hhv2 Hall Hstore.
  destruct hv as [|bh|z|sh|l|dh];
    try (destruct Hhv2 as [-> ->]; subst es; apply Forall2_nil_inv_l in Hall as ->;
         simpl in Hstore; injection Hstore as <-;
         eexists d2, _;
         split; [done|]; split; [done|]; split; [exact Hh|];
         split; [apply extends_refl|];
         intros c Hc; split; [|reflexivity];
         unfold all_hosts; rewrite Hc; exact Hiter).
  subst es hv2. simpl in Hstore. injection Hstore as <-.
  apply Forall2_app_inv_l in Hall as (a & b & Ha & Hb & ->).
  eexists _, (YList (a ++ b)). split; [reflexivity|].
  split; [intros k Hk; by rewrite lookup_insert_ne|].
  split; [apply lookup_insert_eq|].
  split.
  { apply extends_list. eapply Forall2_impl; [exact Ha | apply adds_extends]. }
  intros c Hc. split.
  - unfold all_hosts. by rewrite Hc.
  - simpl. by apply setitem_id.
Qed.

(** ** The cascade, step by step *)

Section Cascade.
Variable repr_container : yaml -> string.
Variable cwd : string.

Local Abbreviation resolve := (resolve_cluster repr_container cwd).

Lemma passes_nodes cc1 ns0 ns1 ns3 :
  for_each node_defaults ns0 = Ok ns1 ->
  for_each (node_optional_defaults repr_container cc1) ns1 = Ok ns3 ->
  Forall2 adds ns0 ns3 /\ Forall2 adds ns1 ns3 /\ Forall node_done ns3.
Proof.
  intros H1%for_each_Forall2 H3%for_each_Forall2. revert ns3 H3.
  induction H1 as [|n0 n1 ns0 ns1 Hn _ IH]; intros ns3 H3.
  - apply Forall2_nil_inv_l in H3 as ->. repeat split; constructor.
  - apply Forall2_cons_inv_l in H3 as (n3 & ns3' & Hn3 & H3 & ->).
    destruct (IH _ H3) as (IH0 & IH1 & IHd).
    apply node_defaults_adds in Hn as (A1 & K1 & K2 & K3).
    apply node_optional_defaults_adds in Hn3 as (A3 & K4 & K5 & K6 & K7).
    repeat split; constructor; try done.
    + by eapply adds_trans.
    + repeat constructor; try done; by eapply adds_has.
Qed.

Lemma passes_hosts cc1 es2 es3 :
  for_each (host_defaults cc1) es2 = Ok es3 ->
  Forall2 adds es2 es3 /\ Forall host_done es3.
Proof.
  intros H%for_each_Forall2. induction H as [|h h' es2 es3 Hh _ [IH1 IH2]].
  - split; constructor.
  - apply host_defaults_adds in Hh as (A & K1 & K2 & K3 & K4).
    split; constructor; try done. by repeat constructor.
Qed.

Lemma node_done_noop cc n :
  node_done n ->
  node_defaults n = Ok n /\ node_optional_defaults repr_container cc n = Ok n.
Proof.
  unfold node_done. intros H.
  repeat match type of H with
         | Forall _ (_ :: _) => let K := fresh "K" in apply Forall_cons in H as [K H]
         end.
  split; [by apply node_defaults_noop | by apply node_optional_defaults_noop].
Qed.

Lemma host_done_noop cc h : host_done h -> host_defaults cc h = Ok h.
Proof.
  unfold host_done. intros H.
  repeat match type of H with
         | Forall _ (_ :: _) => let K := fresh "K" in apply Forall_cons in H as [K H]
         end.
  by apply host_defaults_noop.
Qed.

(** Everything a successful run of the cascade went through, and the
    cluster it leaves. *)
Lemma resolve_cluster_out cc cc' :
  resolve cc = Ok cc' ->
  exists d d1 d' ns0 ns1 ns3 es names vals es3,
    cc = YDict d /\ cc' = YDict d' /\ d ⊆ d1
    /\ cluster_defaults repr_container cwd cc = Ok (YDict d1)
    /\ all_nodes (YDict d1) = Ok ns0
    /\ for_each node_defaults ns0 = Ok ns1
    /\ for_each (node_optional_defaults repr_container (YDict d1)) ns1 = Ok ns3
    /\ all_hosts (YDict d1) = Ok es
    /\ for_each name_key es = Ok names
    /\ for_each node_key ns1 = Ok vals
    /\ for_each (host_defaults (YDict d1)) (es ++ (entry <$> new_names names vals)) = Ok es3
    /\ (forall k, k <> "masters" -> k <> "workers" -> k <> "hosts" -> d' !! k = d1 !! k)
    /\ (forall k x, k = "masters" \/ k = "workers" \/ k = "hosts" ->
         d1 !! k = Some x -> exists x', d' !! k = Some x' /\ extends x x')
    /\ all_nodes cc' = Ok ns3
    /\ all_hosts cc' = Ok es3
    /\ (exists m', getitem cc' "masters" = Ok m' /\ store_nodes cc' m' ns3 = Ok cc')
    /\ (exists hv', getitem cc' "hosts" = Ok hv' /\ store_hosts cc' hv' es3 = Ok cc').
Proof.
  intros H. unfold resolve_cluster in H.
  apply bind_Ok in H as (cc1 & Hcc1 & H).
  apply bind_Ok in H as (m & Hm & H).
  apply bind_Ok in H as (w & Hw & H).
  apply bind_Ok in H as (all & Hadd & H).
  apply bind_Ok in H as (ns0 & Hiter & H).
  apply bind_Ok in H as (ns1 & Hns1 & H).
  apply bind_Ok in H as (hv & Hhv & H).
  apply bind_Ok in H as (es & Hes & H).
  apply bind_Ok in H as (names & Hnames & H).
  apply bind_Ok in H as (hv2 & Hhv2 & H).
  apply bind_Ok in H as (ns3 & Hns3 & H).
  apply bind_Ok in H as (es2 & Hes2 & H).
  apply bind_Ok in H as (es3 & Hes3 & H).
  apply bind_Ok in H as (c2 & Hc2 & H).
  fold name_key in Hnames.
  destruct cc1 as [|b1|z1|s1|l1|d1]; try discriminate Hm.
  pose proof (cluster_defaults_adds _ _ _ _ Hcc1) as [Hadds _].
  destruct cc as [|b0|z0|s0|l0|d]; try discriminate Hadds.
  simpl in Hadds.
  assert (Hdm : d1 !! "masters" = Some m).
  { simpl in Hm. destruct (d1 !! "masters"); [by injection Hm as -> | discriminate]. }
  assert (Hdw : d1 !! "workers" = Some w).
  { simpl in Hw. destruct (d1 !! "workers"); [by injection Hw as -> | discriminate]. }
  assert (Hdh : d1 !! "hosts" = Some hv).
  { simpl in Hhv. destruct (d1 !! "hosts"); [by injection Hhv as -> | discriminate]. }
  pose proof (all_nodes_shape _ _ _ _ _ Hadd Hiter Hns1) as Hshape.
  pose proof (hosts_shape _ _ _ Hes Hnames) as Hhshape.
  destruct (passes_nodes _ _ _ _ Hns1 Hns3) as (A03 & A13 & Hdone).
  apply add_hosts_inv in Hhv2 as (vals & Hvals & Hres).
  assert (Hes2' : es2 = es ++ (entry <$> new_names names vals)).
  { destruct hv; try (destruct Hres as [-> ->]; rewrite app_nil_r; congruence).
    subst hv2 es. simpl in Hes2. by injection Hes2 as <-. }
  subst es2.
  destruct (passes_hosts _ _ _ Hes3) as (Ah & Hhdone).
  destruct (store_nodes_out _ _ _ _ _ _ _ Hdm Hdw Hadd Hiter Hshape A03 Hc2)
    as (d2 & m' & w' & -> & Hd2 & Hd2m & Hd2w & Em & Ew & Hclose).
  assert (Hd2h : d2 !! "hosts" = Some hv) by (by rewrite Hd2).
  assert (Hres' : match hv with
                  | YList l => hv2 = YList (l ++ (entry <$> new_names names vals))
                  | _ => hv2 = hv /\ entry <$> new_names names vals = []
                  end).
  { destruct hv; try done; destruct Hres as [? Hnil]; by rewrite Hnil. }
  destruct (store_hosts_out _ _ _ _ _ _ _ Hd2h Hes Hhshape Hres' Ah H)
    as (d3 & hv' & -> & Hd3 & Hd3h & Eh & Hhclose).
  assert (Hgm : getitem (YDict d3) "masters" = Ok m').
  { simpl. by rewrite Hd3, Hd2m. }
  assert (Hgw : getitem (YDict d3) "workers" = Ok w').
  { simpl. by rewrite Hd3, Hd2w. }
  assert (Hgh : getitem (YDict d3) "hosts" = Ok hv').
  { simpl. by rewrite Hd3h. }
  destruct (Hclose _ Hgm Hgw) as [Hall3 Hstore3].
  destruct (Hhclose _ Hgh) as [Hhosts3 Hhstore3].
  exists d, d1, d3, ns0, ns1, ns3, es, names, vals, es3.
  split; [done|]. split; [done|]. split; [done|]. split; [done|].
  split. { unfold all_nodes. rewrite Hm; cbn [mbind result_bind]. rewrite Hw.
           cbn [mbind result_bind]. by rewrite Hadd. }
  split; [done|]. split; [done|].
  split. { unfold all_hosts. by rewrite Hhv. }
  split; [done|]. split; [done|]. split; [done|].
  split. { intros k K1 K2 K3. rewrite Hd3 by done. by apply Hd2. }
  split.
  { intros k x [ -> | [ -> | -> ] ] Hx.
    - rewrite Hdm in Hx. injection Hx as <-. exists m'. split; [|done].
      by rewrite Hd3, Hd2m.
    - rewrite Hdw in Hx. injection Hx as <-. exists w'. split; [|done].
      by rewrite Hd3, Hd2w.
    - rewrite Hdh in Hx. injection Hx as <-. exists hv'. by split. }
  split; [done|]. split; [done|]. split; eauto.
Qed.

Lemma bind_Ok_intro {A B : Type} (m : result A) (f : A -> result B) a b :
  m = Ok a -> f a = Ok b -> m ≫= f = Ok b.
Proof. intros -> H. exact H. Qed.

(** C3. The default cascade only adds: whenever it succeeds on a cluster,
    every field of the input is still there with its value (a nested
    mapping may have gained fields, a list may have gained elements at its
    end, nothing was replaced), and running the cascade again on its own
    output returns that output unchanged. *)
Theorem cascade_additive_idempotent cc cc' :
  resolve_cluster repr_container cwd cc = Ok cc' ->
  extends cc cc' /\ resolve_cluster repr_container cwd cc' = Ok cc'.
Proof.
  intros H.
  destruct (resolve_cluster_out _ _ H)
    as (d & d1 & d' & ns0 & ns1 & ns3 & es & names & vals & es3
        & -> & -> & Hsub & Hcc1 & Hall1 & Hns1 & Hns3 & Hhosts1 & Hnames & Hvals
        & Hes3 & Hsame & Hext & Hall3 & Hhosts3 & (m' & Hm' & Hstore)
        & (hv' & Hhv' & Hhstore)).
  assert (Hkeep : forall k x, d1 !! k = Some x ->
                  exists x', d' !! k = Some x' /\ extends x x').
  { intros k x Hx.
    destruct (decide (k = "masters")) as [->|K1]; [eapply Hext; eauto|].
    destruct (decide (k = "workers")) as [->|K2]; [eapply Hext; eauto|].
    destruct (decide (k = "hosts")) as [->|K3]; [eapply Hext; eauto|].
    exists x. split; [by rewrite Hsame | apply extends_refl]. }
  split.
  { apply extends_dict. intros k x Hx. apply Hkeep. by eapply lookup_weaken. }
  destruct (passes_nodes _ _ _ _ Hns1 Hns3) as (A03 & A13 & Hdone).
  destruct (passes_hosts _ _ _ Hes3) as (Ah & Hhdone).
  pose proof (node_key_hashable _ _ Hvals) as Hhash.
  unfold all_nodes in Hall3.
  apply bind_Ok in Hall3 as (m3 & Hm3 & Hall3).
  apply bind_Ok in Hall3 as (w3 & Hw3 & Hall3).
  apply bind_Ok in Hall3 as (all3 & Hadd3 & Hiter3).
  assert (m3 = m') as -> by congruence.
  unfold all_hosts in Hhosts3.
  apply bind_Ok in Hhosts3 as (hv3 & Hhv3 & Hiterh).
  assert (hv3 = hv') as -> by congruence.
  unfold resolve_cluster.
  eapply bind_Ok_intro.
  { apply cluster_defaults_noop.
    destruct (cluster_defaults_adds _ _ _ _ Hcc1) as [_ Hkeys].
    eapply Forall_impl; [exact Hkeys|]. intros k. rewrite !has_dict.
    intros [x Hx]. destruct (Hkeep _ _ Hx) as (x' & Hx' & _). eauto. }
  eapply bind_Ok_intro; [exact Hm3|].
  eapply bind_Ok_intro; [exact Hw3|].
  eapply bind_Ok_intro; [exact Hadd3|].
  eapply bind_Ok_intro; [exact Hiter3|].
  eapply bind_Ok_intro.
  { apply for_each_id. eapply Forall_impl; [exact Hdone|].
    intros n Hn. by apply (node_done_noop (YDict d')). }
  eapply bind_Ok_intro; [exact Hhv'|].
  eapply bind_Ok_intro; [exact Hiterh|].
  eapply bind_Ok_intro.
  { eapply (for_each_adds name_key); [apply name_key_adds | exact Ah |].
    apply for_each_app; [exact Hnames|].
    apply name_key_entries. by apply new_names_Forall. }
  eapply bind_Ok_intro.
  { eapply add_hosts_noop.
    - eapply (for_each_adds node_key); [apply node_key_adds | exact A13 | exact Hvals].
    - apply new_names_nil, new_names_covers.
      eapply Forall_impl; [exact Hhash|]. intros v Hv.
      by destruct (key_eqb_refl _ _ Hv). }
  eapply bind_Ok_intro.
  { apply for_each_id. eapply Forall_impl; [exact Hdone|].
    intros n Hn. by apply node_done_noop. }
  eapply bind_Ok_intro; [exact Hiterh|].
  eapply bind_Ok_intro.
  { apply for_each_id. eapply Forall_impl; [exact Hhdone|].
    intros h Hh. by apply host_done_noop. }
  eapply bind_Ok_intro; [exact Hstore|].
  exact Hhstore.
Qed.

Lemma default_key_lacks k k' dflt v v' :
  k <> k' -> contains k v = Ok false -> default_key k' dflt v = Ok v' ->
  contains k v' = Ok false.
Proof.
  intros Hne Hk H. unfold default_key in H. apply bind_Ok in H as (b & Hb & H).
  destruct b; [by injection H as <-|].
  apply bind_Ok in H as (x & _ & H).
  destruct v; simpl in H; try discriminate. injection H as <-.
  simpl in *. by rewrite lookup_insert_ne.
Qed.

Lemma cluster_defaults_hosts cc cc1 :
  contains "hosts" cc = Ok false ->
  cluster_defaults repr_container cwd cc = Ok cc1 ->
  getitem cc1 "hosts" = Ok (YList []).
Proof.
  intros Hk H. unfold cluster_defaults in H.
  repeat (let c := fresh "c" in let D := fresh "D" in
          apply bind_Ok in H as (c & D & H);
          apply (default_key_lacks "hosts") in D; [|done|assumption]).
  destruct (default_key_absent _ _ _ _ D7 H) as (x & [= <-] & Hx). exact Hx.
Qed.

Lemma node_keys_raw ns vals :
  for_each node_key ns = Ok vals -> for_each (fun n => getitem n "node") ns = Ok vals.
Proof.
  intros H%for_each_Forall2. apply Forall2_for_each.
  eapply Forall2_impl; [exact H|]. intros n v Hn. unfold node_key in Hn.
  apply bind_Ok in Hn as (v0 & Hv0 & Hv).
  by destruct (key_eqb_refl _ _ Hv) as [-> _].
Qed.

Lemma name_keys_raw es names :
  for_each name_key es = Ok names -> for_each (fun h => getitem h "name") es = Ok names.
Proof.
  intros H%for_each_Forall2. apply Forall2_for_each.
  eapply Forall2_impl; [exact H|]. intros n v Hn. unfold name_key in Hn.
  apply bind_Ok in Hn as (v0 & Hv0 & Hv).
  by destruct (key_eqb_refl _ _ Hv) as [-> _].
Qed.

(** The host entries a cluster was given are the ones the cascade starts
    from. *)
Lemma given_hosts_start d d1 es :
  d ⊆ d1 ->
  cluster_defaults repr_container cwd (YDict d) = Ok (YDict d1) ->
  all_hosts (YDict d1) = Ok es ->
  given_hosts (YDict d) = Ok es.
Proof.
  intros Hsub Hcc1 Hes. unfold given_hosts. cbn [contains mbind result_bind].
  destruct (d !! "hosts") as [hv|] eqn:Hh.
  - rewrite bool_decide_eq_true_2 by eauto.
    unfold all_hosts in *. cbn [getitem] in *.
    by rewrite Hh, (lookup_weaken _ _ _ _ Hh Hsub) in *.
  - rewrite bool_decide_eq_false_2 by (intros [? ?]; congruence).
    assert (Hc : contains "hosts" (YDict d) = Ok false).
    { simpl. rewrite Hh. by rewrite bool_decide_eq_false_2 by (intros [? ?]; congruence). }
    pose proof (cluster_defaults_hosts _ _ Hc Hcc1) as Hempty.
    unfold all_hosts in Hes. rewrite Hempty in Hes. simpl in Hes. congruence.
Qed.

(** C2, as the code has it.  After the cascade the names of the host
    entries are the names the input listed, in the input's order and with
    the input's repetitions, followed by one name for each distinct [node]
    value of masters ++ workers that the input did not list, in order of
    first appearance.  Every [node] value is the name of some entry.  When
    the input lists no host, the names are exactly the distinct [node]
    values in order of first appearance. *)
Theorem hosts_after_resolution cc cc' :
  resolve_cluster repr_container cwd cc = Ok cc' ->
  exists given vals,
    given_host_names cc = Ok given
    /\ node_values cc' = Ok vals
    /\ host_names cc'
       = Ok (given ++ uniq_first (List.filter (fun v => negb (set_mem v given)) vals))
    /\ (forall names, host_names cc' = Ok names ->
         Forall (fun v => set_mem v names = true) vals)
    /\ (given = [] -> host_names cc' = Ok (uniq_first vals)).
Proof.
  intros H.
  destruct (resolve_cluster_out _ _ H)
    as (d & d1 & d' & ns0 & ns1 & ns3 & es & names & vals & es3
        & -> & -> & Hsub & Hcc1 & Hall1 & Hns1 & Hns3 & Hhosts1 & Hnames & Hvals
        & Hes3 & Hsame & Hext & Hall3 & Hhosts3 & _ & _).
  destruct (passes_nodes _ _ _ _ Hns1 Hns3) as (A03 & A13 & Hdone).
  destruct (passes_hosts _ _ _ Hes3) as (Ah & Hhdone).
  pose proof (node_key_hashable _ _ Hvals) as Hhash.
  assert (Hout : host_names (YDict d')
                 = Ok (names ++ new_names names vals)).
  { unfold host_names. rewrite Hhosts3. cbn [mbind result_bind].
    apply name_keys_raw.
    eapply (for_each_adds name_key); [apply name_key_adds | exact Ah |].
    apply for_each_app; [exact Hnames|].
    apply name_key_entries. by apply new_names_Forall. }
  exists names, vals. split; [|split; [|split; [|split]]].
  - pose proof (given_hosts_start _ _ _ Hsub Hcc1 Hhosts1) as Hg.
    unfold given_hosts in Hg. unfold given_host_names, host_names.
    apply bind_Ok in Hg as (b & Hb & Hg). rewrite Hb. cbn [mbind result_bind].
    destruct b.
    + rewrite Hg. cbn [mbind result_bind]. by apply name_keys_raw.
    + injection Hg as <-. simpl in Hnames. congruence.
  - unfold node_values. rewrite Hall3. cbn [mbind result_bind].
    apply node_keys_raw.
    eapply (for_each_adds node_key); [apply node_key_adds | exact A13 | exact Hvals].
  - by rewrite Hout, new_names_uniq_first.
  - intros names' Hn. rewrite Hout in Hn. injection Hn as <-.
    apply new_names_covers. eapply Forall_impl; [exact Hhash|].
    intros v Hv. by destruct (key_eqb_refl _ _ Hv).
  - intros ->. rewrite Hout, new_names_uniq_first. simpl.
    do 2 f_equal. clear. induction vals as [|v vals IH]; simpl; [done|]. by rewrite IH.
Qed.

Lemma host_defaults_values cc h h' :
  host_defaults cc h = Ok h' ->
  (contains "username" h = Ok false -> getitem h' "username" = Ok (YStr "core"))
  /\ (contains "password" h = Ok false -> getitem h' "password" = Ok YNone)
  /\ (contains "pre_installed" h = Ok false ->
       getitem h' "pre_installed" = Ok (YStr "True")).
Proof.
  unfold host_defaults. intros H.
  apply bind_Ok in H as (h1 & H1 & H). apply bind_Ok in H as (h2 & H2 & H).
  apply bind_Ok in H as (h3 & H3 & H).
  destruct (default_key_adds _ _ _ _ H3) as [A3 _].
  destruct (default_key_adds _ _ _ _ H) as [A4 _].
  split; [|split]; intros Hk.
  - apply (default_key_lacks "username") in H1; [|done|exact Hk].
    destruct (default_key_absent _ _ _ _ H1 H2) as (x & [= <-] & Hx).
    eapply adds_getitem; [exact A4|]. eapply adds_getitem; [exact A3|]. exact Hx.
  - apply (default_key_lacks "password") in H1; [|done|exact Hk].
    apply (default_key_lacks "password") in H2; [|done|exact H1].
    destruct (default_key_absent _ _ _ _ H2 H3) as (x & [= <-] & Hx).
    eapply adds_getitem; [exact A4|]. exact Hx.
  - apply (default_key_lacks "pre_installed") in H1; [|done|exact Hk].
    apply (default_key_lacks "pre_installed") in H2; [|done|exact H1].
    apply (default_key_lacks "pre_installed") in H3; [|done|exact H2].
    destruct (default_key_absent _ _ _ _ H3 H) as (x & [= <-] & Hx). exact Hx.
Qed.

(** C9, as the code has it.  After the cascade, every host entry (given in
    the input or synthesized for a node) whose input lacks [pre_installed]
    has it set to the string "True"; likewise [username] is "core" and
    [password] is [None] where the input lacks them. *)
Theorem host_entry_defaults cc cc' :
  resolve_cluster repr_container cwd cc = Ok cc' ->
  exists given entries,
    given_hosts cc = Ok given
    /\ all_hosts cc' = Ok entries
    /\ (length given <= length entries)%nat
    /\ forall i h', entries !! i = Some h' ->
        (lacks_at given i "pre_installed" ->
         getitem h' "pre_installed" = Ok (YStr "True"))
        /\ (lacks_at given i "username" -> getitem h' "username" = Ok (YStr "core"))
        /\ (lacks_at given i "password" -> getitem h' "password" = Ok YNone).
Proof.
  intros H.
  destruct (resolve_cluster_out _ _ H)
    as (d & d1 & d' & ns0 & ns1 & ns3 & es & names & vals & es3
        & -> & -> & Hsub & Hcc1 & Hall1 & Hns1 & Hns3 & Hhosts1 & Hnames & Hvals
        & Hes3 & Hsame & Hext & Hall3 & Hhosts3 & _ & _).
  exists es, es3. split; [by eapply given_hosts_start|]. split; [done|].
  apply for_each_Forall2 in Hes3.
  split.
  { rewrite <- (Forall2_length _ _ _ Hes3), length_app. lia. }
  intros i h' Hi.
  destruct (Forall2_lookup_r _ _ _ _ _ Hes3 Hi) as (h2 & Hh2 & Hdef).
  assert (Hlack : forall k, k <> "name" -> lacks_at es i k -> contains k h2 = Ok false).
  { intros k Hk Hl. unfold lacks_at in Hl.
    destruct (es !! i) as [h|] eqn:Hesi.
    - rewrite (lookup_app_l_Some _ _ _ _ Hesi) in Hh2. by injection Hh2 as <-.
    - apply lookup_ge_None in Hesi. rewrite lookup_app_r in Hh2 by done.
      apply list_lookup_fmap_Some in Hh2 as (v & -> & _).
      unfold entry. simpl. rewrite lookup_singleton_ne by done.
      by rewrite bool_decide_eq_false_2 by (intros [? ?]; congruence). }
  destruct (host_defaults_values _ _ _ Hdef) as (Hu & Hp & Hi').
  split; [|split]; intros Hl; [apply Hi' | apply Hu | apply Hp]; by apply Hlack.
Qed.
End Cascade.

(** ** The cascade on the example clusters *)

Lemma cascade_additive_idempotent_witness :
  exists cc',
    resolve_cluster no_repr "/root" cluster_without_hosts = Ok cc'
    /\ extends cluster_without_hosts cc'
    /\ resolve_cluster no_repr "/root" cc' = Ok cc'.
Proof.
  eexists. split; [vm_compute; reflexivity|].
  apply cascade_additive_idempotent. vm_compute. reflexivity.
Defined.

Lemma hosts_after_resolution_witness :
  exists cc',
    resolve_cluster no_repr "/root" cluster_without_hosts = Ok cc'
    /\ exists given vals,
         given_host_names cluster_without_hosts = Ok given
         /\ node_values cc' = Ok vals
         /\ host_names cc'
            = Ok (given ++ uniq_first (List.filter (fun v => negb (set_mem v given)) vals))
         /\ (forall names, host_names cc' = Ok names ->
              Forall (fun v => set_mem v names = true) vals)
         /\ (given = [] -> host_names cc' = Ok (uniq_first vals)).
Proof.
  eexists. split; [vm_compute; reflexivity|].
  apply (hosts_after_resolution no_repr "/root"). vm_compute. reflexivity.
Defined.

(** C2, as stated, at [cluster_with_hosts]: the node values are A, B in
    order of first appearance, but the resolved hosts are named B, B, A. *)
Lemma hosts_after_resolution_counterexample :
  exists cc',
    resolve_cluster no_repr "/root" cluster_with_hosts = Ok cc'
    /\ node_values cc' = Ok [YStr "A"; YStr "B"]
    /\ host_names cc' = Ok [YStr "B"; YStr "B"; YStr "A"]
    /\ host_names cc' <> Ok (uniq_first [YStr "A"; YStr "B"]).
Proof.
  eexists. split; [vm_compute; reflexivity|].
  split; [vm_compute; reflexivity|].
  split; [vm_compute; reflexivity|].
  vm_compute. discriminate.
Qed.

Lemma host_entry_defaults_witness :
  exists cc' given entries h',
    resolve_cluster no_repr "/root" cluster_with_hosts = Ok cc'
    /\ given_hosts cluster_with_hosts = Ok given
    /\ all_hosts cc' = Ok entries
    /\ lacks_at given 0 "pre_installed"
    /\ entries !! 0%nat = Some h'
    /\ getitem h' "pre_installed" = Ok (YStr "True").
Proof.
  eexists.
  edestruct (host_entry_defaults no_repr "/root" cluster_with_hosts)
    as (given & entries & Hg & He & _ & Hall); [vm_compute; reflexivity|].
  exists given, entries.
  destruct entries as [|h' entries]; [vm_compute in He; discriminate He|].
  exists h'. split; [reflexivity|]. split; [exact Hg|]. split; [exact He|].
  assert (Hl : lacks_at given 0 "pre_installed").
  { vm_compute in Hg. injection Hg as <-. vm_compute. reflexivity. }
  split; [exact Hl|]. split; [reflexivity|].
  by apply (Hall 0%nat h' eq_refl).
Defined.

(** C9, as stated, at [cluster_with_hosts]: its first host entry has no
    [pre_installed]; after the cascade the field holds the string "True",
    which is not the boolean [True]. *)
Lemma pre_installed_counterexample :
  exists cc' h',
    resolve_cluster no_repr "/root" cluster_with_hosts = Ok cc'
    /\ (given ← given_hosts cluster_with_hosts; h ← index given 0;
         contains "pre_installed" h) = Ok false
    /\ (entries ← all_hosts cc'; index entries 0) = Ok h'
    /\ getitem h' "pre_installed" = Ok (YStr "True")
    /\ getitem h' "pre_installed" <> Ok (YBool true).
Proof.
  eexists. eexists. split; [vm_compute; reflexivity|].
  split; [vm_compute; reflexivity|].
  split; [vm_compute; reflexivity|].
  split; [vm_compute; reflexivity|].
  vm_compute. discriminate.
Qed.

(** ** The constructor *)

Section Init.
Variable repr_container : yaml -> string.
Variable cwd : string.
Variable read_file : string -> option string.
Variable safe_load : string -> result yaml.
Variable Template : Type.
Variable jinja_template : string -> result Template.
Variable jinja_render : Template -> yaml -> result string.

(** C1 fails on the code.  [_load_full_config] keeps the first cluster
    itself in [self.fullConfig], and the constructor then loops over
    [self.fullConfig["clusters"]]: when the first cluster has no key
    [clusters] the constructor raises [KeyError], and when it returns, every
    key of the first cluster other than [clusters] is as it was loaded, so
    a missing [masters], [workers] or [hosts] is still missing. *)
Theorem init_skips_first_cluster yaml_path d :
  _load_full_config read_file safe_load Template jinja_template jinja_render yaml_path
  = Ok (YDict d) ->
  (d !! "clusters" = None ->
   init repr_container cwd read_file safe_load Template jinja_template jinja_render
     yaml_path = Raise KeyError)
  /\ (forall r,
       init repr_container cwd read_file safe_load Template jinja_template jinja_render
         yaml_path = Ok r ->
       exists d', r = YDict d' /\ forall k, k <> "clusters" -> d' !! k = d !! k).
Proof.
  intros Hload. unfold init. rewrite Hload. cbn [mbind result_bind getitem]. split.
  - intros ->. reflexivity.
  - intros r H. destruct (d !! "clusters") as [cl|]; [|discriminate].
    cbn [mbind result_bind] in H.
    apply bind_Ok in H as (ccs & _ & H). apply bind_Ok in H as (ccs' & _ & H).
    destruct cl; simpl in H; injection H as <-; eexists; split; try reflexivity.
    intros k Hk. by rewrite lookup_insert_ne.
Qed.
End Init.

Lemma init_skips_first_cluster_witness :
  let load := _load_full_config (fun _ => Some "clusters: [{name: c}]")
                (fun _ => Ok plain_document) string (fun text => Ok text)
                (fun template _ => Ok template) in
  let construct := init no_repr "/root" (fun _ => Some "clusters: [{name: c}]")
                     (fun _ => Ok plain_document) string (fun text => Ok text)
                     (fun template _ => Ok template) in
  load "cluster.yaml" = Ok (mapping [("name", YStr "c")])
  /\ contains "masters" (mapping [("name", YStr "c")]) = Ok false
  /\ construct "cluster.yaml" = Raise KeyError.
Proof.
  split; [vm_compute; reflexivity|]. split; [vm_compute; reflexivity|].
  eapply init_skips_first_cluster; vm_compute; reflexivity.
Defined.

(** ** Template functions *)

Lemma re_sub_non_digit s : re_sub_class non_digit s = digits_of s.
Proof.
  unfold digits_of. induction s as [|c s IH]; simpl; [done|].
  unfold non_digit at 1. destruct (is_digit c); simpl; by rewrite IH.
Qed.

(** C8. [worker_number(a)] returns the name of worker [a] of the cluster
    found for the current host, reduced to its digits: "12" for "worker-12"
    and "3" for "bf-worker-3b". *)
Theorem worker_number_strips_non_digits info hostname_out _clusters a ci name :
  _ensure_clusters_loaded info hostname_out _clusters = Ok ci ->
  index (workers ci) a = Ok name ->
  worker_number info hostname_out _clusters a = Ok (digits_of name, Some ci)
  /\ (name = "worker-12" -> digits_of name = "12")
  /\ (name = "bf-worker-3b" -> digits_of name = "3").
Proof.
  intros Hci Hname. unfold worker_number. rewrite Hci. cbn [mbind result_bind].
  rewrite Hname. cbn [mbind result_bind]. rewrite re_sub_non_digit.
  split; [done|]. split; intros ->; reflexivity.
Qed.

Lemma worker_number_strips_non_digits_witness :
  worker_number example_info "host1.example.com" None 0
    = Ok ("12", Some {| workers := ["worker-12"; "bf-worker-3b"]; network_api_port := "eno1" |})
  /\ worker_number example_info "host1.example.com" None (-1)
    = Ok ("3", Some {| workers := ["worker-12"; "bf-worker-3b"]; network_api_port := "eno1" |}).
Proof.
  split.
  - apply (worker_number_strips_non_digits example_info "host1.example.com" None 0 _ "worker-12");
      vm_compute; reflexivity.
  - apply (worker_number_strips_non_digits example_info "host1.example.com" None (-1) _
             "bf-worker-3b"); vm_compute; reflexivity.
Defined.

End ResolverFacts.

(* ===================================================================== *)
(** * Facts about the reconciler *)
(* ===================================================================== *)

Module BridgeFacts.
Import Py VirBridge BridgeProps.

(** ** Running a computation, one command at a time *)

Section Exec.
Variable respond : list event -> string -> Result.
Variable file_contents : list event -> string -> string.
Variable hostname : string.

Local Abbreviation run := (run respond).
Local Abbreviation run_or_die := (run_or_die respond).

Lemma bind_assoc {A B C : Type} (m : M A) (f : A -> M B) (g : B -> M C) t :
  ((m ≫= f) ≫= g) t = (m ≫= (fun x => f x ≫= g)) t.
Proof. unfold mbind, M_bind. destruct (m t) as [[a|] t']; reflexivity. Qed.

Lemma bind_ret {A B : Type} (a : A) (f : A -> M B) t : (mret a ≫= f) t = f a t.
Proof. reflexivity. Qed.

Lemma bind_exit {A B : Type} (f : A -> M B) t : (sys_exit ≫= f) t = (Exit, t).
Proof. reflexivity. Qed.

Lemma bind_run {B : Type} cmd (k : Result -> M B) t :
  (run cmd ≫= k) t = k (respond t cmd) (t ++ [Run cmd (respond t cmd)]).
Proof. reflexivity. Qed.

Lemma bind_run_or_die {B : Type} cmd (k : Result -> M B) t :
  (run_or_die cmd ≫= k) t
  = if returncode (respond t cmd) =? 0
    then k (respond t cmd) (t ++ [Run cmd (respond t cmd)])
    else (Exit, t ++ [Run cmd (respond t cmd)]).
Proof.
  unfold VirBridge.run_or_die, VirBridge.run, mbind, M_bind.
  destruct (returncode (respond t cmd) =? 0); reflexivity.
Qed.

Lemma bind_read {B : Type} path (k : string -> M B) t :
  (read_file file_contents path ≫= k) t
  = k (file_contents t path) (t ++ [ReadFile path (file_contents t path)]).
Proof. reflexivity. Qed.

Lemma bind_write {B : Type} path contents (k : unit -> M B) t :
  (write path contents ≫= k) t = k () (t ++ [WriteFile path contents]).
Proof. reflexivity. Qed.

Lemma bind_sleep {B : Type} n (k : unit -> M B) t :
  (sleep n ≫= k) t = k () (t ++ [Sleep n]).
Proof. reflexivity. Qed.

Lemma bind_if {A B : Type} (b : bool) (m1 m2 : M A) (k : A -> M B) t :
  ((if b then m1 else m2) ≫= k) t = if b then (m1 ≫= k) t else (m2 ≫= k) t.
Proof. by destruct b. Qed.
End Exec.

(** Once a command has been issued, only its reply is kept, as a variable:
    the facts below hold whatever the host answered. *)
Ltac forget_reply H :=
  match type of H with
  | context [?respond ?t ?cmd] =>
      match type of (respond t cmd) with
      | Result => let r := fresh "r" in set (r := respond t cmd) in H; clearbody r
      end
  end.

Ltac exec_step H :=
  first
    [ rewrite bind_assoc in H
    | rewrite bind_ret in H
    | rewrite bind_exit in H
    | rewrite bind_if in H
    | rewrite bind_run in H; cbv beta in H; forget_reply H
    | rewrite bind_run_or_die in H; cbv beta in H; forget_reply H
    | rewrite bind_write in H; cbv beta in H
    | rewrite bind_sleep in H; cbv beta in H
    | rewrite bind_read in H; cbv beta in H;
      match type of H with
      | context [?fc ?t ?p] =>
          match type of (fc t p) with
          | string => let q := fresh "q" in set (q := fc t p) in H; clearbody q
          end
      end
    | match type of H with
      | (if ?b then _ else _) = _ => destruct b eqn:?
      | (if ?b then _ else _) _ = _ => destruct b eqn:?
      end ].


Ltac exec_end H :=
  unfold sys_exit, error_and_exit, mret, M_ret in H;
  injection H as <- <-;
  rewrite <- ?app_assoc; cbn [app].

Ltac exec H := repeat exec_step H; exec_end H.


(** Use the conditions collected along a path. *)
Ltac use_path :=
  repeat match goal with
         | E : ?b = true |- context [?b] => rewrite E
         | E : ?b = false |- context [?b] => rewrite E
         | E : ?b = true, H : context [?b] |- _ => rewrite E in H
         | E : ?b = false, H : context [?b] |- _ => rewrite E in H
         end.

(** ** The substring test *)

Lemma prefix_spec n h : String.prefix n h = true <-> exists b, h = n +:+ b.
Proof.
  revert h. induction n as [|c n IH]; intros h.
  - split; [intros _; by exists h | intros _; by destruct h].
  - destruct h as [|c' h]; simpl; [split; [done | intros [b [=]]]|].
    destruct (Ascii.ascii_dec c c') as [->|Hne].
    + rewrite IH. split; intros [b Hb]; exists b; [by rewrite Hb | by injection Hb].
    + split; [done | intros [b [= ? ?]]; done].
Qed.

(** [str_in n h] holds exactly when [n] occurs in [h]. *)
Lemma str_in_spec n h : str_in n h = true <-> exists a b, h = a +:+ n +:+ b.
Proof.
  induction h as [|c h IH]; cbn [str_in]; rewrite orb_true_iff, prefix_spec.
  - split.
    + intros [[b Hb]|[=]]. by exists EmptyString, b.
    + intros (a & b & Hab). left. destruct a as [|? ?]; [|discriminate].
      by exists b.
  - rewrite IH. split.
    + intros [[b Hb]|(a & b & Hab)].
      * by exists EmptyString, b.
      * exists (String c a), b. simpl. by rewrite Hab.
    + intros (a & b & Hab). destruct a as [|c' a]; simpl in Hab.
      * left. by exists b.
      * right. exists a, b. by injection Hab.
Qed.

Lemma append_assoc a b c : (a +:+ b) +:+ c = a +:+ (b +:+ c).
Proof.
  induction a as [|x a IH]; [reflexivity|].
  change (String x ((a +:+ b) +:+ c) = String x (a +:+ (b +:+ c))). by rewrite IH.
Qed.

(** A static lease for [name] shows the name between single quotes. *)
Lemma static_entry_quoted name xml :
  has_static_entry name xml -> str_in ("'" +:+ name +:+ "'") xml = true.
Proof.
  intros (mac & ip & before & after & ->). apply str_in_spec.
  exists (before +:+ "<host mac='" +:+ mac +:+ "' name="), (" ip='" +:+ ip +:+ "'/>" +:+ after).
  unfold host_xml. rewrite !append_assoc. reflexivity.
Qed.

(** A name that does not occur does not occur between quotes either. *)
Lemma absent_name_not_quoted name xml :
  str_in name xml = false -> str_in ("'" +:+ name +:+ "'") xml = false.
Proof.
  intros Hno. destruct (str_in ("'" +:+ name +:+ "'") xml) eqn:Hq; [|done].
  apply str_in_spec in Hq as (a & b & ->).
  rewrite <- Hno. symmetry. apply str_in_spec.
  exists (a +:+ "'"), ("'" +:+ b). rewrite !append_assoc. reflexivity.
Qed.

(** ** [setup_dhcp_entry] *)

Section Entry.
Variable respond : list event -> string -> Result.

(** C5. Whenever the active leases that [setup_dhcp_entry] queried show the
    node's name followed by a space, the call exits and no add-entry
    command was issued, whatever the static leases said; whenever they do
    not (as when the name is only the beginning of a longer name, worker-2
    in worker-20), the call goes on to issue the add-entry command. *)
Theorem lease_collision_is_fatal cfg t0 o t1 :
  setup_dhcp_entry respond cfg t0 = (o, t1) ->
  exists issued,
    t1 = t0 ++ issued
    /\ (lease_collision (name cfg) issued = true ->
        o = Exit /\ List.filter is_add_host (commands issued) = [])
    /\ (forall ret, reply_to leases_cmd issued = Some ret ->
        str_in (name cfg +:+ " ") (out ret) = false ->
        List.filter is_add_host (commands issued)
        = [add_host_cmd (format_opt (mac cfg)) (name cfg) (format_opt (ip cfg))]).
Proof.
  intros H. unfold setup_dhcp_entry in H.
  destruct (ip cfg) as [ip0|] eqn:Hip; cbv zeta in H; exec H;
    (eexists; split; [try reflexivity; by rewrite app_nil_r|]).
  all: split; [intros Hc | intros ret Hret Hno].
  all: try (split; reflexivity).
  all: try discriminate.
  all: try (unfold lease_collision in Hc; simpl in Hc; congruence).
  all: simpl in Hret; injection Hret as <-; congruence.
Qed.

Lemma quoted_name_deleted_first cfg t0 o t1 :
  setup_dhcp_entry respond cfg t0 = (o, t1) ->
  exists issued,
    t1 = t0 ++ issued
    /\ forall ret, reply_to dumpxml_cmd issued = Some ret ->
       (str_in ("'" +:+ name cfg +:+ "'") (out ret) = true ->
        List.filter is_host_update (commands issued)
          `prefix_of` [delete_host_cmd (name cfg);
                       add_host_cmd (format_opt (mac cfg)) (name cfg) (format_opt (ip cfg))]
        /\ (returncode ret = 0 ->
            [delete_host_cmd (name cfg)]
              `prefix_of` List.filter is_host_update (commands issued)))
       /\ (str_in ("'" +:+ name cfg +:+ "'") (out ret) = false ->
           List.filter is_delete_host (commands issued) = []).
Proof.
  intros H. unfold setup_dhcp_entry in H.
  destruct (ip cfg) as [ip0|] eqn:Hip; cbv zeta in H; exec H;
    (eexists; split; [try reflexivity; by rewrite app_nil_r|]).
  all: intros ret Hret; simpl in Hret; try discriminate Hret; injection Hret as <-.
  all: split; [intros Hin; split; [|intros Hrc] | intros Hin].
  all: try congruence.
  all: try (rewrite Hrc in *; discriminate).
  all: try reflexivity.
  all: by eexists.
Qed.

(** C6. When the static leases that [setup_dhcp_entry] read hold an entry
    for the node's name, with whatever MAC and ip, the updates of host
    entries it issues are, in order, the delete-entry command for that name
    and then the add-entry command: the delete is issued as soon as the
    query succeeded, and the add never comes first.  When the name does not
    occur in what was read, no delete-entry command is issued.  (The code
    tests for the name between single quotes.) *)
Theorem stale_entry_deleted_first cfg t0 o t1 :
  setup_dhcp_entry respond cfg t0 = (o, t1) ->
  exists issued,
    t1 = t0 ++ issued
    /\ forall ret, reply_to dumpxml_cmd issued = Some ret ->
       (has_static_entry (name cfg) (out ret) ->
        List.filter is_host_update (commands issued)
          `prefix_of` [delete_host_cmd (name cfg);
                       add_host_cmd (format_opt (mac cfg)) (name cfg) (format_opt (ip cfg))]
        /\ (returncode ret = 0 ->
            [delete_host_cmd (name cfg)]
              `prefix_of` List.filter is_host_update (commands issued)))
       /\ (str_in (name cfg) (out ret) = false ->
           List.filter is_delete_host (commands issued) = []).
Proof.
  intros H. destruct (quoted_name_deleted_first _ _ _ _ H) as (issued & Heq & Hall).
  exists issued. split; [exact Heq|]. intros ret Hret.
  destruct (Hall ret Hret) as [Hin Hout]. split.
  - intros Hentry. apply Hin. by apply static_entry_quoted.
  - intros Hno. apply Hout. by apply absent_name_not_quoted.
Qed.

(** C10, as the code has it.  [setup_dhcp_entry] exits exactly when the
    node has no ip, or the active leases show its name, or one of the
    commands it runs through [run_or_die] (every command but the lease
    query) exits non-zero.  The MAC is not among the causes: a call that
    returns has issued the add-entry command with the MAC as the f-string
    prints it, which is None for a node without MAC. *)
Theorem setup_dhcp_entry_exits cfg t0 o t1 :
  setup_dhcp_entry respond cfg t0 = (o, t1) ->
  exists issued,
    t1 = t0 ++ issued
    /\ (o = Exit <->
        ip cfg = None
        \/ lease_collision (name cfg) issued = true
        \/ required_failed issued = true)
    /\ (o = Done () ->
        exists ip0, ip cfg = Some ip0
          /\ List.filter is_add_host (commands issued)
             = [add_host_cmd (format_opt (mac cfg)) (name cfg) ip0]
          /\ (mac cfg = None ->
              List.filter is_add_host (commands issued)
              = [add_host_cmd "None" (name cfg) ip0])).
Proof.
  intros H. unfold setup_dhcp_entry in H.
  destruct (ip cfg) as [ip0|] eqn:Hip; cbv zeta in H; exec H;
    (eexists; split; [try reflexivity; by rewrite app_nil_r|]).
  all: split; [split; [intros Ho | intros Hcause] | intros Ho].
  all: try discriminate Ho.
  all: try reflexivity.
  all: try (exists ip0; split; [reflexivity|]; split; [reflexivity|];
            by intros ->).
  all: try (left; reflexivity).
  all: unfold lease_collision, required_failed in *; simpl in *; use_path; simpl in *.
  all: try (right; left; reflexivity).
  all: try (right; right; reflexivity).
  all: destruct Hcause as [Hcause|[Hcause|Hcause]]; discriminate.
Qed.
End Entry.

(** ** [configure] *)

Lemma eqb_app_l a b c : String.eqb (a +:+ b) (a +:+ c) = String.eqb b c.
Proof.
  induction a as [|x a IH]; simpl; [done|]. by rewrite Ascii.eqb_refl.
Qed.

Lemma eqb_link api_network s1 s2 :
  String.eqb (link_cmd api_network s1) (link_cmd api_network s2) = String.eqb s1 s2.
Proof. unfold link_cmd. by rewrite !eqb_app_l. Qed.

Lemma is_recreation_down api_network :
  is_recreation_cmd api_network (link_cmd api_network "down") = true.
Proof.
  unfold is_recreation_cmd, recreation_order. cbn [existsb]. rewrite !eqb_link.
  reflexivity.
Qed.

Lemma is_recreation_up api_network :
  is_recreation_cmd api_network (link_cmd api_network "up") = true.
Proof.
  unfold is_recreation_cmd, recreation_order. cbn [existsb]. rewrite !eqb_link.
  reflexivity.
Qed.

Lemma filter_keep {A : Type} (f : A -> bool) x l :
  f x = true -> List.filter f (x :: l) = x :: List.filter f l.
Proof. simpl. by intros ->. Qed.

Lemma filter_drop {A : Type} (f : A -> bool) x l :
  f x = false -> List.filter f (x :: l) = List.filter f l.
Proof. simpl. by intros ->. Qed.

Ltac filter_steps :=
  repeat match goal with
         | |- context [List.filter ?f (link_cmd ?a "down" :: ?l)] =>
             rewrite (filter_keep f (link_cmd a "down") l) by apply is_recreation_down
         | |- context [List.filter ?f (link_cmd ?a "up" :: ?l)] =>
             rewrite (filter_keep f (link_cmd a "up") l) by apply is_recreation_up
         | |- context [List.filter ?f (?x :: ?l)] =>
             first [ rewrite (filter_keep f x l) by reflexivity
                   | rewrite (filter_drop f x l) by reflexivity ]
         end;
  cbn [List.filter].

Section Configure.
Variable respond : list event -> string -> Result.
Variable file_contents : list event -> string -> string.
Variable hostname : string.

Ltac run_configure H :=
  unfold VirBridge.configure, _ensure_run_as_root, _ensure_started, limit_dhcp_range,
    _restart in H;
  cbv zeta in H; exec H;
  (eexists; split; [try reflexivity; by rewrite app_nil_r|]).

(** C4. Whenever the definition that [configure] inspected lacks stp='off'
    or contains the stale default range, the commands net-destroy,
    net-undefine, net-define, interface down, net-start, interface up that
    are issued afterwards come in exactly this order, each once: in a run
    that is cut short by a fatal failure they are a beginning of this
    sequence, and a run that returns has issued all six.  So the interface
    is brought down strictly before net-start and up strictly after it. *)
Theorem recreation_order_kept api_network t0 o t1 :
  configure respond file_contents hostname api_network t0 = (o, t1) ->
  exists issued,
    t1 = t0 ++ issued
    /\ forall ret after,
       inspection issued = Some (ret, after) ->
       needs_recreation (out ret) = true ->
       List.filter (is_recreation_cmd api_network) (commands after)
         `prefix_of` recreation_order api_network
       /\ (o = Done () ->
           List.filter (is_recreation_cmd api_network) (commands after)
           = recreation_order api_network).
Proof.
  intros H. run_configure H.
  all: intros ret after Hinsp Hneed; simpl in Hinsp; try discriminate Hinsp.
  all: injection Hinsp as <- <-.
  all: try congruence.
  all: cbn [commands]; filter_steps.
  all: split; [by eexists | intros Ho; try discriminate Ho; reflexivity].
Qed.

(** C7, as the code has it.  [configure] exits exactly when a command it runs
    through [run_or_die] (enabling the daemon, restarting it, net-define,
    net-start) exits non-zero, or net-undefine exits non-zero with an error
    other than Network not found; such a failure is the last thing that
    happens.  The exit status of every other command (net-destroy, removing
    the stale bridge, the interface down and up, the net-dumpxml queries,
    the patch of qemu.conf, and the DHCP-range delete and add of
    [limit_dhcp_range]) is ignored. *)
Theorem configure_failure_policy api_network t0 o t1 :
  configure respond file_contents hostname api_network t0 = (o, t1) ->
  exists issued,
    t1 = t0 ++ issued
    /\ (o = Exit <-> existsb fatal_failure issued = true)
    /\ existsb fatal_failure (removelast issued) = false.
Proof.
  intros H. run_configure H.
  all: cbn [existsb removelast fatal_failure].
  all: repeat match goal with
              | |- context [String.eqb ?c undefine_cmd] =>
                  change (String.eqb c undefine_cmd) with false
              | |- context [must_succeed ?c] =>
                  first [ change (must_succeed c) with true
                        | change (must_succeed c) with false ]
              end.
  all: change (String.eqb undefine_cmd undefine_cmd) with true.
  all: cbv iota; use_path; cbn [andb orb negb].
  all: split; [split; [intros Ho | intros Hf]; try discriminate; reflexivity | reflexivity].
Qed.
End Configure.

(** ** The reconciler on the example hosts *)

Lemma recreation_order_kept_witness :
  exists t1 after,
    configure quiet_host no_files "localhost" "eno1" [] = (Done (), t1)
    /\ inspection t1 = Some (reply "" 0, after)
    /\ needs_recreation (out (reply "" 0)) = true
    /\ List.filter (is_recreation_cmd "eno1") (commands after) = recreation_order "eno1".
Proof.
  eexists. eexists. split; [vm_compute; reflexivity|].
  split; [vm_compute; reflexivity|]. split; [reflexivity|].
  edestruct (recreation_order_kept quiet_host no_files "localhost" "eno1" [] (Done ()))
    as (issued & Heq & Hall); [vm_compute; reflexivity|].
  simpl in Heq. subst issued.
  edestruct Hall as [_ Hdone]; [vm_compute; reflexivity | reflexivity |].
  by apply Hdone.
Defined.

Lemma lease_collision_is_fatal_witness :
  (exists t1,
     setup_dhcp_entry colliding_host worker_2 [] = (Exit, t1)
     /\ lease_collision "worker-2" t1 = true
     /\ List.filter is_add_host (commands t1) = [])
  /\ (exists t1,
        setup_dhcp_entry leased_host worker_2 [] = (Done (), t1)
        /\ lease_collision "worker-2" t1 = false
        /\ List.filter is_add_host (commands t1)
           = [add_host_cmd "52:54:00:00:00:02" "worker-2" "192.168.122.2"]).
Proof.
  split.
  - eexists. split; [vm_compute; reflexivity|]. split; [vm_compute; reflexivity|].
    edestruct (lease_collision_is_fatal colliding_host worker_2 [] Exit)
      as (issued & Heq & Hfatal & _); [vm_compute; reflexivity|].
    simpl in Heq. subst issued. apply Hfatal. vm_compute. reflexivity.
  - eexists. split; [vm_compute; reflexivity|]. split; [vm_compute; reflexivity|].
    edestruct (lease_collision_is_fatal leased_host worker_2 [] (Done ()))
      as (issued & Heq & _ & Hgoes); [vm_compute; reflexivity|].
    simpl in Heq. subst issued. eapply Hgoes; vm_compute; reflexivity.
Defined.

Lemma stale_entry_deleted_first_witness :
  exists t1,
    setup_dhcp_entry leased_host worker_2 [] = (Done (), t1)
    /\ List.filter is_host_update (commands t1)
       = [delete_host_cmd "worker-2";
          add_host_cmd "52:54:00:00:00:02" "worker-2" "192.168.122.2"]
    /\ has_static_entry "worker-2" (out (leased_host [] dumpxml_cmd))
    /\ exists issued,
         t1 = [] ++ issued
         /\ forall ret, reply_to dumpxml_cmd issued = Some ret ->
            (has_static_entry "worker-2" (out ret) ->
             List.filter is_host_update (commands issued)
               `prefix_of` [delete_host_cmd "worker-2";
                            add_host_cmd "52:54:00:00:00:02" "worker-2" "192.168.122.2"]
             /\ (returncode ret = 0 ->
                 [delete_host_cmd "worker-2"]
                   `prefix_of` List.filter is_host_update (commands issued)))
            /\ (str_in "worker-2" (out ret) = false ->
                List.filter is_delete_host (commands issued) = []).
Proof.
  eexists. split; [vm_compute; reflexivity|]. split; [vm_compute; reflexivity|].
  split; [by exists "52:54:00:00:00:02", "192.168.122.2", "", ""|].
  apply (stale_entry_deleted_first leased_host worker_2 [] (Done ())).
  vm_compute. reflexivity.
Defined.

Lemma setup_dhcp_entry_exits_witness :
  exists t1,
    setup_dhcp_entry quiet_host worker_2_without_mac [] = (Done (), t1)
    /\ List.filter is_add_host (commands t1)
       = [add_host_cmd "None" "worker-2" "192.168.122.2"].
Proof.
  eexists. split; [vm_compute; reflexivity|].
  edestruct (setup_dhcp_entry_exits quiet_host worker_2_without_mac [] (Done ()))
    as (issued & Heq & _ & Hdone); [vm_compute; reflexivity|].
  simpl in Heq. subst issued.
  destruct (Hdone eq_refl) as (ip0 & Hip & _ & Hnone).
  injection Hip as <-. by apply Hnone.
Defined.

(** C10, as stated, on [broken_host]: the node has an ip and the active
    leases are never even queried, yet the call exits, because net-dumpxml
    failed. *)
Lemma setup_dhcp_entry_exits_counterexample :
  setup_dhcp_entry broken_host worker_2 [] = (Exit, [Run dumpxml_cmd (reply "" 1)])
  /\ ip worker_2 <> None
  /\ lease_collision (name worker_2) [Run dumpxml_cmd (reply "" 1)] = false.
Proof.
  split; [vm_compute; reflexivity|]. split; [discriminate|]. vm_compute. reflexivity.
Qed.

Lemma configure_failure_policy_witness :
  exists t1,
    configure readonly_host no_files "localhost" "eno1" [] = (Done (), t1)
    /\ exists issued,
         t1 = [] ++ issued
         /\ (Done () = Exit <-> existsb fatal_failure issued = true)
         /\ existsb fatal_failure (removelast issued) = false.
Proof.
  eexists. split; [vm_compute; reflexivity|].
  apply (configure_failure_policy readonly_host no_files "localhost" "eno1").
  vm_compute. reflexivity.
Defined.

(** C7, as stated, on [readonly_host]: the DHCP-range delete and add of
    [limit_dhcp_range] both exit with status 1, and the call returns. *)
Lemma configure_failure_policy_counterexample :
  limit_dhcp_range readonly_host "192.168.122.2" "192.168.122.129" []
  = (Done (),
     [Run dumpxml_cmd (reply "<range start='192.168.122.2' end='192.168.122.254'/>" 0);
      Run (range_cmd "delete" "192.168.122.2") (reply "" 1);
      Run (range_cmd "add" "192.168.122.129") (reply "" 1)]).
Proof. vm_compute. reflexivity. Qed.

End BridgeFacts.


(* ===================================================================== *)
(** * Further facts about the resolver *)
(* ===================================================================== *)

Module ResolverMore.
Import Py ClustersConfig Props Accessors MoreProps ResolverFacts.

(** ** Sequences of defaults *)

Lemma run_defaults_adds steps v v' :
  run_defaults steps v = Ok v' ->
  adds v v' /\ Forall (fun k => has k v') steps.*1.
Proof.
  revert v. induction steps as [|[k dflt] steps IH]; intros v H; simpl in H.
  - injection H as <-. split; [apply adds_refl | constructor].
  - apply bind_Ok in H as (v1 & H1 & H). apply default_key_adds in H1 as [A1 K1].
    apply IH in H as [A K]. split; [by eapply adds_trans|].
    constructor; [by eapply adds_has | exact K].
Qed.

Lemma run_defaults_noop steps v :
  Forall (fun k => has k v) steps.*1 -> run_defaults steps v = Ok v.
Proof.
  induction steps as [|[k dflt] steps IH]; intros H; simpl; [done|].
  apply Forall_cons in H as [Hk H]. rewrite (default_key_noop _ _ _ Hk). simpl. by apply IH.
Qed.

Lemma run_defaults_lacks k steps v v' :
  k ∉ steps.*1 -> contains k v = Ok false -> run_defaults steps v = Ok v' ->
  contains k v' = Ok false.
Proof.
  revert v. induction steps as [|[k' dflt] steps IH]; intros v Hk Hl H; simpl in H.
  - by injection H as <-.
  - apply bind_Ok in H as (v1 & H1 & H). simpl in Hk.
    apply not_elem_of_cons in Hk as [Hne Hk].
    eapply IH; [exact Hk | | exact H]. by eapply default_key_lacks.
Qed.

(** The value a step gives a missing key is still there at the end. *)
Lemma run_defaults_value k x steps v v' :
  NoDup steps.*1 -> (k, always x) ∈ steps -> contains k v = Ok false ->
  run_defaults steps v = Ok v' -> getitem v' k = Ok x.
Proof.
  revert v. induction steps as [|[k' dflt] steps IH]; intros v Hnd Hin Hl H.
  - by apply elem_of_nil in Hin.
  - simpl in H. apply bind_Ok in H as (v1 & H1 & H).
    simpl in Hnd. apply NoDup_cons in Hnd as [Hk' Hnd].
    apply elem_of_cons in Hin as [[= <- <-]|Hin].
    + destruct (default_key_absent _ _ _ _ Hl H1) as (y & [= <-] & Hy).
      apply run_defaults_adds in H as [A _]. by eapply adds_getitem.
    + eapply IH; [exact Hnd | exact Hin | | exact H].
      eapply default_key_lacks; [|exact Hl|exact H1].
      intros ->. apply Hk'. by apply (list_elem_of_fmap_2 fst _ (k', always x)).
Qed.

Lemma cluster_defaults_steps repr_container cwd cc :
  cluster_defaults repr_container cwd cc
  = run_defaults
      [("masters", always (YList [])); ("workers", always (YList []));
       ("kubeconfig", kubeconfig_default repr_container cwd);
       ("preconfig", always (YStr "")); ("postconfig", always (YStr ""));
       ("version", always (YStr "4.13.0-ec.3")); ("external_port", always (YStr "auto"));
       ("network_api_port", always (YStr "auto")); ("proxy", always YNone);
       ("hosts", always (YList []))] cc.
Proof.
  unfold cluster_defaults, always. cbn [run_defaults].
  repeat match goal with
         | |- context [default_key ?k ?d ?v] =>
             destruct (default_key k d v) as [?|?]; cbn [mbind result_bind];
             try reflexivity
         end.
Qed.

Lemma node_defaults_steps n :
  node_defaults n
  = run_defaults [("disk_size", always (YInt 48)); ("preallocated", always (YBool true));
                  ("os_variant", always (YStr "rhel8.6"))] n.
Proof.
  unfold node_defaults, always. cbn [run_defaults].
  repeat match goal with
         | |- context [default_key ?k ?d ?v] =>
             destruct (default_key k d v) as [?|?]; cbn [mbind result_bind];
             try reflexivity
         end.
Qed.

Lemma node_optional_defaults_steps repr_container cc n :
  node_optional_defaults repr_container cc n
  = run_defaults [("bmc_ip", always YNone); ("bmc_user", always (YStr "root"));
                  ("bmc_password", always (YStr "calvin"));
                  ("image_path", image_path_default repr_container cc)] n.
Proof.
  unfold node_optional_defaults, always. cbn [run_defaults].
  repeat match goal with
         | |- context [default_key ?k ?d ?v] =>
             destruct (default_key k d v) as [?|?]; cbn [mbind result_bind];
             try reflexivity
         end.
Qed.

Lemma host_defaults_steps cc h :
  host_defaults cc h
  = run_defaults [("network_api_port", fun _ => getitem cc "network_api_port");
                  ("username", always (YStr "core")); ("password", always YNone);
                  ("pre_installed", always (YStr "True"))] h.
Proof.
  unfold host_defaults, always. cbn [run_defaults].
  repeat match goal with
         | |- context [default_key ?k ?d ?v] =>
             destruct (default_key k d v) as [?|?]; cbn [mbind result_bind];
             try reflexivity
         end.
Qed.

(** The value of the last step of a sequence, for a key the earlier steps do
    not touch. *)
Lemma run_defaults_last k dflt steps v v' :
  k ∉ steps.*1 -> contains k v = Ok false ->
  run_defaults (steps ++ [(k, dflt)]) v = Ok v' ->
  exists u x, run_defaults steps v = Ok u /\ dflt u = Ok x /\ getitem v' k = Ok x.
Proof.
  revert v. induction steps as [|[k' d'] steps IH]; intros v Hk Hl H; simpl in H.
  - apply bind_Ok in H as (v1 & H1 & [= <-]).
    destruct (default_key_absent _ _ _ _ Hl H1) as (x & Hx & Hget). by exists v, x.
  - apply bind_Ok in H as (v1 & H1 & H). simpl in Hk.
    apply not_elem_of_cons in Hk as [Hne Hk].
    destruct (IH v1 Hk) as (u & x & Hu & Hx & Hget); [|exact H|].
    { by eapply default_key_lacks. }
    exists u, x. split; [|done]. simpl. by rewrite H1.
Qed.

(** A key of a mapping that was there after additions and that was tested
    present before them. *)
Lemma adds_getitem_back k v v' x :
  adds v v' -> has k v -> getitem v' k = Ok x -> getitem v k = Ok x.
Proof.
  intros A Hk Hx. destruct v; try (simpl in A; subst v'; exact Hx).
  apply has_dict in Hk as [y Hy].
  rewrite (adds_getitem _ _ _ _ A (ltac:(simpl; by rewrite Hy) : getitem (YDict _) k = Ok y)) in Hx.
  injection Hx as <-. simpl. by rewrite Hy.
Qed.

Lemma contains_dict_cases k d :
  contains k (YDict d) = Ok true \/ contains k (YDict d) = Ok false.
Proof. simpl. destruct (bool_decide _); auto. Qed.

Lemma run_defaults_app s1 s2 v :
  run_defaults (s1 ++ s2) v = (u ← run_defaults s1 v; run_defaults s2 u).
Proof.
  revert v. induction s1 as [|[k d] s1 IH]; intros v; simpl; [done|].
  destruct (default_key k (d v) v); simpl; [apply IH | done].
Qed.

(** A key outside the steps is read after them as it was before. *)
Lemma run_defaults_getitem_back k steps v v' x :
  k ∉ steps.*1 -> run_defaults steps v = Ok v' ->
  getitem v' k = Ok x -> getitem v k = Ok x.
Proof.
  intros Hk H Hx. pose proof (run_defaults_adds _ _ _ H) as [A _].
  destruct v as [| | | | |d]; try (simpl in A; by subst v').
  destruct (contains_dict_cases k d) as [Hn|Hn].
  - by eapply adds_getitem_back.
  - eapply run_defaults_lacks in H; [|exact Hk|exact Hn].
    destruct v'; simpl in Hx; try discriminate.
    simpl in H. destruct (_ !! k); [|discriminate].
    rewrite bool_decide_eq_true_2 in H by eauto. discriminate.
Qed.

(** [default_key] on a mapping. *)
Lemma default_key_dict k dflt d :
  default_key k dflt (YDict d)
  = match d !! k with
    | Some _ => Ok (YDict d)
    | None => x ← dflt; Ok (YDict (<[k := x]> d))
    end.
Proof.
  unfold default_key. simpl. destruct (d !! k) eqn:E.
  - by rewrite bool_decide_eq_true_2 by eauto.
  - rewrite bool_decide_eq_false_2; [done|]. by intros [? ?].
Qed.

(** ** [current_host] and the template functions *)

Lemma before_dot_spec s :
  str_in "." (before_dot s) = false
  /\ exists rest, s = before_dot s +:+ rest /\ (rest = "" \/ String.prefix "." rest = true).
Proof.
  induction s as [|c s (IHin & rest & IHeq & IHrest)]; simpl.
  - split; [done|]. exists "". auto.
  - destruct (Ascii.eqb c ".") eqn:Hc.
    + apply Ascii.eqb_eq in Hc as ->. split; [done|].
      exists (String "." s). split; [done|]. right. by destruct s.
    + split.
      * cbn [str_in String.prefix]. rewrite IHin.
        destruct (ascii_dec "." c) as [<-|_]; [discriminate Hc|]. done.
      * exists rest. split; [|done].
        change (String c (before_dot s) +:+ rest) with (String c (before_dot s +:+ rest)).
        by rewrite <- IHeq.
Qed.

(** X1. [current_host] returns the first label of what [hostname] printed:
    the stripped output up to its first dot, or all of it when it has no
    dot; the result never holds a dot. *)
Theorem current_host_first_label hostname_out :
  str_in "." (current_host hostname_out) = false
  /\ exists rest,
       strip hostname_out = current_host hostname_out +:+ rest
       /\ (rest = "" \/ String.prefix "." rest = true).
Proof. apply before_dot_spec. Qed.

Lemma index_in_range {A : Type} (l : list A) a :
  - Z.of_nat (length l) <= a < Z.of_nat (length l) ->
  exists x, index l a = Ok x /\ l !! Z.to_nat (a mod Z.of_nat (length l)) = Some x.
Proof.
  intros Ha. unfold index.
  assert (Hi : (if a <? 0 then a + Z.of_nat (length l) else a) = a mod Z.of_nat (length l)).
  { destruct (Z.ltb_spec a 0).
    - rewrite <- (Z.mod_add a 1) by lia. rewrite Z.mod_small; lia.
    - rewrite Z.mod_small; lia. }
  rewrite Hi.
  assert (Hm : 0 <= a mod Z.of_nat (length l) < Z.of_nat (length l))
    by (apply Z.mod_pos_bound; lia).
  destruct (Z.ltb_spec (a mod Z.of_nat (length l)) 0); [lia|].
  destruct (l !! Z.to_nat (a mod Z.of_nat (length l))) as [x|] eqn:Hx; [by exists x|].
  apply lookup_ge_None in Hx. lia.
Qed.

Lemma index_out_of_range {A : Type} (l : list A) a :
  ~ (- Z.of_nat (length l) <= a < Z.of_nat (length l)) -> index l a = Raise IndexError.
Proof.
  intros Ha. unfold index. destruct (Z.ltb_spec a 0).
  - destruct (Z.ltb_spec (a + Z.of_nat (length l)) 0); [done|]. lia.
  - destruct (Z.ltb_spec a 0); [lia|].
    destruct (l !! Z.to_nat a) as [x|] eqn:Hx; [|done].
    apply lookup_lt_Some in Hx. lia.
Qed.

(** X2. With [n] workers known for the host, [worker_name(a)] and
    [worker_number(a)] return for [-n <= a < n], a negative [a] counting
    from the last worker, and raise [IndexError] for every other [a]. *)
Theorem worker_index_range info hostname_out _clusters ci a :
  _ensure_clusters_loaded info hostname_out _clusters = Ok ci ->
  (- Z.of_nat (length (workers ci)) <= a < Z.of_nat (length (workers ci)) ->
   exists name,
     workers ci !! Z.to_nat (a mod Z.of_nat (length (workers ci))) = Some name
     /\ worker_name info hostname_out _clusters a = Ok (name, Some ci)
     /\ worker_number info hostname_out _clusters a
        = Ok (re_sub_class non_digit name, Some ci))
  /\ (~ (- Z.of_nat (length (workers ci)) <= a < Z.of_nat (length (workers ci))) ->
      worker_name info hostname_out _clusters a = Raise IndexError
      /\ worker_number info hostname_out _clusters a = Raise IndexError).
Proof.
  intros Hci. unfold worker_name, worker_number. rewrite Hci. cbn [mbind result_bind].
  split.
  - intros Ha. destruct (index_in_range _ _ Ha) as (name & Hname & Hl).
    exists name. rewrite Hname. by repeat split.
  - intros Ha. by rewrite (index_out_of_range _ _ Ha).
Qed.

(** ** When the cascade succeeds *)

(** A sequence of defaults succeeds on a mapping when every default that is
    evaluated does. *)
Lemma run_defaults_dict_ok steps d :
  (forall k f d', (k, f) ∈ steps -> d ⊆ d' -> d' !! k = None ->
     exists x, f (YDict d') = Ok x) ->
  exists d1, run_defaults steps (YDict d) = Ok (YDict d1) /\ d ⊆ d1.
Proof.
  revert d. induction steps as [|[k f] steps IH]; intros d Hok; simpl.
  - by exists d.
  - rewrite default_key_dict. destruct (d !! k) as [y|] eqn:Hk.
    + cbn [mbind result_bind]. apply IH. intros k' f' d' Hin. apply Hok. set_solver.
    + destruct (Hok k f d) as [x Hx]; [set_solver|done|done|].
      rewrite Hx. cbn [mbind result_bind].
      destruct (IH (<[k:=x]> d)) as (d1 & H1 & Hsub).
      { intros k' f' d' Hin Hsub'. apply Hok; [set_solver|].
        etrans; [|exact Hsub']. by apply insert_subseteq. }
      exists d1. split; [done|]. etrans; [|exact Hsub]. by apply insert_subseteq.
Qed.

Lemma for_each_ok {A B : Type} (f : A -> result B) (Q : A -> B -> Prop) l :
  Forall (fun x => exists y, f x = Ok y /\ Q x y) l ->
  exists l', for_each f l = Ok l' /\ Forall2 Q l l'.
Proof.
  induction 1 as [|x l (y & Hy & HQ) _ (l' & Hl' & HF)]; simpl.
  - by exists [].
  - rewrite Hy, Hl'. exists (y :: l'). split; [done | by constructor].
Qed.

Lemma add_hosts_ok ns l seen :
  Forall (fun n => exists v, node_key n = Ok v) ns ->
  exists l', add_hosts ns (YList l) seen = Ok (YList l').
Proof.
  intros H. revert l seen. induction H as [|n ns (v & Hv) _ IH]; intros l seen; simpl.
  - by exists l.
  - unfold node_key in Hv. apply bind_Ok in Hv as (v0 & Hv0 & Hv).
    rewrite Hv0. cbn [mbind result_bind]. rewrite Hv. cbn [mbind result_bind].
    destruct (set_mem v seen); [apply IH|]. simpl. apply IH.
Qed.

Lemma forallb_Forall {A : Type} (f : A -> bool) l :
  forallb f l = true -> Forall (fun x => f x = true) l.
Proof.
  induction l as [|x l IH]; simpl; [constructor|].
  intros [Hx Hl]%andb_true_iff. constructor; auto.
Qed.

Lemma list_ok_given ok key d :
  list_ok ok key d = true ->
  exists l, given_list key (YDict d) = Ok (YList l) /\ Forall (fun x => ok x = true) l.
Proof.
  unfold list_ok, given_list. simpl. destruct (d !! key) as [v|] eqn:Hk.
  - rewrite bool_decide_eq_true_2 by eauto. destruct v; try discriminate.
    intros H. eexists. split; [done|]. by apply forallb_Forall.
  - intros _. rewrite bool_decide_eq_false_2 by (by intros [? ?]).
    exists []. by split.
Qed.

(** ** List comprehensions *)

Lemma select_app p l1 l2 :
  select p (l1 ++ l2) = (a ← select p l1; b ← select p l2; Ok (a ++ b)).
Proof.
  induction l1 as [|x l1 IH]; simpl.
  - by destruct (select p l2).
  - destruct (p x) as [b|e]; simpl; [|done]. rewrite IH.
    destruct (select p l1); simpl; [|done].
    destruct (select p l2); simpl; [|done]. by destruct b.
Qed.

Lemma select_spec p l r :
  select p l = Ok r ->
  sublist r l /\ forall x, x ∈ r <-> x ∈ l /\ p x = Ok true.
Proof.
  revert r. induction l as [|y l IH]; intros r H; simpl in H.
  - injection H as <-. split; [done|]. intros x. set_solver.
  - apply bind_Ok in H as (b & Hb & H). apply bind_Ok in H as (xs & Hxs & [= <-]).
    destruct (IH _ Hxs) as [Hsub Hmem]. destruct b.
    + split; [by constructor|]. intros x. rewrite !elem_of_cons, Hmem.
      split; [intros [->|[? ?]]; auto | intros [[->|?] ?]; auto].
    + split; [by constructor|]. intros x. rewrite elem_of_cons, Hmem.
      split; [intros [? ?]; auto | intros [[->|?] ?]; [congruence|auto]].
Qed.

Lemma select_chars p s r :
  (forall c, p (YStr (String c "")) = Raise TypeError) ->
  select p (chars s) = Ok r -> s = "".
Proof. intros Hp H. destruct s as [|c s]; [done|]. simpl in H. by rewrite Hp in H. Qed.

Lemma field_is_true key text x :
  field_is key text x = Ok true <-> getitem x key = Ok (YStr text).
Proof.
  unfold field_is. split.
  - intros H. apply bind_Ok in H as (v & Hv & [= H]).
    destruct v; try discriminate. simpl in H. apply String.eqb_eq in H. by subst.
  - intros ->. simpl. by rewrite String.eqb_refl.
Qed.

(** X3. The virtual machines of a cluster are its virtual masters followed by
    its virtual workers. *)
Theorem all_vms_split fullConfig vms :
  all_vms fullConfig = Ok vms ->
  exists ms ws,
    master_vms fullConfig = Ok ms /\ worker_vms fullConfig = Ok ws /\ vms = ms ++ ws.
Proof.
  unfold all_vms, all_nodes, master_vms, worker_vms. intros H.
  apply bind_Ok in H as (ns & Hns & H).
  apply bind_Ok in Hns as (m & Hm & Hns). apply bind_Ok in Hns as (w & Hw & Hns).
  apply bind_Ok in Hns as (all & Hadd & Hiter).
  rewrite Hm, Hw. cbn [mbind result_bind].
  destruct m as [|bm|zm|sm|lm|dm]; destruct w as [|bw|zw|sw|lw|dw];
    simpl in Hadd; try discriminate; injection Hadd as <-;
    try (simpl in Hiter; discriminate).
  - simpl in Hiter. injection Hiter as <-.
    apply select_chars in H as Hnil; [|done].
    destruct sm; [|discriminate]. change ("" +:+ sw) with sw in Hnil, H. subst sw.
    simpl in H. injection H as <-. by exists [], [].
  - simpl in Hiter. injection Hiter as <-. rewrite select_app in H.
    apply bind_Ok in H as (a & Ha & H). apply bind_Ok in H as (b & Hb & [= <-]).
    simpl. eauto.
Qed.

(** X4. [all_vms] is the sublist of the nodes whose [type] is vm, and
    [local_vms] the sublist of those whose [node] is localhost. *)
Theorem vms_selected fullConfig vms :
  all_vms fullConfig = Ok vms ->
  exists nodes,
    all_nodes fullConfig = Ok nodes
    /\ sublist vms nodes
    /\ (forall n, n ∈ vms <-> n ∈ nodes /\ getitem n "type" = Ok (YStr "vm"))
    /\ forall local, local_vms fullConfig = Ok local ->
         sublist local vms
         /\ forall n, n ∈ local <->
              n ∈ nodes /\ getitem n "type" = Ok (YStr "vm")
              /\ getitem n "node" = Ok (YStr "localhost").
Proof.
  intros H. unfold local_vms. rewrite H. unfold all_vms in H.
  apply bind_Ok in H as (nodes & Hn & H). exists nodes. split; [done|].
  destruct (select_spec _ _ _ H) as [Hsub Hmem]. split; [done|]. split.
  { intros n. by rewrite Hmem, field_is_true. }
  intros local Hl. cbn [mbind result_bind] in Hl.
  destruct (select_spec _ _ _ Hl) as [Hsub' Hmem']. split; [done|].
  intros n. rewrite Hmem', Hmem, !field_is_true. tauto.
Qed.

Lemma select_KeyError p l :
  Forall (fun x => (exists b, p x = Ok b) \/ p x = Raise KeyError) l ->
  Exists (fun x => p x = Raise KeyError) l ->
  select p l = Raise KeyError.
Proof.
  induction 1 as [|x l Hx Hl IH]; intros HE; [by apply Exists_nil in HE|].
  simpl. destruct Hx as [[b Hb]|Hx]; [|by rewrite Hx].
  rewrite Hb. cbn [mbind result_bind].
  apply Exists_cons in HE as [HE|HE]; [congruence|]. by rewrite (IH HE).
Qed.

Lemma has_present k v x0 k0 : getitem v k0 = Ok x0 -> has k v -> present k v.
Proof.
  intros Hd Hk. destruct v; try discriminate.
  apply has_dict in Hk as [x Hx]. exists x. simpl. by rewrite Hx.
Qed.

(** ** [os.path.join] on the image directory *)

Lemma rev_app_app s acc : String.rev_app s acc = String.rev_app s "" +:+ acc.
Proof.
  revert acc. induction s as [|c s IH]; intros acc; simpl; [done|].
  rewrite (IH (String c acc)), (IH (String c "")).
  by rewrite BridgeFacts.append_assoc.
Qed.

Lemma rev_app_append s t acc :
  String.rev_app (s +:+ t) acc = String.rev_app t (String.rev_app s acc).
Proof.
  revert acc. induction s as [|c s IH]; intros acc; [done|].
  change (String c s +:+ t) with (String c (s +:+ t)). simpl. apply IH.
Qed.

Lemma ends_with_sep_app s c t :
  ends_with_sep (s +:+ String c t) = ends_with_sep (String c t).
Proof.
  unfold ends_with_sep, String.rev. rewrite rev_app_append. simpl.
  rewrite (rev_app_app t (String c (String.rev_app s ""))), (rev_app_app t (String c "")).
  by destruct (String.rev_app t "").
Qed.

Lemma prefix_slash_append n t :
  String.prefix "/" t = false -> String.prefix "/" (n +:+ t) = String.prefix "/" n.
Proof.
  intros Ht. destruct n as [|a n]; [exact Ht|].
  change (String a n +:+ t) with (String a (n +:+ t)). cbn [String.prefix].
  destruct (ascii_dec "/" a); [|done]. by destruct (n +:+ t), n.
Qed.

(** The image of a node lies in the images directory of its cluster, unless
    the node's name starts with a slash. *)
Lemma image_path_cases c n :
  path_join ("/home/" +:+ c +:+ "_guests_images") (n +:+ ".qcow2")
  = if String.prefix "/" n then n +:+ ".qcow2"
    else "/home/" +:+ c +:+ "_guests_images/" +:+ n +:+ ".qcow2".
Proof.
  unfold path_join. rewrite prefix_slash_append by reflexivity.
  destruct (String.prefix "/" n); [done|].
  rewrite <- (BridgeFacts.append_assoc "/home/" c "_guests_images").
  rewrite ends_with_sep_app.
  change (ends_with_sep "_guests_images") with false.
  change ((("/home/" +:+ c) +:+ "_guests_images" =? "")%string) with false.
  cbn [orb]. by rewrite !BridgeFacts.append_assoc.
Qed.

Section More.
Variable repr_container : yaml -> string.
Variable cwd : string.

Local Abbreviation resolve := (resolve_cluster repr_container cwd).
Local Abbreviation fmt := (format repr_container).

(** What [cluster_defaults] starts from for a list the input may lack. *)
Lemma given_list_start k d d1 :
  k = "masters" \/ k = "workers" \/ k = "hosts" ->
  cluster_defaults repr_container cwd (YDict d) = Ok (YDict d1) ->
  given_list k (YDict d) = getitem (YDict d1) k.
Proof.
  intros Hk H. pose proof (cluster_defaults_adds _ _ _ _ H) as [A _].
  unfold given_list. destruct (contains_dict_cases k d) as [Hc|Hc]; rewrite Hc;
    cbn [mbind result_bind].
  - apply has_dict in Hc as [x Hx]. simpl. rewrite Hx.
    simpl in A. by rewrite (lookup_weaken _ _ _ _ Hx A).
  - symmetry. rewrite cluster_defaults_steps in H.
    eapply (run_defaults_value k (YList [])); [| |exact Hc|exact H].
    + cbn. apply (bool_decide_unpack (NoDup _)). by vm_compute.
    + destruct Hk as [ -> | [ -> | -> ] ]; set_solver.
Qed.

Lemma given_nodes_start d d1 :
  cluster_defaults repr_container cwd (YDict d) = Ok (YDict d1) ->
  given_nodes (YDict d) = all_nodes (YDict d1).
Proof.
  intros H. unfold given_nodes, all_nodes.
  rewrite (given_list_start "masters" _ _ (or_introl eq_refl) H).
  by rewrite (given_list_start "workers" _ _ (or_intror (or_introl eq_refl)) H).
Qed.

(** [name] is not among the keys the cascade gives a cluster. *)
Lemma cluster_name_given d d1 c :
  cluster_defaults repr_container cwd (YDict d) = Ok (YDict d1) ->
  getitem (YDict d1) "name" = Ok c -> getitem (YDict d) "name" = Ok c.
Proof.
  intros H Hc. pose proof (cluster_defaults_adds _ _ _ _ H) as [A _].
  destruct (contains_dict_cases "name" d) as [Hn|Hn].
  - by eapply adds_getitem_back.
  - rewrite cluster_defaults_steps in H.
    eapply run_defaults_lacks in H; [| |exact Hn]; [|cbn; set_solver].
    simpl in H, Hc. destruct (d1 !! "name"); [|discriminate].
    rewrite bool_decide_eq_true_2 in H by eauto. discriminate.
Qed.

(** The nodes of a resolved cluster, each beside the node it was given as. *)
Lemma resolved_nodes cc cc' :
  resolve cc = Ok cc' ->
  exists d d1 given nodes,
    cc = YDict d
    /\ cluster_defaults repr_container cwd cc = Ok (YDict d1)
    /\ given_nodes cc = Ok given
    /\ all_nodes cc' = Ok nodes
    /\ Forall2 (fun n n' => exists n1,
                  node_defaults n = Ok n1
                  /\ node_optional_defaults repr_container (YDict d1) n1 = Ok n')
         given nodes.
Proof.
  intros H.
  destruct (resolve_cluster_out _ _ _ _ H)
    as (d & d1 & d' & ns0 & ns1 & ns3 & es & names & vals & es3
        & -> & -> & Hsub & Hcc1 & Hall1 & Hns1 & Hns3 & _ & _ & _ & _ & _ & _ & Hall3 & _).
  exists d, d1, ns0, ns3. split; [done|]. split; [done|].
  split; [by rewrite (given_nodes_start _ _ Hcc1)|]. split; [done|].
  apply for_each_Forall2 in Hns1, Hns3. clear -Hns1 Hns3.
  revert ns3 Hns3. induction Hns1 as [|n n1 ns0 ns1 Hn _ IH]; intros ns3 Hns3.
  - apply Forall2_nil_inv_l in Hns3 as ->. constructor.
  - apply Forall2_cons_inv_l in Hns3 as (n3 & ns3' & Hn3 & H3 & ->).
    constructor; [eauto | by apply IH].
Qed.

(** X5. Where the input cluster lacks them, [preconfig] and [postconfig] are
    the empty string, [version] is 4.13.0-ec.3, [external_port] and
    [network_api_port] are auto and [proxy] is [None] after the cascade, and
    [kubeconfig] is the file kubeconfig.<name> of the working directory. *)
Theorem cluster_defaults_values cc cc' :
  resolve_cluster repr_container cwd cc = Ok cc' ->
  (forall k x, (k, x) ∈ cluster_default_values -> contains k cc = Ok false ->
     getitem cc' k = Ok x)
  /\ (contains "kubeconfig" cc = Ok false ->
      exists name, getitem cc "name" = Ok name
        /\ getitem cc' "kubeconfig"
           = Ok (YStr (path_join cwd ("kubeconfig." +:+ format repr_container name)))).
Proof.
  intros H.
  destruct (resolve_cluster_out _ _ _ _ H)
    as (d & d1 & d' & ns0 & ns1 & ns3 & es & names & vals & es3
        & -> & -> & Hsub & Hcc1 & _ & _ & _ & _ & _ & _ & _ & Hsame & _).
  rewrite cluster_defaults_steps in Hcc1.
  assert (Hkeep : forall k x, k <> "masters" -> k <> "workers" -> k <> "hosts" ->
            getitem (YDict d1) k = Ok x -> getitem (YDict d') k = Ok x).
  { intros k x ? ? ?. simpl. by rewrite Hsame. }
  split.
  - intros k x Hin Hk.
    assert (Hne : k <> "masters" /\ k <> "workers" /\ k <> "hosts").
    { unfold cluster_default_values in Hin. set_solver. }
    destruct Hne as (? & ? & ?). apply Hkeep; try done.
    eapply (run_defaults_value k x); [| |exact Hk|exact Hcc1].
    + cbn. apply (bool_decide_unpack (NoDup _)). by vm_compute.
    + unfold cluster_default_values in Hin. unfold always. set_solver.
  - intros Hk.
    change (run_defaults (([("masters", always (YList [])); ("workers", always (YList []))]
                            ++ [("kubeconfig", kubeconfig_default repr_container cwd)])
                          ++ [("preconfig", always (YStr "")); ("postconfig", always (YStr ""));
                              ("version", always (YStr "4.13.0-ec.3"));
                              ("external_port", always (YStr "auto"));
                              ("network_api_port", always (YStr "auto"));
                              ("proxy", always YNone); ("hosts", always (YList []))])
              (YDict d) = Ok (YDict d1)) in Hcc1.
    rewrite run_defaults_app in Hcc1. apply bind_Ok in Hcc1 as (u3 & H3 & Hrest).
    apply run_defaults_last in H3 as (u & x & Hu & Hx & Hget); [| cbn; set_solver | exact Hk].
    unfold kubeconfig_default in Hx. apply bind_Ok in Hx as (name & Hname & [= <-]).
    exists name. split.
    + eapply run_defaults_getitem_back; [|exact Hu|exact Hname]. cbn. set_solver.
    + apply Hkeep; try done.
      apply run_defaults_adds in Hrest as [A _]. by eapply adds_getitem.
Qed.

(** X6. A cluster that has neither [name] nor [kubeconfig] cannot be resolved:
    the default of [kubeconfig] reads the name. *)
Theorem cluster_needs_name d :
  d !! "name" = None -> d !! "kubeconfig" = None ->
  resolve_cluster repr_container cwd (YDict d) = Raise KeyError.
Proof.
  intros Hn Hk. unfold resolve_cluster, cluster_defaults.
  assert (Hstep : exists d2, (cc ← default_key "masters" (Ok (YList [])) (YDict d);
                              default_key "workers" (Ok (YList [])) cc) = Ok (YDict d2)
                              /\ d2 !! "name" = None /\ d2 !! "kubeconfig" = None).
  { rewrite default_key_dict. destruct (d !! "masters");
      cbn [mbind result_bind]; rewrite default_key_dict.
    - destruct (d !! "workers"); cbn [mbind result_bind]; eexists; (split; [done|]);
        rewrite ?lookup_insert_ne by done; done.
    - rewrite lookup_insert_ne by done.
      destruct (d !! "workers"); cbn [mbind result_bind]; eexists; (split; [done|]);
        rewrite ?lookup_insert_ne by done; done. }
  destruct Hstep as (d2 & Hd2 & Hn2 & Hk2).
  destruct (default_key "masters" (Ok (YList [])) (YDict d)) as [c1|e1];
    cbn [mbind result_bind] in Hd2 |- *; [|discriminate].
  rewrite Hd2. cbn [mbind result_bind]. rewrite default_key_dict, Hk2.
  unfold kubeconfig_default. simpl. by rewrite Hn2.
Qed.

(** X7. Where a master or worker of the input lacks them, [disk_size] is 48,
    [preallocated] is [True], [os_variant] is rhel8.6, [bmc_ip] is [None],
    [bmc_user] is root and [bmc_password] is calvin after the cascade. *)
Theorem node_defaults_values cc cc' :
  resolve_cluster repr_container cwd cc = Ok cc' ->
  exists given nodes,
    given_nodes cc = Ok given
    /\ all_nodes cc' = Ok nodes
    /\ forall i n n' k x,
         given !! i = Some n -> nodes !! i = Some n' ->
         (k, x) ∈ node_default_values -> contains k n = Ok false ->
         getitem n' k = Ok x.
Proof.
  intros H.
  destruct (resolved_nodes _ _ H) as (d & d1 & given & nodes & -> & _ & Hg & Hn & Hall).
  exists given, nodes. split; [done|]. split; [done|].
  intros i n n' k x Hi Hi' Hin Hk.
  destruct (Forall2_lookup_lr _ _ _ _ _ _ Hall Hi Hi') as (n1 & H1 & H3).
  pose proof (node_optional_defaults_adds _ _ _ _ H3) as [A3 _].
  rewrite node_defaults_steps in H1. rewrite node_optional_defaults_steps in H3.
  unfold node_default_values in Hin.
  assert (Hcase : ((k, always x) ∈ [("disk_size", always (YInt 48));
                                     ("preallocated", always (YBool true));
                                     ("os_variant", always (YStr "rhel8.6"))])
                  \/ (k ∉ ["disk_size"; "preallocated"; "os_variant"]
                      /\ (k, always x) ∈ [("bmc_ip", always YNone);
                                          ("bmc_user", always (YStr "root"));
                                          ("bmc_password", always (YStr "calvin"));
                                          ("image_path",
                                           image_path_default repr_container (YDict d1))])).
  { unfold always. set_solver. }
  destruct Hcase as [Hc|[Hout Hc]].
  - eapply adds_getitem; [exact A3|].
    eapply (run_defaults_value k x); [|exact Hc|exact Hk|exact H1].
    cbn. apply (bool_decide_unpack (NoDup _)). by vm_compute.
  - eapply (run_defaults_value k x); [|exact Hc| |exact H3].
    + cbn. apply (bool_decide_unpack (NoDup _)). by vm_compute.
    + eapply run_defaults_lacks; [|exact Hk|exact H1]. exact Hout.
Qed.

(** X8. Where a master or worker of the input lacks [image_path], the cascade
    sets it to /home/<cluster name>_guests_images/<node name>.qcow2; a node
    name that starts with a slash gives <node name>.qcow2 instead, outside
    the images directory. *)
Theorem image_path_value cc cc' :
  resolve_cluster repr_container cwd cc = Ok cc' ->
  exists given nodes,
    given_nodes cc = Ok given
    /\ all_nodes cc' = Ok nodes
    /\ forall i n n',
         given !! i = Some n -> nodes !! i = Some n' ->
         contains "image_path" n = Ok false ->
         exists cname nname,
           getitem cc "name" = Ok cname
           /\ getitem n "name" = Ok nname
           /\ getitem n' "image_path"
              = Ok (YStr (if String.prefix "/" (format repr_container nname)
                          then format repr_container nname +:+ ".qcow2"
                          else "/home/" +:+ format repr_container cname
                               +:+ "_guests_images/"
                               +:+ format repr_container nname +:+ ".qcow2")).
Proof.
  intros H.
  destruct (resolved_nodes _ _ H) as (d & d1 & given & nodes & -> & Hcc1 & Hg & Hn & Hall).
  exists given, nodes. split; [done|]. split; [done|].
  intros i n n' Hi Hi' Hk.
  destruct (Forall2_lookup_lr _ _ _ _ _ _ Hall Hi Hi') as (n1 & H1 & H3).
  rewrite node_defaults_steps in H1. rewrite node_optional_defaults_steps in H3.
  assert (Hk1 : contains "image_path" n1 = Ok false).
  { eapply run_defaults_lacks; [|exact Hk|exact H1]. cbn. set_solver. }
  change (run_defaults ([("bmc_ip", always YNone); ("bmc_user", always (YStr "root"));
                         ("bmc_password", always (YStr "calvin"))]
                        ++ [("image_path", image_path_default repr_container (YDict d1))])
            n1 = Ok n') in H3.
  apply run_defaults_last in H3 as (u & x & Hu & Hx & Hget); [| cbn; set_solver | exact Hk1].
  unfold image_path_default in Hx.
  apply bind_Ok in Hx as (cname & Hcname & Hx). apply bind_Ok in Hx as (nname & Hnname & [= <-]).
  exists cname, nname. split; [by eapply cluster_name_given|]. split.
  - eapply run_defaults_getitem_back; [|exact H1|]; [cbn; set_solver|].
    eapply run_defaults_getitem_back; [|exact Hu|exact Hnname]. cbn. set_solver.
  - by rewrite Hget, image_path_cases.
Qed.

Lemma extends_list_length l x :
  extends (YList l) x -> exists l', x = YList l' /\ (length l <= length l')%nat.
Proof.
  intros H. inversion H as [| |? l' extra HF]; subst.
  - by exists l.
  - exists (l' ++ extra). split; [done|].
    rewrite length_app, (Forall2_length _ _ _ HF). lia.
Qed.

Lemma all_nodes_lists d ms ns :
  d !! "masters" = Some (YList ms) -> all_nodes (YDict d) = Ok ns ->
  exists ws, d !! "workers" = Some (YList ws) /\ ns = ms ++ ws.
Proof.
  intros Hm H. unfold all_nodes in H. simpl in H. rewrite Hm in H. simpl in H.
  destruct (d !! "workers") as [w|]; [|discriminate]. simpl in H.
  destruct w; try discriminate. simpl in H. injection H as <-. eauto.
Qed.

(** X9. The cascade keeps the nodes: the resolved cluster has the masters and
    the workers of the input, as many and in the same order, and each node
    is the input's node with keys added. *)
Theorem nodes_kept cc cc' :
  resolve_cluster repr_container cwd cc = Ok cc' ->
  exists given nodes,
    given_nodes cc = Ok given
    /\ all_nodes cc' = Ok nodes
    /\ Forall2 adds given nodes
    /\ forall ms, given_list "masters" cc = Ok (YList ms) ->
         getitem cc' "masters" = Ok (YList (take (length ms) nodes))
         /\ getitem cc' "workers" = Ok (YList (drop (length ms) nodes)).
Proof.
  intros H.
  destruct (resolve_cluster_out _ _ _ _ H)
    as (d & d1 & d' & ns0 & ns1 & ns3 & es & names & vals & es3
        & -> & -> & Hsub & Hcc1 & Hall1 & Hns1 & Hns3 & _ & _ & _ & _ & _ & Hext
        & Hall3 & _).
  destruct (passes_nodes _ _ _ _ _ Hns1 Hns3) as (A03 & _ & _).
  exists ns0, ns3. split; [by rewrite (given_nodes_start _ _ Hcc1)|].
  split; [done|]. split; [done|].
  intros ms Hms. rewrite (given_list_start "masters" _ _ (or_introl eq_refl) Hcc1) in Hms.
  assert (Hm : d1 !! "masters" = Some (YList ms)).
  { simpl in Hms. destruct (d1 !! "masters"); [by injection Hms as ->|discriminate]. }
  destruct (all_nodes_lists _ _ _ Hm Hall1) as (ws & Hw & ->).
  destruct (Hext _ _ (or_introl eq_refl) Hm) as (m' & Hm' & Em).
  destruct (Hext _ _ (or_intror (or_introl eq_refl)) Hw) as (w' & Hw' & Ew).
  apply extends_list_length in Em as (a & -> & La).
  apply extends_list_length in Ew as (b & -> & Lb).
  destruct (all_nodes_lists _ _ _ Hm' Hall3) as (b' & Hb' & ->).
  assert (b' = b) as -> by congruence.
  apply Forall2_length in A03. rewrite !length_app in A03.
  assert (La' : length ms = length a) by lia.
  simpl. rewrite Hm', Hw', La'. by rewrite take_app_length, drop_app_length.
Qed.

(** X10. A host entry the input gave no [network_api_port], and every entry
    the cascade made for a node, has the [network_api_port] of its cluster,
    which is auto when the cluster gave none either. *)
Theorem host_port_inherited cc cc' :
  resolve_cluster repr_container cwd cc = Ok cc' ->
  exists given entries port,
    given_hosts cc = Ok given
    /\ all_hosts cc' = Ok entries
    /\ getitem cc' "network_api_port" = Ok port
    /\ (contains "network_api_port" cc = Ok false -> port = YStr "auto")
    /\ forall i h', entries !! i = Some h' ->
         lacks_at given i "network_api_port" ->
         getitem h' "network_api_port" = Ok port.
Proof.
  intros H.
  destruct (resolve_cluster_out _ _ _ _ H)
    as (d & d1 & d' & ns0 & ns1 & ns3 & es & names & vals & es3
        & -> & -> & Hsub & Hcc1 & _ & _ & _ & Hhosts1 & _ & _ & Hes3 & Hsame & _
        & _ & Hhosts3 & _).
  pose proof (cluster_defaults_adds _ _ _ _ Hcc1) as [_ Hkeys].
  assert (Hp : has "network_api_port" (YDict d1)).
  { rewrite Forall_forall in Hkeys. apply Hkeys. set_solver. }
  apply has_dict in Hp as [port Hport].
  exists es, es3, port. split; [by eapply given_hosts_start|]. split; [done|].
  split; [simpl; by rewrite Hsame, Hport|]. split.
  { intros Hk. rewrite cluster_defaults_steps in Hcc1.
    eapply (run_defaults_value "network_api_port" (YStr "auto")) in Hcc1;
      [| |unfold always; set_solver|exact Hk].
    - simpl in Hcc1. rewrite Hport in Hcc1. by injection Hcc1.
    - cbn. apply (bool_decide_unpack (NoDup _)). by vm_compute. }
  intros i h' Hi Hl.
  apply for_each_Forall2 in Hes3.
  destruct (Forall2_lookup_r _ _ _ _ _ Hes3 Hi) as (h & Hh & Hd).
  assert (Hlack : contains "network_api_port" h = Ok false).
  { unfold lacks_at in Hl. destruct (es !! i) as [g|] eqn:Hg.
    - rewrite (lookup_app_l_Some _ _ _ _ Hg) in Hh. by injection Hh as <-.
    - apply lookup_ge_None in Hg. rewrite lookup_app_r in Hh by done.
      rewrite list_lookup_fmap in Hh.
      destruct (new_names names vals !! _) as [v|]; [|discriminate]. injection Hh as <-.
      unfold entry. simpl. rewrite bool_decide_eq_false_2; [done|].
      rewrite lookup_singleton_ne by done. by intros [? ?]. }
  rewrite host_defaults_steps in Hd.
  change (run_defaults ([] ++ [("network_api_port", fun _ => getitem (YDict d1) "network_api_port")]
                        ++ [("username", always (YStr "core")); ("password", always YNone);
                            ("pre_installed", always (YStr "True"))]) h = Ok h') in Hd.
  rewrite app_assoc, run_defaults_app in Hd. apply bind_Ok in Hd as (u & Hu & Hrest).
  apply run_defaults_last in Hu as (u0 & x & _ & Hx & Hget); [|set_solver|exact Hlack].
  simpl in Hx. rewrite Hport in Hx. injection Hx as <-.
  apply run_defaults_adds in Hrest as [A _]. by eapply adds_getitem.
Qed.

Lemma resolved_keys cc cc' :
  resolve_cluster repr_container cwd cc = Ok cc' ->
  exists nodes entries,
    all_nodes cc' = Ok nodes
    /\ all_hosts cc' = Ok entries
    /\ Forall (fun k => present k cc') cluster_keys
    /\ Forall (fun n => Forall (fun k => present k n) node_keys) nodes
    /\ Forall (fun h => Forall (fun k => present k h) host_keys) entries.
Proof.
  intros H.
  destruct (resolve_cluster_out _ _ _ _ H)
    as (d & d1 & d' & ns0 & ns1 & ns3 & es & names & vals & es3
        & -> & -> & Hsub & Hcc1 & _ & Hns1 & Hns3 & _ & Hnames & Hvals & Hes3
        & Hsame & Hext & Hall3 & Hhosts3 & _).
  exists ns3, es3. split; [done|]. split; [done|].
  destruct (passes_nodes _ _ _ _ _ Hns1 Hns3) as (_ & A13 & Hdone).
  destruct (passes_hosts _ _ _ Hes3) as (Ah & Hhdone).
  split; [|split].
  - destruct (cluster_defaults_adds _ _ _ _ Hcc1) as [_ Hkeys].
    eapply Forall_impl; [exact Hkeys|]. intros k [x Hx]%has_dict.
    destruct (decide (k = "masters" \/ k = "workers" \/ k = "hosts")) as [Hk|Hk].
    + destruct (Hext _ _ Hk Hx) as (x' & Hx' & _). exists x'. simpl. by rewrite Hx'.
    + exists x. simpl. rewrite Hsame, Hx; [done|..]; intros ->; apply Hk; auto.
  - assert (Hnode : Forall (fun n => exists v, getitem n "node" = Ok v) ns3).
    { apply for_each_Forall2 in Hvals. clear -Hvals A13.
      revert vals Hvals. induction A13 as [|n1 n3 ns1 ns3 A _ IH]; intros vals Hvals;
        [constructor|].
      apply Forall2_cons_inv_l in Hvals as (v & vals' & Hv & Hvals & ->).
      constructor; [|by eapply IH].
      unfold node_key in Hv. apply bind_Ok in Hv as (v0 & Hv0 & _).
      exists v0. by eapply adds_getitem. }
    rewrite Forall_forall in Hnode, Hdone. apply Forall_forall. intros n Hn.
    destruct (Hnode _ Hn) as [v Hv]. specialize (Hdone _ Hn).
    unfold node_keys. constructor; [by exists v|].
    eapply Forall_impl; [exact Hdone|]. intros k. by apply has_present with v "node".
  - assert (Hname : Forall (fun h => exists v, getitem h "name" = Ok v) es3).
    { assert (Hsrc : Forall (fun h => exists v, getitem h "name" = Ok v)
                       (es ++ (entry <$> new_names names vals))).
      { apply Forall_app. split.
        - apply for_each_Forall2 in Hnames. clear -Hnames.
          induction Hnames as [|h v es names Hh _ IH]; constructor; [|done].
          unfold name_key in Hh. apply bind_Ok in Hh as (v0 & Hv0 & _). eauto.
        - apply Forall_fmap, Forall_true. intros v. exists v. unfold entry. simpl.
          by rewrite lookup_singleton_eq. }
      clear -Hsrc Ah. induction Ah as [|h h' l l' A _ IH]; [constructor|].
      apply Forall_cons in Hsrc as [[v Hv] Hsrc].
      constructor; [|by apply IH]. exists v. by eapply adds_getitem. }
    rewrite Forall_forall in Hname, Hhdone. apply Forall_forall. intros h Hh.
    destruct (Hname _ Hh) as [v Hv]. specialize (Hhdone _ Hh).
    unfold host_keys. constructor; [by exists v|].
    eapply Forall_impl; [exact Hhdone|]. intros k. by apply has_present with v "name".
Qed.

(** X11. A resolved cluster is complete: the cluster has every key of the
    cascade, every master and worker has [node] and the seven node keys, and
    every host entry has [name] and the four host keys, so that none of
    them raises [KeyError] when read. *)
Theorem resolved_complete cc cc' :
  resolve_cluster repr_container cwd cc = Ok cc' ->
  exists nodes entries,
    all_nodes cc' = Ok nodes
    /\ all_hosts cc' = Ok entries
    /\ Forall (fun k => present k cc') cluster_keys
    /\ Forall (fun n => Forall (fun k => present k n) node_keys) nodes
    /\ Forall (fun h => Forall (fun k => present k h) host_keys) entries.
Proof. apply resolved_keys. Qed.

(** X12. [is_sno] never raises on a resolved cluster, and it is true exactly
    when the cluster has one master and no worker. *)
Theorem is_sno_resolved cc cc' :
  resolve_cluster repr_container cwd cc = Ok cc' ->
  exists b,
    is_sno cc' = Ok b
    /\ (b = true <->
        exists n, getitem cc' "masters" = Ok (YList [n])
                  /\ getitem cc' "workers" = Ok (YList [])).
Proof.
  intros H.
  destruct (resolve_cluster_out _ _ _ _ H)
    as (d & d1 & d' & ns0 & ns1 & ns3 & es & names & vals & es3
        & -> & -> & _ & _ & _ & Hns1 & Hns3 & _ & _ & _ & _ & _ & _ & Hall3 & _).
  destruct (passes_nodes _ _ _ _ _ Hns1 Hns3) as (_ & _ & Hdone).
  unfold all_nodes in Hall3.
  apply bind_Ok in Hall3 as (m & Hm & Hall3). apply bind_Ok in Hall3 as (w & Hw & Hall3).
  apply bind_Ok in Hall3 as (all & Hadd & Hiter).
  unfold is_sno. rewrite Hm, Hw. cbn [mbind result_bind].
  destruct m as [|bm|zm|sm|lm|dm]; destruct w as [|bw|zw|sw|lw|dw];
    simpl in Hadd; try discriminate; injection Hadd as <-;
    try (simpl in Hiter; discriminate).
  - simpl in Hiter. injection Hiter as <-.
    assert (sm +:+ sw = "") as Hnil.
    { destruct (sm +:+ sw) as [|c s]; [done|]. simpl in Hdone.
      apply Forall_cons in Hdone as [Hc _]. unfold node_done in Hc.
      apply Forall_cons in Hc as [Hc _]. unfold has in Hc.
      change (contains "disk_size" (YStr (String c ""))) with
        (Ok (str_in "disk_size" (String c ""))) in Hc.
      assert (Hin : str_in "disk_size" (String c "") = true) by congruence.
      apply str_in_length in Hin. simpl in Hin. lia. }
    destruct sm; [|discriminate]. simpl.
    exists false. split; [done|]. split; [done|]. by intros (n & [=] & _).
  - simpl. destruct lm as [|n [|n' lm]]; simpl.
    + exists false. split; [done|]. split; [done|]. by intros (n & [=] & _).
    + exists (bool_decide (length lw = 0%nat)). split; [done|]. split.
      * intros Hb%bool_decide_eq_true. destruct lw; [|done]. by exists n.
      * intros (n0 & _ & [= ->]). done.
    + exists false. split; [done|]. split; [done|]. by intros (n0 & [=] & _).
Qed.

(** X13. The cascade never gives a node a [type]: a node the input gave none
    has none afterwards, and [all_vms] then raises [KeyError] on the
    resolved cluster. *)
Theorem type_never_defaulted cc cc' :
  resolve_cluster repr_container cwd cc = Ok cc' ->
  exists given nodes,
    given_nodes cc = Ok given
    /\ all_nodes cc' = Ok nodes
    /\ (forall i n n', given !! i = Some n -> nodes !! i = Some n' ->
         contains "type" n = Ok false -> contains "type" n' = Ok false)
    /\ (Exists (fun n => contains "type" n = Ok false) given ->
        all_vms cc' = Raise KeyError).
Proof.
  intros H.
  destruct (resolved_nodes _ _ H) as (d & d1 & given & nodes & -> & _ & Hg & Hn & Hall).
  exists given, nodes. split; [done|]. split; [done|].
  assert (Hstep : forall n n',
            (exists n1, node_defaults n = Ok n1
               /\ node_optional_defaults repr_container (YDict d1) n1 = Ok n') ->
            contains "type" n = Ok false -> contains "type" n' = Ok false).
  { intros n n' (n1 & H1 & H3) Hk.
    rewrite node_defaults_steps in H1. rewrite node_optional_defaults_steps in H3.
    eapply run_defaults_lacks; [| |exact H3]; [cbn; set_solver|].
    eapply run_defaults_lacks; [| |exact H1]; [cbn; set_solver|done]. }
  split.
  { intros i n n' Hi Hi' Hk. eapply Hstep; [|exact Hk].
    exact (Forall2_lookup_lr _ _ _ _ _ _ Hall Hi Hi'). }
  intros HE. unfold all_vms. rewrite Hn. cbn [mbind result_bind].
  destruct (resolved_keys _ _ H) as (nodes' & _ & Hn' & _ & _ & Hkeys & _).
  rewrite Hn in Hn'. injection Hn' as <-.
  assert (Hdict : Forall (fun n => exists dn, n = YDict dn) nodes).
  { eapply Forall_impl; [exact Hkeys|]. intros n Hk.
    apply Forall_cons in Hk as [[v Hv] _]. destruct n; try discriminate. eauto. }
  apply select_KeyError.
  - eapply Forall_impl; [exact Hdict|]. intros n [dn ->]. unfold field_is.
    simpl. destruct (_ !! "type"); simpl; eauto.
  - clear -Hall HE Hstep Hdict. induction Hall as [|n n' given nodes Hnn _ IH];
      [by apply Exists_nil in HE|].
    apply Forall_cons in Hdict as [[dn ->] Hdict].
    apply Exists_cons in HE as [HE|HE]; [|by apply Exists_cons_tl, IH].
    apply Exists_cons_hd. pose proof (Hstep _ _ Hnn HE) as Hk.
    unfold field_is. simpl in Hk |- *.
    destruct (_ !! "type"); [|done].
    rewrite bool_decide_eq_true_2 in Hk by eauto. discriminate.
Qed.

(** X14. The cascade succeeds on every well-formed cluster. *)
Theorem resolve_total cc :
  well_formed cc = true -> exists cc', resolve_cluster repr_container cwd cc = Ok cc'.
Proof.
  destruct cc as [| | | | |d]; try discriminate. simpl.
  rewrite !andb_true_iff. intros [[[Hname Hms] Hws] Hhs].
  apply bool_decide_eq_true in Hname as [cname Hcname].
  (* the keys of the cluster *)
  destruct (run_defaults_dict_ok
              [("masters", always (YList [])); ("workers", always (YList []));
               ("kubeconfig", kubeconfig_default repr_container cwd);
               ("preconfig", always (YStr "")); ("postconfig", always (YStr ""));
               ("version", always (YStr "4.13.0-ec.3"));
               ("external_port", always (YStr "auto"));
               ("network_api_port", always (YStr "auto"));
               ("proxy", always YNone); ("hosts", always (YList []))] d)
    as (d1 & Hcc1 & Hsub).
  { intros k f d' Hin Hsub _.
    assert (Hf : f = kubeconfig_default repr_container cwd \/ exists x, f = always x).
    { repeat (apply elem_of_cons in Hin as [[= _ ->]|Hin]; [eauto|]).
      by apply elem_of_nil in Hin. }
    destruct Hf as [->|[x ->]]; [|by exists x].
    unfold kubeconfig_default. simpl. rewrite (lookup_weaken _ _ _ _ Hcname Hsub).
    simpl. eauto. }
  rewrite <- cluster_defaults_steps in Hcc1.
  destruct (list_ok_given _ _ _ Hms) as (ms & Hgm & Hmsok).
  destruct (list_ok_given _ _ _ Hws) as (ws & Hgw & Hwsok).
  destruct (list_ok_given _ _ _ Hhs) as (hs & Hgh & Hhsok).
  rewrite (given_list_start "masters" _ _ (or_introl eq_refl) Hcc1) in Hgm.
  rewrite (given_list_start "workers" _ _ (or_intror (or_introl eq_refl)) Hcc1) in Hgw.
  rewrite (given_list_start "hosts" _ _ (or_intror (or_intror eq_refl)) Hcc1) in Hgh.
  assert (Hp : exists port, d1 !! "network_api_port" = Some port).
  { destruct (cluster_defaults_adds _ _ _ _ Hcc1) as [_ Hkeys].
    rewrite Forall_forall in Hkeys. apply has_dict, Hkeys. set_solver. }
  destruct Hp as [port Hport].
  pose proof (lookup_weaken _ _ _ _ Hcname Hsub) as Hcname1.
  (* the first pass over the nodes *)
  destruct (for_each_ok node_defaults
              (fun n n1 => exists dn1 v, n1 = YDict dn1 /\ dn1 !! "node" = Some v
                 /\ is_key v = true
                 /\ (is_Some (dn1 !! "name") \/ is_Some (dn1 !! "image_path")))
              (ms ++ ws)) as (ns1 & Hns1 & Hshape1).
  { assert (Hall : Forall (fun x => node_ok x = true) (ms ++ ws)) by (by apply Forall_app).
    eapply Forall_impl; [exact Hall|].
    intros n Hn. destruct n as [| | | | |dn]; try discriminate. simpl in Hn.
    destruct (dn !! "node") as [v|] eqn:Hv; [|discriminate].
    apply andb_true_iff in Hn as [Hkey Hnm].
    destruct (run_defaults_dict_ok
                [("disk_size", always (YInt 48)); ("preallocated", always (YBool true));
                 ("os_variant", always (YStr "rhel8.6"))] dn) as (dn1 & H1 & Hsub1).
    { intros k f d' Hin _ _.
      assert (Hf : exists x, f = always x).
      { repeat (apply elem_of_cons in Hin as [[= _ ->]|Hin]; [eauto|]).
        by apply elem_of_nil in Hin. }
      destruct Hf as [x ->]. by exists x. }
    rewrite <- node_defaults_steps in H1. exists (YDict dn1). split; [done|].
    exists dn1, v. split; [done|]. split; [by eapply lookup_weaken|]. split; [done|].
    apply orb_true_iff in Hnm as [Hnm|Hnm]; apply bool_decide_eq_true in Hnm as [y Hy];
      [left|right]; exists y; by eapply lookup_weaken. }
  (* the names of the hosts *)
  destruct (for_each_ok name_key (fun h v => exists dh, h = YDict dh) hs)
    as (names & Hnames & Hshapeh).
  { eapply Forall_impl; [exact Hhsok|]. intros h Hh.
    destruct h as [| | | | |dh]; try discriminate. simpl in Hh.
    destruct (dh !! "name") as [v|] eqn:Hv; [|discriminate].
    exists v. split; [|eauto]. unfold name_key. simpl. rewrite Hv. simpl.
    by destruct v. }
  destruct (add_hosts_ok ns1 hs names) as (l' & Hl').
  { clear -Hshape1. induction Hshape1 as [|n n1 l l1 (dn1 & v & -> & Hv & Hkey & _) _ IH];
      constructor; [|done].
    exists v. unfold node_key. simpl. rewrite Hv. simpl. by destruct v. }
  destruct (add_hosts_inv _ _ _ _ Hl') as (vals & Hvals & Hl'eq). injection Hl'eq as ->.
  (* the second pass over the nodes *)
  destruct (for_each_ok (node_optional_defaults repr_container (YDict d1))
              (fun _ _ => True) ns1) as (ns3 & Hns3 & _).
  { clear -Hshape1 Hcname1.
    induction Hshape1 as [|n n1 l l1 (dn1 & v & -> & Hv & Hkey & Hnm) _ IH];
      constructor; [|done].
    destruct (run_defaults_dict_ok
                [("bmc_ip", always YNone); ("bmc_user", always (YStr "root"));
                 ("bmc_password", always (YStr "calvin"));
                 ("image_path", image_path_default repr_container (YDict d1))] dn1)
      as (dn3 & H3 & _).
    { intros k f d' Hin Hsub' Hnone.
      assert (Hf : (k = "image_path"
                    /\ f = image_path_default repr_container (YDict d1))
                   \/ exists x, f = always x).
      { repeat (apply elem_of_cons in Hin as [[= -> ->]|Hin]; [eauto|]).
        by apply elem_of_nil in Hin. }
      destruct Hf as [[-> ->]|[x ->]]; [|by exists x].
      destruct Hnm as [[y Hy]|[y Hy]].
      - unfold image_path_default. simpl. rewrite Hcname1. simpl.
        rewrite (lookup_weaken _ _ _ _ Hy Hsub'). simpl. eauto.
      - rewrite (lookup_weaken _ _ _ _ Hy Hsub') in Hnone. discriminate. }
    rewrite <- node_optional_defaults_steps in H3. by exists (YDict dn3). }
  (* the pass over the hosts *)
  destruct (for_each_ok (host_defaults (YDict d1)) (fun _ _ => True)
              (hs ++ (entry <$> new_names names vals))) as (es3 & Hes3 & _).
  { assert (Hd : Forall (fun h => exists dh, h = YDict dh)
                   (hs ++ (entry <$> new_names names vals))).
    { apply Forall_app. split.
      - clear -Hshapeh. induction Hshapeh; constructor; auto.
      - apply Forall_fmap, Forall_true. intros v. unfold entry. simpl. eauto. }
    eapply Forall_impl; [exact Hd|]. intros h [dh ->].
    destruct (run_defaults_dict_ok
                [("network_api_port", fun _ => getitem (YDict d1) "network_api_port");
                 ("username", always (YStr "core")); ("password", always YNone);
                 ("pre_installed", always (YStr "True"))] dh) as (dh3 & H3 & _).
    { intros k f d' Hin _ _.
      assert (Hf : f = (fun _ => getitem (YDict d1) "network_api_port")
                   \/ exists x, f = always x).
      { repeat (apply elem_of_cons in Hin as [[= _ ->]|Hin]; [eauto|]).
        by apply elem_of_nil in Hin. }
      destruct Hf as [->|[x ->]]; [|by exists x]. simpl. rewrite Hport. eauto. }
    rewrite <- host_defaults_steps in H3. by exists (YDict dh3). }
  (* the cascade, step by step *)
  unfold resolve_cluster. rewrite Hcc1. cbn [mbind result_bind].
  rewrite Hgm. cbn [mbind result_bind]. rewrite Hgw. cbn [mbind result_bind].
  cbn [add iter mbind result_bind]. rewrite Hns1. cbn [mbind result_bind].
  rewrite Hgh. cbn [iter mbind result_bind]. fold name_key. rewrite Hnames.
  cbn [mbind result_bind]. rewrite Hl'. cbn [mbind result_bind].
  rewrite Hns3. cbn [iter mbind result_bind]. rewrite Hes3. simpl. eauto.
Qed.

Section Port.
Variable route_to_port : result yaml.

(** X15. After the cascade, a cluster that gave no [external_port] has its port
    detected from the default route by [prepare_external_port]; one that
    gave a port other than auto is returned as it is and no route is
    looked up. *)
Theorem external_port_prepared cc cc' :
  resolve_cluster repr_container cwd cc = Ok cc' ->
  (contains "external_port" cc = Ok false ->
   prepare_external_port route_to_port cc'
   = (detected ← route_to_port; setitem cc' "external_port" detected))
  /\ (forall port, getitem cc "external_port" = Ok port -> is_str "auto" port = false ->
      prepare_external_port route_to_port cc' = Ok cc').
Proof.
  intros H.
  destruct (resolve_cluster_out _ _ _ _ H)
    as (d & d1 & d' & ns0 & ns1 & ns3 & es & names & vals & es3
        & -> & -> & Hsub & Hcc1 & _ & _ & _ & _ & _ & _ & _ & Hsame & _).
  unfold prepare_external_port, autodetect_external_port. split.
  - intros Hk. rewrite cluster_defaults_steps in Hcc1.
    eapply (run_defaults_value "external_port" (YStr "auto")) in Hcc1;
      [| |unfold always; set_solver|exact Hk].
    + simpl in Hcc1 |- *. rewrite Hsame by done.
      destruct (d1 !! "external_port"); [|discriminate]. by injection Hcc1 as ->.
    + cbn. apply (bool_decide_unpack (NoDup _)). by vm_compute.
  - intros port Hp Hauto. pose proof (cluster_defaults_adds _ _ _ _ Hcc1) as [A _].
    apply (adds_getitem _ _ _ _ A) in Hp. cbn [getitem] in Hp |- *.
    rewrite Hsame by done.
    destruct (d1 !! "external_port"); [|discriminate]. injection Hp as ->.
    cbn [mbind result_bind]. by rewrite Hauto.
Qed.
End Port.

End More.

(** ** The further properties on the example clusters *)

Lemma cluster_without_hosts_resolves :
  exists cc', resolve_cluster no_repr "/root" cluster_without_hosts = Ok cc'.
Proof. eexists. vm_compute. reflexivity. Defined.

Lemma cluster_with_hosts_resolves :
  exists cc', resolve_cluster no_repr "/root" cluster_with_hosts = Ok cc'.
Proof. eexists. vm_compute. reflexivity. Defined.

Lemma cluster_needs_name_witness :
  resolve_cluster no_repr "/root" (YDict ∅) = Raise KeyError.
Proof. apply cluster_needs_name; reflexivity. Defined.

Lemma worker_index_range_witness :
  worker_name example_info "host1.example.com" None (-2)
  = Ok ("worker-12", Some {| workers := ["worker-12"; "bf-worker-3b"];
                             network_api_port := "eno1" |})
  /\ worker_name example_info "host1.example.com" None 2 = Raise IndexError.
Proof.
  split.
  - destruct (worker_index_range example_info "host1.example.com" None
                {| workers := ["worker-12"; "bf-worker-3b"]; network_api_port := "eno1" |}
                (-2)) as [Hin _]; [vm_compute; reflexivity|].
    destruct Hin as (name & Hname & Hw & _); [simpl; lia|].
    vm_compute in Hname. injection Hname as <-. exact Hw.
  - destruct (worker_index_range example_info "host1.example.com" None
                {| workers := ["worker-12"; "bf-worker-3b"]; network_api_port := "eno1" |}
                2) as [_ Hout]; [vm_compute; reflexivity|].
    apply Hout. simpl. lia.
Defined.

Lemma resolve_total_witness :
  exists cc', resolve_cluster no_repr "/root" cluster_with_hosts = Ok cc'.
Proof. apply resolve_total. vm_compute. reflexivity. Defined.

Lemma cluster_defaults_values_witness :
  exists cc',
    resolve_cluster no_repr "/root" cluster_without_hosts = Ok cc'
    /\ (forall k x,
          (k, x) ∈ cluster_default_values ->
          contains k cluster_without_hosts = Ok false ->
          getitem cc' k = Ok x)
    /\ (contains "kubeconfig" cluster_without_hosts = Ok false ->
        exists name, getitem cluster_without_hosts "name" = Ok name
          /\ getitem cc' "kubeconfig"
             = Ok (YStr (path_join "/root" ("kubeconfig." +:+ format no_repr name)))).
Proof.
  destruct cluster_without_hosts_resolves as [cc' H]. exists cc'. split; [exact H|].
  exact (cluster_defaults_values no_repr "/root" cluster_without_hosts cc' H).
Defined.

Lemma node_defaults_values_witness :
  exists cc',
    resolve_cluster no_repr "/root" cluster_without_hosts = Ok cc'
    /\ exists given nodes,
      given_nodes cluster_without_hosts = Ok given
      /\ all_nodes cc' = Ok nodes
      /\ forall i n n' k x,
           given !! i = Some n -> nodes !! i = Some n' ->
           (k, x) ∈ node_default_values -> contains k n = Ok false ->
           getitem n' k = Ok x.
Proof.
  destruct cluster_without_hosts_resolves as [cc' H]. exists cc'. split; [exact H|].
  exact (node_defaults_values no_repr "/root" cluster_without_hosts cc' H).
Defined.

Lemma image_path_value_witness :
  exists cc',
    resolve_cluster no_repr "/root" cluster_without_hosts = Ok cc'
    /\ exists given nodes,
      given_nodes cluster_without_hosts = Ok given
      /\ all_nodes cc' = Ok nodes
      /\ forall i n n',
           given !! i = Some n -> nodes !! i = Some n' ->
           contains "image_path" n = Ok false ->
           exists cname nname,
             getitem cluster_without_hosts "name" = Ok cname
             /\ getitem n "name" = Ok nname
             /\ getitem n' "image_path"
                = Ok (YStr (if String.prefix "/" (format no_repr nname)
                            then format no_repr nname +:+ ".qcow2"
                            else "/home/" +:+ format no_repr cname
                                 +:+ "_guests_images/"
                                 +:+ format no_repr nname +:+ ".qcow2")).
Proof.
  destruct cluster_without_hosts_resolves as [cc' H]. exists cc'. split; [exact H|].
  exact (image_path_value no_repr "/root" cluster_without_hosts cc' H).
Defined.

Lemma nodes_kept_witness :
  exists cc',
    resolve_cluster no_repr "/root" cluster_without_hosts = Ok cc'
    /\ exists given nodes,
      given_nodes cluster_without_hosts = Ok given
      /\ all_nodes cc' = Ok nodes
      /\ Forall2 adds given nodes
      /\ forall ms, given_list "masters" cluster_without_hosts = Ok (YList ms) ->
           getitem cc' "masters" = Ok (YList (take (length ms) nodes))
           /\ getitem cc' "workers" = Ok (YList (drop (length ms) nodes)).
Proof.
  destruct cluster_without_hosts_resolves as [cc' H]. exists cc'. split; [exact H|].
  exact (nodes_kept no_repr "/root" cluster_without_hosts cc' H).
Defined.

Lemma resolved_complete_witness :
  exists cc',
    resolve_cluster no_repr "/root" cluster_without_hosts = Ok cc'
    /\ exists nodes entries,
      all_nodes cc' = Ok nodes
      /\ all_hosts cc' = Ok entries
      /\ Forall (fun k => present k cc') cluster_keys
      /\ Forall (fun n => Forall (fun k => present k n) node_keys) nodes
      /\ Forall (fun h => Forall (fun k => present k h) host_keys) entries.
Proof.
  destruct cluster_without_hosts_resolves as [cc' H]. exists cc'. split; [exact H|].
  exact (resolved_complete no_repr "/root" cluster_without_hosts cc' H).
Defined.

Lemma is_sno_resolved_witness :
  exists cc',
    resolve_cluster no_repr "/root" cluster_without_hosts = Ok cc'
    /\ exists b,
      is_sno cc' = Ok b
      /\ (b = true <->
          exists n, getitem cc' "masters" = Ok (YList [n])
                    /\ getitem cc' "workers" = Ok (YList [])).
Proof.
  destruct cluster_without_hosts_resolves as [cc' H]. exists cc'. split; [exact H|].
  exact (is_sno_resolved no_repr "/root" cluster_without_hosts cc' H).
Defined.

Lemma type_never_defaulted_witness :
  exists cc',
    resolve_cluster no_repr "/root" cluster_without_hosts = Ok cc'
    /\ exists given nodes,
      given_nodes cluster_without_hosts = Ok given
      /\ all_nodes cc' = Ok nodes
      /\ (forall i n n', given !! i = Some n -> nodes !! i = Some n' ->
           contains "type" n = Ok false -> contains "type" n' = Ok false)
      /\ (Exists (fun n => contains "type" n = Ok false) given ->
          all_vms cc' = Raise KeyError).
Proof.
  destruct cluster_without_hosts_resolves as [cc' H]. exists cc'. split; [exact H|].
  exact (type_never_defaulted no_repr "/root" cluster_without_hosts cc' H).
Defined.

Lemma host_port_inherited_witness :
  exists cc',
    resolve_cluster no_repr "/root" cluster_with_hosts = Ok cc'
    /\ exists given entries port,
      given_hosts cluster_with_hosts = Ok given
      /\ all_hosts cc' = Ok entries
      /\ getitem cc' "network_api_port" = Ok port
      /\ (contains "network_api_port" cluster_with_hosts = Ok false -> port = YStr "auto")
      /\ forall i h', entries !! i = Some h' ->
           lacks_at given i "network_api_port" ->
           getitem h' "network_api_port" = Ok port.
Proof.
  destruct cluster_with_hosts_resolves as [cc' H]. exists cc'. split; [exact H|].
  exact (host_port_inherited no_repr "/root" cluster_with_hosts cc' H).
Defined.

Lemma external_port_prepared_witness :
  exists cc',
    resolve_cluster no_repr "/root" cluster_without_hosts = Ok cc'
    /\ (contains "external_port" cluster_without_hosts = Ok false ->
        prepare_external_port (Ok (YStr "eno1")) cc'
        = (detected ← Ok (YStr "eno1"); setitem cc' "external_port" detected))
    /\ (forall port,
          getitem cluster_without_hosts "external_port" = Ok port ->
          is_str "auto" port = false ->
          prepare_external_port (Ok (YStr "eno1")) cc' = Ok cc').
Proof.
  destruct cluster_without_hosts_resolves as [cc' H]. exists cc'. split; [exact H|].
  exact (external_port_prepared no_repr "/root" (Ok (YStr "eno1")) cluster_without_hosts
           cc' H).
Defined.

Lemma all_vms_split_witness :
  exists ms ws,
    master_vms cluster_with_vms = Ok ms /\ worker_vms cluster_with_vms = Ok ws
    /\ [mapping [("name", YStr "m1"); ("node", YStr "localhost"); ("type", YStr "vm")]]
       = ms ++ ws.
Proof. apply all_vms_split. vm_compute. reflexivity. Defined.

Lemma vms_selected_witness :
  exists nodes,
    all_nodes cluster_with_vms = Ok nodes
    /\ sublist [mapping [("name", YStr "m1"); ("node", YStr "localhost");
                         ("type", YStr "vm")]] nodes.
Proof.
  edestruct (vms_selected cluster_with_vms) as (nodes & Hn & Hsub & _);
    [vm_compute; reflexivity|].
  exists nodes. split; [exact Hn | exact Hsub].
Defined.

End ResolverMore.

(* ===================================================================== *)
(** * Further facts about the reconciler *)
(* ===================================================================== *)

Module BridgeMore.
Import Py VirBridge BridgeProps MoreBridgeProps BridgeFacts.

Section Bridge.
Variable respond : list event -> string -> Result.
Variable file_contents : list event -> string -> string.
Variable hostname : string.

Ltac run_all H :=
  unfold VirBridge.configure, _ensure_run_as_root, _ensure_started, limit_dhcp_range,
    _restart in H;
  cbv zeta in H; exec H.

Ltac run_configure H :=
  run_all H; (eexists; split; [try reflexivity; by rewrite app_nil_r|]).

(** X16. When the definition that [configure] inspected has stp='off' and not
    the stale range, [configure] returns and does nothing after the
    inspection; it writes no file in the whole run. *)
Theorem configure_idle api_network t0 o t1 :
  configure respond file_contents hostname api_network t0 = (o, t1) ->
  exists issued,
    t1 = t0 ++ issued
    /\ forall ret after,
       inspection issued = Some (ret, after) ->
       needs_recreation (out ret) = false ->
       o = Done () /\ after = [] /\ writes issued = [].
Proof.
  intros H. run_configure H.
  all: intros ret after Hinsp Hneed; simpl in Hinsp; try discriminate Hinsp.
  all: injection Hinsp as <- <-.
  all: try congruence.
  all: by repeat split.
Qed.

Lemma network_xml_stp ip dhcp_range :
  str_in "stp='off'" (_network_xml ip dhcp_range) = true.
Proof.
  apply str_in_spec. unfold _network_xml.
  eexists "
                <network>
                <name>default</name>
                <forward mode='nat'/>
                <bridge name='virbr0' ", _.
  reflexivity.
Qed.

(** X17. A definition that [_network_xml] builds always has stp='off'.  The one
    that [configure] writes goes to /tmp/vir_bridge.xml, passes the test
    of [configure] itself (stp='off', no stale range), and has a DHCP
    section exactly on localhost. *)
Theorem descriptor_written api_network t0 o t1 :
  configure respond file_contents hostname api_network t0 = (o, t1) ->
  (forall ip dhcp_range, str_in "stp='off'" (_network_xml ip dhcp_range) = true)
  /\ exists issued,
       t1 = t0 ++ issued
       /\ forall path contents, (path, contents) ∈ writes issued ->
            path = "/tmp/vir_bridge.xml"
            /\ needs_recreation contents = false
            /\ str_in "<dhcp>" contents = String.eqb hostname "localhost".
Proof.
  intros H. split; [apply network_xml_stp|]. run_configure H.
  all: intros path contents Hin; cbn [writes] in Hin.
  all: try (by apply elem_of_nil in Hin).
  all: apply list_elem_of_singleton in Hin; injection Hin as -> ->.
  all: destruct (String.eqb hostname "localhost"); vm_compute; by repeat split.
Qed.

(** X18. [limit_dhcp_range] never exits, whatever the commands return: it
    queries the definition and, exactly when the old range is in it,
    deletes the old range and then adds the new one. *)
Theorem limit_dhcp_range_steps old_range new_range t0 o t1 :
  limit_dhcp_range respond old_range new_range t0 = (o, t1) ->
  o = Done ()
  /\ exists ret,
       (str_in ("range start='" +:+ old_range +:+ "'") (out ret) = false
        /\ t1 = t0 ++ [Run dumpxml_cmd ret])
       \/ (str_in ("range start='" +:+ old_range +:+ "'") (out ret) = true
           /\ exists r1 r2,
                t1 = t0 ++ [Run dumpxml_cmd ret;
                            Run (range_cmd "delete" old_range) r1;
                            Run (range_cmd "add" new_range) r2]).
Proof.
  intros H. run_all H; (split; [reflexivity|]); eexists; [right|left]; eauto.
Qed.

(** X19. [_ensure_run_as_root] reads qemu.conf and decides on the user line
    alone: when a line of the file sets the user to root it does nothing
    more; otherwise it patches the file and restarts the daemon, and exits
    exactly when the restart fails. *)
Theorem run_as_root_steps t0 o t1 :
  _ensure_run_as_root respond file_contents t0 = (o, t1) ->
  exists conf rest,
    t1 = t0 ++ ReadFile "/etc/libvirt/qemu.conf" conf :: rest
    /\ (user_is_root conf = true -> rest = [] /\ o = Done ())
    /\ (user_is_root conf = false ->
        exists r1 r2,
          rest = [Run sed_qemu_conf r1; Run restart_cmd r2]
          /\ (o = Exit <-> returncode r2 <> 0)).
Proof.
  intros H. run_all H; eexists _, _; (split; [reflexivity|]).
  all: try apply andb_prop in Heqb as [Heqb _].
  all: try (assert (Hq : user_is_root q = false)
              by (by destruct (user_is_root q)); clear Heqb).
  all: split; [intros Hu | intros Hu]; try congruence.
  all: try (by split).
  all: eexists _, _; split; [reflexivity|].
  all: match goal with E : (returncode _ =? 0) = _ |- _ => rename E into Hr end.
  - apply Z.eqb_eq in Hr. split; [discriminate | congruence].
  - apply Z.eqb_neq in Hr. by split.
Qed.

(** X20. [setup_dhcp_entry] issues its commands in one order: the query of the
    definition, the deletion of the old entry if there is one, the query of
    the active leases, the addition; a run that is cut short has issued a
    beginning of this sequence, and a run that returns ends with the
    addition.  Without ip it issues nothing, and it never writes a file. *)
Theorem setup_dhcp_entry_order cfg t0 o t1 :
  setup_dhcp_entry respond cfg t0 = (o, t1) ->
  exists issued,
    t1 = t0 ++ issued
    /\ writes issued = []
    /\ (ip cfg = None -> issued = [])
    /\ (commands issued
          `prefix_of` [dumpxml_cmd; delete_host_cmd (name cfg); leases_cmd;
                       add_host_cmd (format_opt (mac cfg)) (name cfg) (format_opt (ip cfg))]
        \/ commands issued
          `prefix_of` [dumpxml_cmd; leases_cmd;
                       add_host_cmd (format_opt (mac cfg)) (name cfg) (format_opt (ip cfg))])
    /\ (o = Done () ->
        last (commands issued)
        = Some (add_host_cmd (format_opt (mac cfg)) (name cfg) (format_opt (ip cfg)))).
Proof.
  intros H. unfold setup_dhcp_entry in H.
  destruct (ip cfg) as [ip0|] eqn:Hip; cbv zeta in H; exec H;
    (eexists; split; [try reflexivity; by rewrite app_nil_r|]).
  all: split; [reflexivity|]. all: split; [try discriminate; done|].
  all: split; [|intros Ho; try discriminate Ho; reflexivity].
  all: cbn [commands].
  all: first [ left; by eexists | right; by eexists ].
Qed.
End Bridge.

(** ** The further properties on the example hosts *)

Lemma configure_idle_witness :
  exists t1,
    configure settled_host no_files "localhost" "eno1" [] = (Done (), t1)
    /\ writes t1 = [].
Proof.
  eexists. split; [vm_compute; reflexivity|].
  edestruct (configure_idle settled_host no_files "localhost" "eno1" [])
    as (issued & Heq & Hidle); [vm_compute; reflexivity|].
  simpl in Heq. subst issued.
  edestruct Hidle as (_ & _ & Hw); [vm_compute; reflexivity|vm_compute; reflexivity|].
  exact Hw.
Defined.

Lemma descriptor_written_witness :
  exists t1 contents,
    configure quiet_host no_files "worker-host" "eno1" [] = (Done (), t1)
    /\ writes t1 = [("/tmp/vir_bridge.xml", contents)]
    /\ needs_recreation contents = false
    /\ str_in "<dhcp>" contents = false.
Proof.
  eexists. eexists. split; [vm_compute; reflexivity|]. split; [vm_compute; reflexivity|].
  edestruct (descriptor_written quiet_host no_files "worker-host" "eno1" [])
    as (_ & issued & Heq & Hw); [vm_compute; reflexivity|].
  simpl in Heq. subst issued.
  edestruct Hw as (_ & Hneed & Hdhcp); [vm_compute; apply list_elem_of_here|].
  split; [exact Hneed | exact Hdhcp].
Defined.

Lemma limit_dhcp_range_steps_witness :
  exists t1,
    limit_dhcp_range readonly_host "192.168.122.2" "192.168.122.129" [] = (Done (), t1).
Proof.
  eexists.
  destruct (limit_dhcp_range_steps readonly_host "192.168.122.2" "192.168.122.129" []
              (Done ()) _ eq_refl) as [_ _].
  reflexivity.
Defined.

Lemma run_as_root_steps_witness :
  exists t1,
    _ensure_run_as_root quiet_host root_files [] = (Done (), t1)
    /\ t1 = [ReadFile "/etc/libvirt/qemu.conf" root_conf].
Proof.
  eexists. split; [vm_compute; reflexivity|].
  edestruct (run_as_root_steps quiet_host root_files [])
    as (conf & rest & Heq & Hroot & _); [vm_compute; reflexivity|].
  simpl in Heq. injection Heq as <- <-.
  destruct Hroot as [_ _]; [vm_compute; reflexivity|]. reflexivity.
Defined.

Lemma setup_dhcp_entry_order_witness :
  exists t1 issued,
    setup_dhcp_entry quiet_host worker_2 [] = (Done (), t1)
    /\ t1 = [] ++ issued
    /\ writes issued = []
    /\ last (commands issued)
       = Some (add_host_cmd "52:54:00:00:00:02" "worker-2" "192.168.122.2").
Proof.
  eexists.
  edestruct (setup_dhcp_entry_order quiet_host worker_2 [])
    as (issued & Heq & Hw & _ & _ & Hlast); [vm_compute; reflexivity|].
  exists issued. split; [vm_compute; reflexivity|]. split; [exact Heq|].
  split; [exact Hw|]. by apply Hlast.
Defined.

End BridgeMore.

(* ===================================================================== *)
(** * Facts about the CoreOS builder *)
(* ===================================================================== *)

Module BuilderFacts.
Import Py Props VirBridge BridgeProps CoreosBuilder BuilderProps.
Import ResolverFacts BridgeFacts ResolverMore.

(** ** Strings *)

Lemma append_nil_r s : s +:+ "" = s.
Proof.
  induction s as [|c s IH]; [done|].
  change (String c (s +:+ "") = String c s). by rewrite IH.
Qed.

Lemma append_cons c s t : String c s +:+ t = String c (s +:+ t).
Proof. reflexivity. Qed.

Lemma length_append s t : String.length (s +:+ t) = (String.length s + String.length t)%nat.
Proof. induction s as [|c s IH]; [done|]. rewrite append_cons. simpl. by rewrite IH. Qed.

Lemma str_take_app a z : str_take (String.length a) (a +:+ z) = a.
Proof. induction a as [|c a IH]; [by destruct z|]. rewrite append_cons. simpl. by rewrite IH. Qed.

Lemma str_drop_app a z : str_drop (String.length a) (a +:+ z) = z.
Proof. induction a as [|c a IH]; [by destruct z|]. rewrite append_cons. simpl. exact IH. Qed.

Lemma prefix_app n y : String.prefix n (n +:+ y) = true.
Proof. apply prefix_spec. by exists y. Qed.

(** Whether [n] begins a string is decided by the first characters. *)
Lemma prefix_indep n u x y :
  (String.length n <= String.length u)%nat ->
  String.prefix n (u +:+ x) = String.prefix n (u +:+ y).
Proof.
  revert u. induction n as [|c n IH]; intros u Hlen.
  - by destruct (u +:+ x), (u +:+ y).
  - destruct u as [|c' u]; [simpl in Hlen; lia|]. rewrite !append_cons.
    cbn [String.prefix]. destruct (ascii_dec c c'); [|done].
    apply IH. simpl in Hlen. lia.
Qed.

Lemma find_unfold sub s :
  find sub s
  = if String.prefix sub s then Some 0%nat
    else match s with
         | EmptyString => None
         | String _ rest => S <$> find sub rest
         end.
Proof. by destruct s. Qed.

(** The first occurrence of [sub] splits the string, and it stays the
    first whatever follows it. *)
Lemma find_first sub s i :
  find sub s = Some i ->
  exists a b,
    s = a +:+ sub +:+ b /\ String.length a = i
    /\ forall y, find sub (a +:+ sub +:+ y) = Some i.
Proof.
  revert i. induction s as [|c s IH]; intros i H; rewrite find_unfold in H.
  - destruct (String.prefix sub "") eqn:Hp; [|discriminate]. injection H as <-.
    apply prefix_spec in Hp as [b Hb]. exists "", b. split; [done|]. split; [done|].
    intros y. change ("" +:+ sub +:+ y) with (sub +:+ y).
    by rewrite find_unfold, prefix_app.
  - destruct (String.prefix sub (String c s)) eqn:Hp.
    + injection H as <-. apply prefix_spec in Hp as [b Hb].
      exists "", b. split; [done|]. split; [done|].
      intros y. change ("" +:+ sub +:+ y) with (sub +:+ y).
      by rewrite find_unfold, prefix_app.
    + destruct (find sub s) as [i'|] eqn:Hf; [|discriminate]. injection H as <-.
      destruct (IH _ eq_refl) as (a & b & -> & Hlen & Hy).
      exists (String c a), b. split; [done|]. split; [simpl; by rewrite Hlen|].
      intros y. rewrite append_cons, find_unfold, Hy.
      replace (String.prefix sub (String c (a +:+ sub +:+ y))) with false; [done|].
      rewrite <- Hp, <- !append_cons, <- !append_assoc.
      apply prefix_indep. rewrite length_append. lia.
Qed.

Lemma find_app_none sub u v : find sub (u +:+ v) = None -> find sub v = None.
Proof.
  induction u as [|c u IH]; [done|]. rewrite append_cons, find_unfold.
  destruct (String.prefix sub _); [discriminate|].
  destruct (find sub (u +:+ v)); [discriminate|]. intros _. by apply IH.
Qed.

Lemma prefix_char c x t t' :
  String.prefix (String c "") (String x t) = String.prefix (String c "") (String x t').
Proof. cbn [String.prefix]. destruct (ascii_dec c x); [by destruct t, t'|done]. Qed.

(** Nothing before the first occurrence of a character is that character. *)
Lemma find_char_none c a y :
  find (String c "") (a +:+ String c "" +:+ y) = Some (String.length a) ->
  find (String c "") a = None.
Proof.
  induction a as [|x a IH]; [done|].
  rewrite append_cons, (find_unfold _ (String x (a +:+ _))), (find_unfold _ (String x a)).
  rewrite (prefix_char c x _ a).
  destruct (String.prefix _ _); [discriminate|].
  destruct (find _ (a +:+ _)) as [j|] eqn:Hj; [|discriminate].
  simpl. intros [= ->]. by rewrite (IH eq_refl).
Qed.

(** ** The include of custom.yaml *)

(** X21. [add_include] puts custom.yaml first in the include list of the base
    manifest, and running it again on its own result changes nothing: the
    result is the line of the first include: (up to its end), the entry,
    and the rest, and the input is the same text with or without the
    entry. *)
Theorem add_include_idempotent contents contents' :
  add_include contents = Some contents' ->
  add_include contents' = Some contents'
  /\ exists head line rest,
       contents' = head +:+ "include:" +:+ line +:+ to_include +:+ rest
       /\ find newline line = None
       /\ (contents = contents'
           \/ contents = head +:+ "include:" +:+ line +:+ rest).
Proof.
  intros H. pose proof H as H0. unfold add_include, index_from in H.
  destruct (find "include:" contents) as [s|] eqn:Hs; [|discriminate].
  cbn [mbind option_bind] in H.
  destruct (find_first _ _ _ Hs) as (a & b & -> & Hlen & Hfirst). subst s.
  rewrite str_drop_app in H.
  destruct (find newline ("include:" +:+ b)) as [k|] eqn:Hk; [|discriminate].
  cbn [fmap option_fmap option_map mbind option_bind] in H.
  destruct (find_first _ _ _ Hk) as (a2 & r & Hsplit & Hlen2 & Hnl). subst k.
  (* the line of the include *)
  assert (Hline : exists line, a2 = "include:" +:+ line /\ b = line +:+ newline +:+ r).
  { clear -Hsplit.
    do 8 (destruct a2 as [|? a2]; [discriminate Hsplit|];
          rewrite append_cons in Hsplit; injection Hsplit as <- Hsplit).
    by exists a2. }
  destruct Hline as (line & -> & ->).
  assert (Hno : find newline line = None).
  { apply (find_app_none _ "include:"). eapply find_char_none. apply (Hnl ""). }
  (* the two parts *)
  assert (Hcut : a +:+ "include:" +:+ line +:+ newline +:+ r
                 = (a +:+ "include:" +:+ line) +:+ (newline +:+ r)).
  { by rewrite !append_assoc. }
  assert (Hend : (String.length a + String.length ("include:" +:+ line))%nat
                 = String.length (a +:+ "include:" +:+ line)).
  { by rewrite !length_append. }
  rewrite Hend, Hcut, str_take_app, str_drop_app in H. rewrite Hcut in H0 |- *.
  destruct (String.prefix to_include (newline +:+ r)) eqn:Hp; cbn [negb] in H;
    injection H as <-.
  - split; [exact H0|]. apply prefix_spec in Hp as [rest Hrest].
    exists a, line, rest. split; [by rewrite Hrest, !append_assoc|]. split; [done|].
    by left.
  - split.
    + unfold add_include, index_from.
      replace ((a +:+ "include:" +:+ line) +:+ to_include +:+ newline +:+ r)
        with (a +:+ "include:" +:+ line +:+ to_include +:+ newline +:+ r)
        by (by rewrite !append_assoc).
      rewrite Hfirst. cbn [mbind option_bind]. rewrite str_drop_app.
      replace ("include:" +:+ line +:+ to_include +:+ newline +:+ r)
        with (("include:" +:+ line) +:+ newline +:+ "  - custom.yaml" +:+ newline +:+ r)
        by (unfold to_include; by rewrite !append_assoc).
      rewrite Hnl. cbn [fmap option_fmap option_map mbind option_bind].
      replace (a +:+ ("include:" +:+ line) +:+ newline +:+ "  - custom.yaml" +:+ newline +:+ r)
        with ((a +:+ "include:" +:+ line) +:+ to_include +:+ newline +:+ r)
        by (unfold to_include; by rewrite !append_assoc).
      rewrite Hend, str_take_app, str_drop_app, prefix_app. reflexivity.
    + exists a, line, (newline +:+ r). split; [by rewrite !append_assoc|].
      split; [done|]. right. by rewrite !append_assoc.
Qed.

Lemma add_include_idempotent_witness :
  add_include base_yaml
  = Some ("include:" +:+ newline +:+ "  - custom.yaml" +:+ newline
          +:+ "  - shared-el9.yaml" +:+ newline)
  /\ add_include ("include:" +:+ newline +:+ "  - custom.yaml" +:+ newline
                  +:+ "  - shared-el9.yaml" +:+ newline)
     = Some ("include:" +:+ newline +:+ "  - custom.yaml" +:+ newline
             +:+ "  - shared-el9.yaml" +:+ newline).
Proof.
  split; [vm_compute; reflexivity|].
  apply (add_include_idempotent base_yaml). vm_compute. reflexivity.
Defined.

(** ** The key of a .pub file *)

Lemma split_on_cons sep s : exists w ws, split_on sep s = w :: ws.
Proof.
  induction s as [|c s (w & ws & IH)]; simpl; [eauto|].
  destruct (Ascii.eqb c sep); [eauto|]. rewrite IH. eauto.
Qed.

Lemma split_on_app sep k c :
  split_on sep (k +:+ String sep "" +:+ c) = split_on sep k ++ split_on sep c.
Proof.
  induction k as [|x k IH].
  - change ("" +:+ String sep "" +:+ c) with (String sep c). simpl.
    by rewrite Ascii.eqb_refl.
  - rewrite append_cons. simpl. destruct (Ascii.eqb x sep); rewrite IH; [done|].
    by destruct (split_on_cons sep k) as (w & ws & ->).
Qed.

Lemma split_on_none sep c :
  str_in (String sep "") c = false -> split_on sep c = [c].
Proof.
  induction c as [|x c IH]; [done|]. cbn [str_in String.prefix].
  intros [Hx Hc]%orb_false_iff. simpl.
  destruct (Ascii.eqb_spec x sep) as [->|Hne].
  - destruct (ascii_dec sep sep); [by destruct c | done].
  - by rewrite (IH Hc).
Qed.

Lemma join_cons sep x w ws : join sep (x :: w :: ws) = x +:+ sep +:+ join sep (w :: ws).
Proof. reflexivity. Qed.

Lemma join_split sep s : join (String sep "") (split_on sep s) = s.
Proof.
  induction s as [|c s IH]; [done|]. simpl.
  destruct (split_on_cons sep s) as (w & ws & Hs). rewrite Hs in IH |- *.
  destruct (Ascii.eqb_spec c sep) as [->|Hne].
  - by rewrite join_cons, IH.
  - destruct ws as [|w' ws]; [simpl in IH |- *; by rewrite IH|].
    rewrite join_cons in IH |- *. by rewrite append_cons, IH.
Qed.

(** X22. The key kept from a .pub file is the file's text without its last
    field, the fields being separated by single spaces: the comment is
    dropped, and so is the key itself when the file has no comment. *)
Theorem public_key_drops_last_field key comment :
  str_in " " comment = false ->
  public_key (key +:+ " " +:+ comment) = key /\ public_key comment = "".
Proof.
  intros Hc. unfold public_key. split.
  - rewrite split_on_app, (split_on_none _ _ Hc), removelast_last. apply join_split.
  - by rewrite (split_on_none _ _ Hc).
Qed.

Lemma public_key_drops_last_field_witness :
  public_key ("ssh-ed25519 AAAAC3Nz core@host" +:+ newline) = "ssh-ed25519 AAAAC3Nz"
  /\ public_key ("ssh-ed25519 AAAAC3Nz" +:+ newline) = "ssh-ed25519".
Proof.
  split.
  - apply (public_key_drops_last_field "ssh-ed25519 AAAAC3Nz" ("core@host" +:+ newline)).
    reflexivity.
  - apply (public_key_drops_last_field "ssh-ed25519" ("AAAAC3Nz" +:+ newline)).
    reflexivity.
Defined.

(** ** The directory of a clone *)

Lemma rev_append a b : String.rev (a +:+ b) = String.rev b +:+ String.rev a.
Proof. unfold String.rev. by rewrite rev_app_append, rev_app_app. Qed.

Lemma rev_involutive s : String.rev (String.rev s) = s.
Proof.
  induction s as [|c s IH]; [done|].
  change (String c s) with (String c "" +:+ s) at 1.
  by rewrite rev_append, rev_append, IH.
Qed.

Lemma ends_with_spec suffix s : ends_with suffix s = true <-> exists p, s = p +:+ suffix.
Proof.
  unfold ends_with. rewrite prefix_spec. split.
  - intros [b Hb]. exists (String.rev b).
    by rewrite <- (rev_involutive s), Hb, rev_append, rev_involutive.
  - intros [p ->]. exists (String.rev p). apply rev_append.
Qed.

Lemma str_in_app_r a b : str_in a b = true -> forall p, str_in a (p +:+ b) = true.
Proof.
  intros (x & y & ->)%str_in_spec p. apply str_in_spec.
  exists (p +:+ x), y. by rewrite append_assoc.
Qed.



Section Clone.
Variable path_exists : string -> bool.

End Clone.


(** ** The packages commented out for the build *)

Lemma replace_go_unfold old new c r :
  replace_go old new 0 (String c r)
  = if String.prefix old (String c r)
    then new +:+ replace_go old new (String.length old - 1) r
    else String c (replace_go old new 0 r).
Proof. reflexivity. Qed.

Lemma replace_go_skip old new u rest :
  replace_go old new (String.length u) (u +:+ rest) = replace_go old new 0 rest.
Proof.
  induction u as [|c u IH]; [by destruct rest|]. rewrite append_cons. simpl. exact IH.
Qed.

Lemma str_in_cons n c s :
  str_in n (String c s) = String.prefix n (String c s) || str_in n s.
Proof. reflexivity. Qed.

Lemma no_newline_cons c l :
  str_in newline (String c l) = false -> c <> "010"%char /\ str_in newline l = false.
Proof.
  rewrite str_in_cons. intros [Hc Hl]%orb_false_iff. split; [|done].
  intros ->. by destruct l.
Qed.

(** On a line, an occurrence of [x] and a newline is the end of the line. *)
Lemma prefix_line x l rest :
  str_in newline x = false -> str_in newline l = false ->
  String.prefix (x +:+ newline) (l +:+ newline +:+ rest) = String.eqb l x.
Proof.
  revert l. induction x as [|a x IH]; intros l Hx Hl.
  - destruct l as [|c l]; [by destruct rest|].
    apply no_newline_cons in Hl as [Hc _]. rewrite append_cons.
    change ("" +:+ newline) with newline. unfold newline. cbn [String.prefix String.eqb].
    destruct (ascii_dec "010" c) as [<-|_]; done.
  - apply no_newline_cons in Hx as [Ha Hx]. destruct l as [|c l].
    + change ("" +:+ newline +:+ rest) with (String "010" rest). rewrite append_cons.
      cbn [String.prefix String.eqb]. destruct (ascii_dec a "010") as [->|_]; done.
    + apply no_newline_cons in Hl as [_ Hl]. rewrite !append_cons.
      cbn [String.prefix String.eqb]. rewrite (IH l Hx Hl).
      destruct (ascii_dec a c) as [->|Hne].
      * by rewrite Ascii.eqb_refl.
      * destruct (Ascii.eqb_spec c a) as [->|_]; done.
Qed.

Lemma eqb_length a b : String.eqb a b = true -> String.length a = String.length b.
Proof. by intros ->%String.eqb_eq. Qed.

(** [replace] works line by line when the pattern ends with a newline and
    has no other. *)
Lemma replace_line x x' l rest :
  x <> "" -> str_in newline x = false -> str_in newline l = false ->
  replace (x +:+ newline) (x' +:+ newline) (l +:+ newline +:+ rest)
  = subst_end x x' l +:+ newline +:+ replace (x +:+ newline) (x' +:+ newline) rest.
Proof.
  intros Hne Hx. unfold replace. induction l as [|c l IH]; intros Hl.
  - change ("" +:+ newline +:+ rest) with (String "010" rest).
    rewrite replace_go_unfold.
    change (String "010" rest) with ("" +:+ newline +:+ rest) at 1.
    rewrite (prefix_line x "" rest Hx Hl). destruct x as [|a x]; [done|]. reflexivity.
  - rewrite append_cons, replace_go_unfold, <- append_cons.
    rewrite (prefix_line x (String c l) rest Hx Hl). cbn [subst_end].
    destruct (String.eqb (String c l) x) eqn:He.
    + apply eqb_length in He.
      replace (String.length (x +:+ newline) - 1)%nat with (String.length (l +:+ newline))
        by (rewrite !length_append; simpl in He |- *; lia).
      rewrite <- (append_assoc l newline rest), replace_go_skip.
      by rewrite append_assoc.
    + apply no_newline_cons in Hl as [_ Hl]. by rewrite (IH Hl), append_cons.
Qed.

Lemma replace_no_line x x' l :
  str_in newline l = false ->
  replace (x +:+ newline) (x' +:+ newline) l = l.
Proof.
  unfold replace. induction l as [|c l IH]; intros Hl; [done|].
  rewrite replace_go_unfold.
  destruct (String.prefix (x +:+ newline) (String c l)) eqn:Hp.
  - apply prefix_spec in Hp as [b Hb]. rewrite Hb in Hl.
    assert (Hin : str_in newline ((x +:+ newline) +:+ b) = true).
    { apply str_in_spec. exists x, b. by rewrite append_assoc. }
    congruence.
  - apply no_newline_cons in Hl as [_ Hl]. by rewrite (IH Hl).
Qed.

Lemma subst_end_no_newline x x' l :
  str_in newline x' = false -> str_in newline l = false ->
  str_in newline (subst_end x x' l) = false.
Proof.
  intros Hx'. induction l as [|c l IH]; intros Hl; cbn [subst_end].
  - by destruct (String.eqb "" x).
  - destruct (String.eqb (String c l) x); [done|].
    apply no_newline_cons in Hl as [Hc Hl]. rewrite str_in_cons, (IH Hl), orb_false_r.
    unfold newline. cbn [String.prefix]. destruct (ascii_dec "010" c) as [<-|_]; done.
Qed.

Lemma subst_end_end x x' p : subst_end x x' (p +:+ x) = p +:+ x'.
Proof.
  induction p as [|c p IH].
  - change ("" +:+ x) with x. destruct x; cbn [subst_end]; by rewrite String.eqb_refl.
  - rewrite append_cons. cbn [subst_end].
    destruct (String.eqb (String c (p +:+ x)) x) eqn:He; [|by rewrite IH].
    apply eqb_length in He. simpl in He. rewrite length_append in He. lia.
Qed.

Lemma subst_end_not_ends x x' l : ends_with x l = false -> subst_end x x' l = l.
Proof.
  induction l as [|c l IH]; intros He; cbn [subst_end].
  - destruct (String.eqb_spec "" x) as [<-|_]; [discriminate He | done].
  - destruct (String.eqb_spec (String c l) x) as [<-|_].
    + rewrite (proj2 (ends_with_spec _ _)) in He; [discriminate|]. by exists "".
    + rewrite IH; [done|]. destruct (ends_with x l) eqn:El; [|done].
      apply ends_with_spec in El as [p ->].
      rewrite (proj2 (ends_with_spec _ _)) in He; [discriminate|]. by exists (String c p).
Qed.

Lemma last_char_app p c s : last_char (p +:+ String c s) = last_char (String c s).
Proof.
  induction p as [|a p IH]; [done|]. rewrite append_cons. cbn [last_char].
  rewrite IH. by destruct (p +:+ String c s) eqn:E; [destruct p|].
Qed.

(** A line does not end with [x] when its last character is not that of [x]. *)
Lemma subst_end_last x x' l :
  last_char l <> last_char x -> x <> "" -> subst_end x x' l = l.
Proof.
  intros Hlast Hx. apply subst_end_not_ends.
  destruct (ends_with x l) eqn:He; [|done].
  apply ends_with_spec in He as [p ->]. destruct x as [|c x]; [done|].
  by rewrite last_char_app in Hlast.
Qed.

Ltac pass_line :=
  repeat match goal with
         | |- context [subst_end ?x ?x' (?p +:+ ?x)] => rewrite (subst_end_end x x' p)
         | |- context [subst_end ?x ?x' (?p +:+ ?s)] =>
             rewrite (subst_end_last x x' (p +:+ s))
               by (first [ rewrite last_char_app; discriminate | discriminate ])
         end.

(** What the build does to a line, the cleanup undoes. *)
Lemma line_round_trip l :
  ends_with "# python3" l = false -> ends_with "# python3-libs" l = false ->
  ends_with "# perl" l = false -> ends_with "# perl-interpreter" l = false ->
  restore_line (comment_out_line l) = l.
Proof.
  intros H1 H2 H3 H4. unfold restore_line, comment_out_line.
  destruct (ends_with "- python3" l) eqn:E1.
  { apply ends_with_spec in E1 as [p ->]. by pass_line. }
  rewrite (subst_end_not_ends _ _ _ E1).
  destruct (ends_with "- python3-libs" l) eqn:E2.
  { apply ends_with_spec in E2 as [p ->]. by pass_line. }
  rewrite (subst_end_not_ends _ _ _ E2).
  destruct (ends_with "- perl" l) eqn:E3.
  { apply ends_with_spec in E3 as [p ->]. by pass_line. }
  rewrite (subst_end_not_ends _ _ _ E3).
  destruct (ends_with "- perl-interpreter" l) eqn:E4.
  { apply ends_with_spec in E4 as [p ->]. by pass_line. }
  rewrite (subst_end_not_ends _ _ _ E4).
  by rewrite (subst_end_not_ends _ _ _ H1), (subst_end_not_ends _ _ _ H2),
    (subst_end_not_ends _ _ _ H3), (subst_end_not_ends _ _ _ H4).
Qed.

Ltac line_side :=
  first [ discriminate | reflexivity | assumption
        | repeat (apply subst_end_no_newline; [reflexivity|]); assumption ].

Lemma comment_out_cons l rest :
  str_in newline l = false ->
  comment_out (l +:+ newline +:+ rest)
  = comment_out_line l +:+ newline +:+ comment_out rest.
Proof.
  intros Hl. unfold comment_out, comment_out_line. cbv zeta.
  by rewrite !replace_line by line_side.
Qed.

Lemma restore_cons l rest :
  str_in newline l = false ->
  restore (l +:+ newline +:+ rest) = restore_line l +:+ newline +:+ restore rest.
Proof.
  intros Hl. unfold restore, restore_line. cbv zeta.
  by rewrite !replace_line by line_side.
Qed.

Lemma comment_out_last l : str_in newline l = false -> comment_out l = l.
Proof. intros Hl. unfold comment_out. cbv zeta. by rewrite !(replace_no_line _ _ l Hl). Qed.

Lemma restore_last l : str_in newline l = false -> restore l = l.
Proof. intros Hl. unfold restore. cbv zeta. by rewrite !(replace_no_line _ _ l Hl). Qed.

Lemma first_line c :
  str_in newline c = false
  \/ exists l rest, c = l +:+ newline +:+ rest /\ str_in newline l = false.
Proof.
  induction c as [|x c IH]; [by left|].
  destruct (Ascii.eqb_spec x "010") as [->|Hne]; [right; by exists "", c|].
  destruct IH as [Hc|(l & rest & -> & Hl)].
  - left. rewrite str_in_cons, Hc, orb_false_r. unfold newline.
    cbn [String.prefix]. destruct (ascii_dec "010" x) as [<-|_]; done.
  - right. exists (String x l), rest. split; [done|].
    rewrite str_in_cons, Hl, orb_false_r. unfold newline.
    cbn [String.prefix]. destruct (ascii_dec "010" x) as [<-|_]; done.
Qed.

Lemma round_trip_length n : forall c,
  (String.length c <= n)%nat ->
  str_in ("# python3" +:+ newline) c = false ->
  str_in ("# python3-libs" +:+ newline) c = false ->
  str_in ("# perl" +:+ newline) c = false ->
  str_in ("# perl-interpreter" +:+ newline) c = false ->
  restore (comment_out c) = c.
Proof.
  induction n as [|n IH]; intros c Hn H1 H2 H3 H4.
  - destruct c; [done | simpl in Hn; lia].
  - destruct (first_line c) as [Hc|(l & rest & -> & Hl)].
    { by rewrite (comment_out_last _ Hc), (restore_last _ Hc). }
    assert (Hends : forall x, str_in (x +:+ newline) (l +:+ newline +:+ rest) = false ->
                    ends_with x l = false).
    { intros x Hx. destruct (ends_with x l) eqn:He; [|done].
      apply ends_with_spec in He as [p ->]. rewrite <- Hx. symmetry.
      apply str_in_spec. exists p, rest. by rewrite !append_assoc. }
    assert (Hrest : forall y, str_in y (l +:+ newline +:+ rest) = false ->
                    str_in y rest = false).
    { intros y Hy. destruct (str_in y rest) eqn:Hr; [|done].
      rewrite <- Hy. symmetry. rewrite <- append_assoc. by apply str_in_app_r. }
    rewrite (comment_out_cons _ _ Hl), restore_cons.
    + rewrite line_round_trip by (by apply Hends).
      rewrite IH; [done| |by apply Hrest..].
      rewrite !length_append in Hn. simpl in Hn. lia.
    + unfold comment_out_line. line_side.
Qed.

(** X24. The cleanup of [build] undoes its patch of fedora-coreos.yaml: a
    manifest in which none of the four packages is commented out is, after
    [comment_out] and then [restore], the manifest it was. *)
Theorem restore_undoes_comment_out core_content :
  str_in ("# python3" +:+ newline) core_content = false ->
  str_in ("# python3-libs" +:+ newline) core_content = false ->
  str_in ("# perl" +:+ newline) core_content = false ->
  str_in ("# perl-interpreter" +:+ newline) core_content = false ->
  restore (comment_out core_content) = core_content.
Proof. by apply (round_trip_length (String.length core_content)). Qed.

Lemma restore_undoes_comment_out_witness :
  comment_out core_yaml
  = "packages:" +:+ newline +:+ "  # python3" +:+ newline +:+ "  # perl-interpreter"
    +:+ newline +:+ "  - vim"
  /\ restore (comment_out core_yaml) = core_yaml.
Proof.
  split; [vm_compute; reflexivity|].
  apply restore_undoes_comment_out; vm_compute; reflexivity.
Defined.

(** ** The steps of the assembler *)

Section Steps.
Variable respond : list event -> string -> Result.

(** X25. The build runs the six steps of the assembler in order and stops at
    the first that exits non-zero: the commands issued are a beginning of
    the six, none but the last has failed, the build exits exactly when
    the last one failed, and a build that goes on has run all six. *)
Theorem build_steps_stop_at_failure cmd t0 o t1 :
  build_steps respond cmd t0 = (o, t1) ->
  exists issued,
    t1 = t0 ++ issued
    /\ commands issued `prefix_of` ((fun step => cmd +:+ " " +:+ step) <$> steps)
    /\ existsb failed (removelast issued) = false
    /\ (o = Exit <-> existsb failed issued = true)
    /\ (o = Done () ->
        commands issued = (fun step => cmd +:+ " " +:+ step) <$> steps).
Proof.
  intros H. unfold build_steps, build_step in H. cbv zeta in H. exec H.
  all: eexists; split; [reflexivity|].
  all: cbn [commands removelast existsb failed fmap list_fmap steps].
  all: use_path; cbn [orb].
  all: split; [by eexists|].
  all: split; [reflexivity|].
  all: split; [split; [intros Ho | intros Hf]; try discriminate; reflexivity|].
  all: intros Ho; try discriminate Ho; reflexivity.
Qed.
End Steps.

Lemma build_steps_stop_at_failure_witness :
  exists t1,
    build_steps offline_host "cosa" [] = (Exit, t1)
    /\ commands t1 = ["cosa init /git"; "cosa fetch"].
Proof.
  eexists. split; [vm_compute; reflexivity|].
  edestruct (build_steps_stop_at_failure offline_host "cosa" [])
    as (issued & Heq & _); [vm_compute; reflexivity|].
  reflexivity.
Defined.

End BuilderFacts.

(* ===================================================================== *)
(** * Facts about the BlueField lookup *)
(* ===================================================================== *)

Module DpuFacts.
Import Py ClustersConfig VirBridge BridgeProps CoreosBuilder DpuTenant DpuProps.
Import ResolverFacts BridgeFacts ResolverMore BuilderFacts.

(** X26. The port chosen is the last one, in the order of [all_ports], that
    answered ethtool with a bus-info ending in the address of the
    BlueField; when there is none, building the VF ranges raises
    [TypeError]. *)
Theorem last_port_on_bus_wins ports bf bf_port :
  bf_port_of ports bf None = Got bf_port ->
  bf_port = last (List.filter (on_bus bf) ports).*1
  /\ (bf_port = None -> bf_ports ports bf = Failed TypeError)
  /\ (forall p, bf_port = Some p -> bf_ports ports bf = Got (p +:+ "#1-15", p +:+ "#0-0")).
Proof.
  intros H.
  assert (Hgen : forall acc r,
            bf_port_of ports bf acc = Got r ->
            r = match last (List.filter (on_bus bf) ports).*1 with
                | Some x => Some x
                | None => acc
                end).
  { clear. induction ports as [|[ifname ret] ports IH]; intros acc r H; simpl in H.
    - by injection H as <-.
    - unfold on_bus at 1. cbn [List.filter snd].
      destruct (returncode ret =? 0) eqn:Hrc; cbn [negb andb] in H |- *; [|by apply IH].
      destruct (driver_info _ ∅) as [d|e]; [|discriminate].
      destruct (d !! "bus-info") as [v|]; [|discriminate].
      apply IH in H. destruct (ends_with bf v); [|done].
      cbn [fmap list_fmap fst] in H |- *. rewrite last_cons.
      by destruct (last _). }
  pose proof (Hgen _ _ H) as Hsel. unfold bf_ports. rewrite H. split.
  - rewrite Hsel. by destruct (last _).
  - split; [by intros -> | by intros p ->].
Qed.

Lemma last_port_on_bus_wins_witness :
  bf_port_of example_ports "3b:00.0" None = Got (Some "ens1f1")
  /\ bf_ports example_ports "3b:00.0" = Got ("ens1f1#1-15", "ens1f1#0-0").
Proof.
  split; [vm_compute; reflexivity|].
  destruct (last_port_on_bus_wins example_ports "3b:00.0" (Some "ens1f1"))
    as (_ & _ & Hsome); [vm_compute; reflexivity|].
  exact (Hsome "ens1f1" eq_refl).
Defined.

(** ** The address of the BlueField *)








End DpuFacts.
